(** * Tensor observation by monkey patching: a shallow embedding

    The development follows
    [explainable_ai_sdk/metadata/tf/v1/monkey_patch_utils.py]:
    the registry written by the observing wrappers
    ([FeatureTensors], [_add_input_tensor_to_dict],
    [_add_encoded_tensor_to_dict]), the five observing wrappers, and the
    patching machinery of [EstimatorMonkeyPatchHelper]
    ([_patch_entities], [_unpatch_entities], [exporting_context]).

    Python code mutates shared objects and raises exceptions; both are
    made explicit with a state-and-exception monad in which the state
    survives a raise, as it does in Python.

    Two smaller parts follow: the selection of an attribution
    ([explainable_ai_sdk/model/explanation.py], known here through its
    test) and the metadata builder of
    [explainable_ai_sdk/metadata/tf/v2/saved_model_metadata_builder.py]. *)

From Stdlib Require Import QArith.
From stdpp Require Import gmap strings list fin_maps.

(** ** Exceptions and the monad *)

Inductive exn :=
| ValueError (msg : string)
| AttributeError (attr : string)
| TypeError
| IndexError
| KeyError (key : nat)
| Raised (tag : nat).  (* an exception of the framework or of the export *)

Inductive result (A : Type) :=
| Ok (a : A)
| Raise (e : exn).
Arguments Ok {A} a.
Arguments Raise {A} e.

Definition M (S A : Type) : Type := S → result A * S.

#[global] Instance M_ret {S} : MRet (M S) := λ A a s, (Ok a, s).
#[global] Instance M_bind {S} : MBind (M S) :=
  λ A B k m s, match m s with
               | (Ok a, s') => k a s'
               | (Raise e, s') => (Raise e, s')
               end.
#[global] Instance M_throw {S} : MThrow exn (M S) := λ A e s, (Raise e, s).

Definition get {S} : M S S := λ s, (Ok s, s).
Definition modify {S} (f : S → S) : M S unit := λ s, (Ok tt, f s).

(** [for x in l: body x] *)
Fixpoint for_each {S A} (l : list A) (body : A → M S unit) : M S unit :=
  match l with
  | [] => mret tt
  | x :: rest => body x ;; for_each rest body
  end.

(** ** Tensor handles

    The wrappers store whatever the framework functions return: tensors,
    sparse tensors, [IdWeightPair] tuples.  The module only ever tests
    them with Python's [in] (identity first, then [==]), asks
    [isinstance(tensor, tf.SparseTensor)] and builds
    [IdWeightPair(tensor, None)].  Their classes live in the framework,
    so they are an interface here. *)

Class PyHandle (handle : Type) := {
  same_object : handle → handle → bool;        (* [x is y] *)
  py_eq : handle → handle → bool;              (* [x == y] *)
  is_sparse_tensor : handle → bool;            (* [isinstance(x, tf.SparseTensor)] *)
  IdWeightPair : nat → handle → handle;        (* a new [IdWeightPair(x, None)] at an address *)
  same_object_refl : ∀ x, same_object x x = true
}.

Section Handles.
Context {handle : Type} `{PyHandle handle}.

(** [x in l] on a Python list. *)
Definition py_in (x : handle) (l : list handle) : bool :=
  existsb (λ e, same_object x e || py_eq x e) l.
End Handles.

(** ** Feature columns

    The class hierarchy is the one drawn in the module docstring:
    bucketized columns are both dense and categorical, crossed and
    weighted columns are categorical. *)

Inductive ColumnClass :=
| DenseColumn | CategoricalColumn
| NumericColumn | EmbeddingColumn | IndicatorColumn | BucketizedColumn
| VocabularyListCategoricalColumn | VocabularyFileCategoricalColumn
| IdentityCategoricalColumn | HashedCategoricalColumn
| CrossedColumn | WeightedCategoricalColumn.

#[global] Instance ColumnClass_eq_dec : EqDecision ColumnClass.
Proof. solve_decision. Defined.

Definition issubclass (c k : ColumnClass) : bool :=
  match k with
  | DenseColumn =>
      bool_decide (c ∈ [DenseColumn; NumericColumn; EmbeddingColumn;
                        IndicatorColumn; BucketizedColumn])
  | CategoricalColumn =>
      bool_decide (c ∈ [CategoricalColumn; VocabularyListCategoricalColumn;
                        VocabularyFileCategoricalColumn;
                        IdentityCategoricalColumn; HashedCategoricalColumn;
                        CrossedColumn; BucketizedColumn;
                        WeightedCategoricalColumn])
  | _ => bool_decide (c = k)
  end.

(** A feature column object: its class, its [name], the
    [categorical_column] attribute when the object has one
    ([hasattr(fc, 'categorical_column')]), and its [keys].  A key of a
    crossed column is a feature name (a string) or a column. *)
#[local] Unset Elimination Schemes.
Inductive Column :=
| FC (cls : ColumnClass) (name : string)
     (categorical_column : option Column) (keys : list (string + Column)).
#[local] Set Elimination Schemes.

Definition cls (fc : Column) : ColumnClass := let 'FC c _ _ _ := fc in c.
Definition name (fc : Column) : string := let 'FC _ n _ _ := fc in n.
Definition categorical_column (fc : Column) : option Column :=
  let 'FC _ _ cc _ := fc in cc.
Definition keys (fc : Column) : list (string + Column) :=
  let 'FC _ _ _ ks := fc in ks.

Definition isinstance (fc : Column) (k : ColumnClass) : bool :=
  issubclass (cls fc) k.

(** [key.name] on a key of a crossed column: a string has no attribute
    [name]. *)
Definition key_name {S} (key : string + Column) : M S string :=
  match key with
  | inr column => mret (name column)
  | inl _ => mthrow (AttributeError "name")
  end.

(** The elements of the comprehension [{key.name for key in ks}], in the
    order they are computed. *)
Fixpoint key_names {S} (ks : list (string + Column)) : M S (list string) :=
  match ks with
  | [] => mret []
  | key :: rest =>
      n ← key_name key;
      ns ← key_names rest;
      mret (n :: ns)
  end.

(** ** The registry *)

(** [FeatureTensors(input_tensor, encoded_tensors=())]; the constructor
    stores [encoded_tensors or []], a list of its own. *)
Record FeatureTensors (handle : Type) := mkFeatureTensors {
  input_tensor : handle;
  encoded_tensors : list handle
}.
Arguments mkFeatureTensors {handle} input_tensor encoded_tensors.
Arguments input_tensor {handle} f.
Arguments encoded_tensors {handle} f.

(** Every list and every [FeatureTensors] object of the dictionary is
    created by [_add_input_tensor_to_dict] and stored in one place, so the
    dictionary is modelled by value. *)
Abbreviation feature_dict handle := (gmap string (list (FeatureTensors handle))).

Section Registry.
Context {handle : Type} `{PyHandle handle}.

Definition FeatureTensors_init (tensor : handle) : FeatureTensors handle :=
  mkFeatureTensors tensor [].

(** What a successful [_add_encoded_tensor_to_dict] makes of the last
    record. *)
Definition with_encoded (tensor : handle) (r : FeatureTensors handle)
  : FeatureTensors handle :=
  mkFeatureTensors (input_tensor r)
    (if py_in tensor (encoded_tensors r) then encoded_tensors r
     else encoded_tensors r ++ [tensor]).

Definition _add_input_tensor_to_dict (fc : Column) (tensor : handle)
  : M (feature_dict handle) unit :=
  feature_tensors ← get (S := feature_dict handle);
  let feature_tensors_list := default [] ((feature_tensors : feature_dict handle) !! name fc) in
  let feature_tensors_list :=
    if negb (py_in tensor (input_tensor <$> feature_tensors_list))
    then feature_tensors_list ++ [FeatureTensors_init tensor]
    else feature_tensors_list in
  modify (λ _, <[name fc := feature_tensors_list]> feature_tensors).

Definition _add_encoded_tensor_to_dict (fc : Column) (tensor : handle)
  : M (feature_dict handle) unit :=
  feature_tensors ← get (S := feature_dict handle);
  match (feature_tensors : feature_dict handle) !! name fc with
  | None =>
      mthrow (ValueError "Trying to add encoded tensors with no input tensor.")
  | Some l =>
      (* [feature_tensors[fc.name][-1]] *)
      match l !! (length l - 1) with
      | None => mthrow IndexError
      | Some feature_tensor =>
          if negb (py_in tensor (encoded_tensors feature_tensor))
          then
            let feature_tensor' :=
              mkFeatureTensors (input_tensor feature_tensor)
                               (encoded_tensors feature_tensor ++ [tensor]) in
            modify (λ _, <[name fc := <[length l - 1 := feature_tensor']> l]>
                            feature_tensors)
          else mret tt
      end
  end.
End Registry.

(** ** Patch targets and function objects *)

(** The objects whose attributes are replaced: the feature-column
    classes and the two modules. *)
Inductive Entity :=
| Class (c : ColumnClass)
| fc2
| export_lib.

#[global] Instance Entity_eq_dec : EqDecision Entity.
Proof. solve_decision. Defined.

Definition ColumnClass_code (c : ColumnClass) : nat :=
  match c with
  | DenseColumn => 0 | CategoricalColumn => 1 | NumericColumn => 2
  | EmbeddingColumn => 3 | IndicatorColumn => 4 | BucketizedColumn => 5
  | VocabularyListCategoricalColumn => 6
  | VocabularyFileCategoricalColumn => 7
  | IdentityCategoricalColumn => 8 | HashedCategoricalColumn => 9
  | CrossedColumn => 10 | WeightedCategoricalColumn => 11
  end.

Definition Entity_code (o : Entity) : nat :=
  match o with
  | fc2 => 0
  | export_lib => 1
  | Class c => 2 + ColumnClass_code c
  end.

Definition Entity_of_code (n : nat) : option Entity :=
  match n with
  | 0 => Some fc2
  | 1 => Some export_lib
  | 2 => Some (Class DenseColumn) | 3 => Some (Class CategoricalColumn)
  | 4 => Some (Class NumericColumn) | 5 => Some (Class EmbeddingColumn)
  | 6 => Some (Class IndicatorColumn) | 7 => Some (Class BucketizedColumn)
  | 8 => Some (Class VocabularyListCategoricalColumn)
  | 9 => Some (Class VocabularyFileCategoricalColumn)
  | 10 => Some (Class IdentityCategoricalColumn)
  | 11 => Some (Class HashedCategoricalColumn)
  | 12 => Some (Class CrossedColumn)
  | 13 => Some (Class WeightedCategoricalColumn)
  | _ => None
  end.

#[global] Instance Entity_countable : Countable Entity.
Proof.
  apply (inj_countable Entity_code Entity_of_code).
  intros [[]| |]; reflexivity.
Defined.

(** An attribute of a patch target: the object and the attribute name. *)
Definition Slot : Type := Entity * string.

(** Function objects.  [Builtin a] is a function of the framework, named by
    its address; the other constructors are the closures returned by the
    [_make_observing_*] methods, holding the [old_fn] (and [output_key])
    they close over.  The dictionaries they close over are those of the
    one helper of the [World] below. *)
Inductive Fn :=
| Builtin (addr : nat)
| Closure_observing_get_dense_tensor (old_fn : Fn)
| Closure_observing_get_sparse_tensors (old_fn : Fn)
| Closure_observing_create_weighted_sum (old_fn : Fn)
| Closure_observing_export_outputs_for_mode (old_fn : Fn)
                                            (output_key : option string)
| Closure_observing_transform_features_v2 (old_fn : Fn).

#[global] Instance Fn_eq_dec : EqDecision Fn.
Proof. solve_decision. Defined.

(** Objects that are only passed through, named by address. *)
Definition Opaque : Type := nat.

(** [prediction_keys.PredictionKeys] of the estimator package. *)
Definition LOGITS : string := "logits".
Definition PREDICTIONS : string := "predictions".

Definition _FEATURE_COLUMNS_TO_PATCH_DENSE : list Entity :=
  [Class DenseColumn; Class NumericColumn; Class EmbeddingColumn;
   Class IndicatorColumn; Class BucketizedColumn].

Definition _FEATURE_COLUMNS_TO_PATCH_SPARSE : list Entity :=
  [Class VocabularyListCategoricalColumn;
   Class VocabularyFileCategoricalColumn;
   Class IdentityCategoricalColumn; Class HashedCategoricalColumn;
   Class CrossedColumn; Class BucketizedColumn;
   Class WeightedCategoricalColumn].

(** ** The helper and the process state *)

Section Engine.
Context {handle : Type} `{PyHandle handle}.

(** The attributes of an [EstimatorMonkeyPatchHelper].  [__init__] sets
    the three containers; the [_actual_*] attributes exist only once
    [_patch_estimator_to_observe] has assigned them. *)
Record Helper := mkHelper {
  _feature_tensors_dict : feature_dict handle;
  _output_tensors_dict : gmap string handle;
  _crossed_columns : gset string;
  _actual_get_dense_tensor_list : option (list Fn);
  _actual_get_sparse_tensors_list : option (list Fn);
  _actual_create_weighted_sum : option Fn;
  _actual_export_for_mode : option Fn;
  _actual_transform : option Fn
}.

Definition Helper_init : Helper :=
  mkHelper ∅ ∅ ∅ None None None None None.

(** The part of the process the module reads and writes: the attributes
    of the patch targets, the helper, the sequence of [setattr] calls
    made so far, and the next free object address. *)
Record World := mkWorld {
  attrs : gmap Slot Fn;
  helper : Helper;
  setattr_log : list Slot;
  next_addr : nat
}.

Definition with_helper (f : Helper → Helper) : M World unit :=
  modify (λ w, mkWorld (attrs w) (f (helper w)) (setattr_log w) (next_addr w)).

(** Run an operation that works on the dictionary it is handed, on the
    helper's [_feature_tensors_dict]: every wrapper is built with
    [feature_tensors=self._feature_tensors_dict]. *)
Definition on_feature_tensors {A} (m : M (feature_dict handle) A) : M World A :=
  λ w, let '(r, d) := m (_feature_tensors_dict (helper w)) in
       let h := helper w in
       (r, mkWorld (attrs w)
             (mkHelper d (_output_tensors_dict h) (_crossed_columns h)
                (_actual_get_dense_tensor_list h)
                (_actual_get_sparse_tensors_list h)
                (_actual_create_weighted_sum h) (_actual_export_for_mode h)
                (_actual_transform h))
             (setattr_log w) (next_addr w)).

Definition set_output_tensors (d : gmap string handle) (h : Helper) : Helper :=
  mkHelper (_feature_tensors_dict h) d (_crossed_columns h)
    (_actual_get_dense_tensor_list h) (_actual_get_sparse_tensors_list h)
    (_actual_create_weighted_sum h) (_actual_export_for_mode h)
    (_actual_transform h).

Definition set_crossed_columns (s : gset string) (h : Helper) : Helper :=
  mkHelper (_feature_tensors_dict h) (_output_tensors_dict h) s
    (_actual_get_dense_tensor_list h) (_actual_get_sparse_tensors_list h)
    (_actual_create_weighted_sum h) (_actual_export_for_mode h)
    (_actual_transform h).

Definition set_actual_get_dense_tensor_list (l : list Fn) (h : Helper) : Helper :=
  mkHelper (_feature_tensors_dict h) (_output_tensors_dict h)
    (_crossed_columns h) (Some l) (_actual_get_sparse_tensors_list h)
    (_actual_create_weighted_sum h) (_actual_export_for_mode h)
    (_actual_transform h).

Definition set_actual_get_sparse_tensors_list (l : list Fn) (h : Helper) : Helper :=
  mkHelper (_feature_tensors_dict h) (_output_tensors_dict h)
    (_crossed_columns h) (_actual_get_dense_tensor_list h) (Some l)
    (_actual_create_weighted_sum h) (_actual_export_for_mode h)
    (_actual_transform h).

Definition set_actual_create_weighted_sum (f : Fn) (h : Helper) : Helper :=
  mkHelper (_feature_tensors_dict h) (_output_tensors_dict h)
    (_crossed_columns h) (_actual_get_dense_tensor_list h)
    (_actual_get_sparse_tensors_list h) (Some f) (_actual_export_for_mode h)
    (_actual_transform h).

Definition set_actual_export_for_mode (f : Fn) (h : Helper) : Helper :=
  mkHelper (_feature_tensors_dict h) (_output_tensors_dict h)
    (_crossed_columns h) (_actual_get_dense_tensor_list h)
    (_actual_get_sparse_tensors_list h) (_actual_create_weighted_sum h)
    (Some f) (_actual_transform h).

Definition set_actual_transform (f : Fn) (h : Helper) : Helper :=
  mkHelper (_feature_tensors_dict h) (_output_tensors_dict h)
    (_crossed_columns h) (_actual_get_dense_tensor_list h)
    (_actual_get_sparse_tensors_list h) (_actual_create_weighted_sum h)
    (_actual_export_for_mode h) (Some f).

(** [crossed_columns.add(x)] and [crossed_columns.update(xs)] *)
Definition crossed_columns_add (x : string) : M World unit :=
  with_helper (λ h, set_crossed_columns (_crossed_columns h ∪ {[x]}) h).

Definition crossed_columns_update (xs : gset string) : M World unit :=
  with_helper (λ h, set_crossed_columns (_crossed_columns h ∪ xs) h).

(** [IdWeightPair(tensor, None)]: a new object at the next free address. *)
Definition new_IdWeightPair (tensor : handle) : M World handle :=
  λ w, (Ok (IdWeightPair (next_addr w) tensor),
        mkWorld (attrs w) (helper w) (setattr_log w) (S (next_addr w))).

(** *** The observing wrappers

    Each takes the behaviour of the function it wraps, [old_fn], which is
    framework code: any computation over the process state. *)

(** Truth value of [output_key]: [None] and the empty string are false. *)
Definition truthy (output_key : option string) : bool :=
  match output_key with
  | None => false
  | Some k => negb (bool_decide (k = ""))
  end.

(** [observing_dict[k] = t] with [observing_dict] the helper's
    [_output_tensors_dict]. *)
Definition observing_dict_set (k : string) (t : handle) : M World unit :=
  with_helper (λ h, set_output_tensors (<[k := t]> (_output_tensors_dict h)) h).

Definition _observing_export_outputs_for_mode
    (old_fn : Opaque → Opaque → option (gmap string handle) → Opaque → Opaque
              → M World Opaque)
    (output_key : option string)
    (mode serving_export_outputs : Opaque)
    (predictions : option (gmap string handle))
    (loss metrics : Opaque) : M World Opaque :=
  (* [k in predictions] raises a [TypeError] when [predictions] is [None] *)
  match predictions with
  | None => mthrow TypeError
  | Some preds =>
      (if truthy output_key then
         let k := default "" output_key in
         match preds !! k with
         | None => mthrow (ValueError ("Output key " +:+ k +:+ " is not found."))
         | Some t => observing_dict_set k t
         end
       else
         match preds !! LOGITS with
         | Some t => observing_dict_set LOGITS t
         | None =>
             match preds !! PREDICTIONS with
             | Some t => observing_dict_set PREDICTIONS t
             | None =>
                 mthrow (ValueError
                           "Output keys are not specified and not inferred.")
             end
         end);;
      result ← old_fn mode serving_export_outputs predictions loss metrics;
      mret result
  end.

Definition _observing_get_dense_tensor
    (old_fn : Column → Opaque → M World handle)
    (instance : Column) (args : Opaque) : M World handle :=
  result ← old_fn instance args;
  let fc := instance in
  match categorical_column fc with
  | Some fc =>
      (* Source column of bucketized is already added. *)
      if isinstance fc BucketizedColumn then mret result
      else if isinstance fc CrossedColumn then
        for_each (keys fc) (λ column,
          match column with
          | inr column =>
              crossed_columns_add (name column);;
              on_feature_tensors (_add_encoded_tensor_to_dict column result)
          | inl _ => mthrow (AttributeError "name")
          end);;
        mret result
      else
        on_feature_tensors (_add_encoded_tensor_to_dict fc result);;
        mret result
  | None =>
      if negb (isinstance fc BucketizedColumn) then
        on_feature_tensors (_add_input_tensor_to_dict fc result);;
        mret result
      else mret result
  end.

Definition _observing_get_sparse_tensors
    (old_fn : Column → Opaque → M World handle)
    (instance : Column) (args : Opaque) : M World handle :=
  result ← old_fn instance args;
  if negb (isinstance instance CrossedColumn
           || isinstance instance BucketizedColumn) then
    fc ← (if negb (isinstance instance WeightedCategoricalColumn)
          then mret instance
          else match categorical_column instance with
               | Some c => mret c
               | None => mthrow (AttributeError "categorical_column")
               end);
    on_feature_tensors (_add_input_tensor_to_dict fc result);;
    mret result
  else mret result.

Definition _observing_create_weighted_sum
    (old_fn : Column → Opaque → M World handle)
    (column : Column) (args : Opaque) : M World handle :=
  result ← old_fn column args;
  if isinstance column CategoricalColumn
     && negb (isinstance column BucketizedColumn) then
    if isinstance column CrossedColumn then
      (names ← key_names (keys column);
       crossed_columns_update (list_to_set names));;
      mret result
    else
      let fc := default column (categorical_column column) in
      on_feature_tensors (_add_encoded_tensor_to_dict fc result);;
      mret result
  else mret result.

(** [result] is a dictionary from columns to tensors; [result.items()]
    is its list of pairs. *)
Definition _observing_transform_features_v2
    (old_fn : Opaque → Opaque → Opaque → M World (list (Column * handle)))
    (features feature_columns args : Opaque)
  : M World (list (Column * handle)) :=
  result ← old_fn features feature_columns args;
  for_each result (λ '(fc, tensor),
    w ← get;
    (* Boosted trees don't call get_dense_tensor or get_sparse_tensor
       (if the column is wrapped). *)
    if negb (bool_decide (is_Some (categorical_column fc)))
       && negb (bool_decide
                  (is_Some (_feature_tensors_dict (helper w) !! name fc)))
    then
      tensor ← (if is_sparse_tensor tensor then new_IdWeightPair tensor
                else mret tensor);
      on_feature_tensors (_add_input_tensor_to_dict fc tensor)
    else mret tt);;
  mret result.

(** *** Patching

    [getattr(obj, name)] and [setattr(obj, name, value)] on the patch
    targets.  Each patched class defines the patched method itself and
    the modules hold their functions directly, so an attribute is read
    from the object's own namespace. *)
Definition getattr (o : Entity) (attr_name : string) : M World Fn :=
  w ← get;
  match attrs w !! (o, attr_name) with
  | Some f => mret f
  | None => mthrow (AttributeError attr_name)
  end.

Definition setattr (o : Entity) (attr_name : string) (f : Fn) : M World unit :=
  modify (λ w, mkWorld (<[(o, attr_name) := f]> (attrs w)) (helper w)
                 (setattr_log w ++ [(o, attr_name)]) (next_addr w)).

(** The [_make_observing_*] methods return the closure. *)
Definition _make_observing_export_outputs_for_mode
    (output_key : option string) (old_fn : Fn) : Fn :=
  Closure_observing_export_outputs_for_mode old_fn output_key.
Definition _make_observing_get_dense_tensor (old_fn : Fn) : Fn :=
  Closure_observing_get_dense_tensor old_fn.
Definition _make_observing_get_sparse_tensors (old_fn : Fn) : Fn :=
  Closure_observing_get_sparse_tensors old_fn.
Definition _make_observing_create_weighted_sum (old_fn : Fn) : Fn :=
  Closure_observing_create_weighted_sum old_fn.
Definition _make_observing_transform_features_v2 (old_fn : Fn) : Fn :=
  Closure_observing_transform_features_v2 old_fn.

(** The loop of [_patch_entities], with the [originals] collected so far. *)
Fixpoint _patch_entities_loop (objects_to_patch : list Entity)
    (attr_name : string) (patching_function : Fn → Fn)
    (originals : list Fn) : M World (list Fn) :=
  match objects_to_patch with
  | [] => mret originals
  | object_to_patch :: rest =>
      original ← getattr object_to_patch attr_name;
      let new_attr := patching_function original in
      setattr object_to_patch attr_name new_attr;;
      _patch_entities_loop rest attr_name patching_function
                           (originals ++ [original])
  end.

Definition _patch_entities (objects_to_patch : list Entity)
    (attr_name : string) (patching_function : Fn → Fn) : M World (list Fn) :=
  _patch_entities_loop objects_to_patch attr_name patching_function [].

(** [zip] stops at the shorter list. *)
Definition _unpatch_entities (objects_patched : list Entity)
    (attr_name : string) (originals : list Fn) : M World unit :=
  for_each (zip objects_patched originals) (λ '(patched_object, original_fun),
    setattr patched_object attr_name original_fun).

(** [l[0]] *)
Definition first {A} (l : list A) : M World A :=
  match l with
  | x :: _ => mret x
  | [] => mthrow IndexError
  end.

(** Reading an attribute of [self] that may not have been assigned. *)
Definition self_attr {A} (attr_name : string) (field : Helper → option A)
  : M World A :=
  w ← get;
  match field (helper w) with
  | Some x => mret x
  | None => mthrow (AttributeError attr_name)
  end.

Definition _patch_estimator_to_observe (output_key : option string)
  : M World unit :=
  (* Patch get_dense_tensor() for all dense feature columns. *)
  l ← _patch_entities _FEATURE_COLUMNS_TO_PATCH_DENSE "get_dense_tensor"
        _make_observing_get_dense_tensor;
  with_helper (set_actual_get_dense_tensor_list l);;
  (* Patch get_sparse_tensors() for all categorical feature columns. *)
  l ← _patch_entities _FEATURE_COLUMNS_TO_PATCH_SPARSE "get_sparse_tensors"
        _make_observing_get_sparse_tensors;
  with_helper (set_actual_get_sparse_tensors_list l);;
  (* Patch _create_weighted_sum() to get dense versions for linear models. *)
  l ← _patch_entities [fc2] "_create_weighted_sum"
        _make_observing_create_weighted_sum;
  f ← first l;
  with_helper (set_actual_create_weighted_sum f);;
  (* Patch export_outputs_for_mode() to get output tensors. *)
  l ← _patch_entities [export_lib] "export_outputs_for_mode"
        (_make_observing_export_outputs_for_mode output_key);
  f ← first l;
  with_helper (set_actual_export_for_mode f);;
  (* Patch _transform_features_v2() to observe input tensors for Boosted
     Trees. *)
  l ← _patch_entities [fc2] "_transform_features_v2"
        _make_observing_transform_features_v2;
  f ← first l;
  with_helper (set_actual_transform f).

Definition _unpatch_estimator_to_observe : M World unit :=
  l ← self_attr "_actual_get_dense_tensor_list" _actual_get_dense_tensor_list;
  _unpatch_entities _FEATURE_COLUMNS_TO_PATCH_DENSE "get_dense_tensor" l;;
  l ← self_attr "_actual_get_sparse_tensors_list"
        _actual_get_sparse_tensors_list;
  _unpatch_entities _FEATURE_COLUMNS_TO_PATCH_SPARSE "get_sparse_tensors" l;;
  f ← self_attr "_actual_create_weighted_sum" _actual_create_weighted_sum;
  _unpatch_entities [fc2] "_create_weighted_sum" [f];;
  f ← self_attr "_actual_export_for_mode" _actual_export_for_mode;
  _unpatch_entities [export_lib] "export_outputs_for_mode" [f];;
  f ← self_attr "_actual_transform" _actual_transform;
  _unpatch_entities [fc2] "_transform_features_v2" [f].

(** [with helper.exporting_context(output_key): body].  The generator
    patches, yields inside [try], and unpatches in [finally]: the body's
    exception, if any, is re-raised after the unpatching; an exception of
    the patching itself leaves before the [try]. *)
Definition exporting_context (output_key : option string)
    (body : M World unit) : M World unit :=
  λ w,
    match _patch_estimator_to_observe output_key w with
    | (Raise e, w1) => (Raise e, w1)
    | (Ok _, w1) =>
        let '(r, w2) := body w1 in
        match _unpatch_estimator_to_observe w2 with
        | (Raise e, w3) => (Raise e, w3)
        | (Ok _, w3) => (r, w3)
        end
    end.
End Engine.
Arguments Helper handle : clear implicits.
Arguments World handle : clear implicits.

(** ** A concrete universe of handles

    Objects carry their address.  Tensors and sparse tensors compare by
    identity (graph-mode tensors do not overload [==]); [IdWeightPair] is
    a named tuple and compares, as every tuple does, component by
    component, each pair of components by identity and then by [==]. *)

#[local] Unset Elimination Schemes.
Inductive pyobj :=
| TensorObj (addr : nat)
| SparseTensorObj (addr : nat)
| IdWeightPairObj (addr : nat) (id_tensor : pyobj)
                  (weight_tensor : option pyobj).
#[local] Set Elimination Schemes.

Definition addr_of (x : pyobj) : nat :=
  match x with
  | TensorObj a | SparseTensorObj a | IdWeightPairObj a _ _ => a
  end.

Definition pyobj_is (x y : pyobj) : bool := addr_of x =? addr_of y.

Fixpoint pyobj_eq (x y : pyobj) : bool :=
  match x, y with
  | IdWeightPairObj _ i w, IdWeightPairObj _ i' w' =>
      (pyobj_is i i' || pyobj_eq i i')
      && match w, w' with
         | None, None => true
         | Some a, Some b => pyobj_is a b || pyobj_eq a b
         | _, _ => false
         end
  | _, _ => pyobj_is x y
  end.

#[global] Instance pyobj_handle : PyHandle pyobj := {|
  same_object := pyobj_is;
  py_eq := pyobj_eq;
  is_sparse_tensor := λ x, match x with SparseTensorObj _ => true | _ => false end;
  IdWeightPair := λ a t, IdWeightPairObj a t None;
  same_object_refl := λ x, Nat.eqb_refl (addr_of x)
|}.

(** ** Vocabulary for the statements about patching *)

(** The attributes [_patch_estimator_to_observe] replaces, in the order
    of its five [_patch_entities] calls. *)
Definition patched_slots : list Slot :=
  ((λ o, (o, "get_dense_tensor")) <$> _FEATURE_COLUMNS_TO_PATCH_DENSE)
  ++ ((λ o, (o, "get_sparse_tensors")) <$> _FEATURE_COLUMNS_TO_PATCH_SPARSE)
  ++ [(fc2, "_create_weighted_sum");
      (export_lib, "export_outputs_for_mode");
      (fc2, "_transform_features_v2")].

(** The [patching_function] each [_patch_entities] call is given. *)
Definition replacement (output_key : option string) (attr_name : string)
  : Fn → Fn :=
  if decide (attr_name = "get_dense_tensor")
  then Closure_observing_get_dense_tensor
  else if decide (attr_name = "get_sparse_tensors")
  then Closure_observing_get_sparse_tensors
  else if decide (attr_name = "_create_weighted_sum")
  then Closure_observing_create_weighted_sum
  else if decide (attr_name = "export_outputs_for_mode")
  then λ f, Closure_observing_export_outputs_for_mode f output_key
  else Closure_observing_transform_features_v2.

(** [setattr(o, attr_name, f)] for the pairs of [zip(objs, fs)], on the
    attribute store alone. *)
Definition set_all (attr_name : string) (objs : list Entity) (fs : list Fn)
    (m : gmap Slot Fn) : gmap Slot Fn :=
  foldl (λ m p, <[(p.1, attr_name) := p.2]> m) m (zip objs fs).

(** The attribute store after the five groups of [setattr] calls that
    [_patch_estimator_to_observe] and [_unpatch_estimator_to_observe] both
    make, in their common order. *)
Definition set_groups (l1 l2 : list Fn) (g3 g4 g5 : Fn) (m : gmap Slot Fn)
  : gmap Slot Fn :=
  set_all "_transform_features_v2" [fc2] [g5]
    (set_all "export_outputs_for_mode" [export_lib] [g4]
       (set_all "_create_weighted_sum" [fc2] [g3]
          (set_all "get_sparse_tensors" _FEATURE_COLUMNS_TO_PATCH_SPARSE l2
             (set_all "get_dense_tensor" _FEATURE_COLUMNS_TO_PATCH_DENSE l1 m)))).

(** The originals of the five groups, as read in an attribute store. *)
Definition originals_in (m : gmap Slot Fn) (fs1 fs2 : list Fn)
    (f3 f4 f5 : Fn) : Prop :=
  Forall2 (λ o f, m !! (o, "get_dense_tensor") = Some f)
          _FEATURE_COLUMNS_TO_PATCH_DENSE fs1 ∧
  Forall2 (λ o f, m !! (o, "get_sparse_tensors") = Some f)
          _FEATURE_COLUMNS_TO_PATCH_SPARSE fs2 ∧
  m !! (fc2, "_create_weighted_sum") = Some f3 ∧
  m !! (export_lib, "export_outputs_for_mode") = Some f4 ∧
  m !! (fc2, "_transform_features_v2") = Some f5.

Section Saved.
Context {handle : Type}.

(** The five [_actual_*] attributes of the helper. *)
Definition saved_originals (h : Helper handle) :=
  (_actual_get_dense_tensor_list h, _actual_get_sparse_tensors_list h,
   _actual_create_weighted_sum h, _actual_export_for_mode h,
   _actual_transform h).

(** The saved originals as one list, in the order of [patched_slots];
    [None] unless all five attributes are assigned. *)
Definition saved_list (h : Helper handle) : option (list Fn) :=
  l1 ← _actual_get_dense_tensor_list h;
  l2 ← _actual_get_sparse_tensors_list h;
  f3 ← _actual_create_weighted_sum h;
  f4 ← _actual_export_for_mode h;
  f5 ← _actual_transform h;
  Some (l1 ++ l2 ++ [f3; f4; f5]).
End Saved.

(** A process in which every patched attribute holds a framework
    function, and a fresh helper. *)
Definition world0 : World pyobj :=
  mkWorld (list_to_map (zip patched_slots (Builtin <$> seq 0 15)))
          Helper_init [] 100.

(** An export that raises, and one that enters a second scope on the
    same helper. *)
Definition failing_export : M (World pyobj) unit := mthrow (Raised 1).

Definition nested_export : M (World pyobj) unit :=
  exporting_context None (mret tt).

(** An original [export_outputs_for_mode] that returns the object at
    address 7 and allocates one object on the way. *)
Definition counting_export
    (mode serving_export_outputs : Opaque)
    (predictions : option (gmap string pyobj)) (loss metrics : Opaque)
  : M (World pyobj) Opaque :=
  λ w, (Ok 7, mkWorld (attrs w) (helper w) (setattr_log w) (S (next_addr w))).

(** An original [get_dense_tensor] or [_create_weighted_sum] that returns
    the tensor at address 9. *)
Definition constant_tensor (column : Column) (args : Opaque)
  : M (World pyobj) pyobj :=
  mret (TensorObj 9).

(** A hook behaves as a call of the original followed by observation that
    keeps the result: when the original raises, the hook ends in the same
    way and state; when the original returns, the hook returns nothing
    else. *)
Definition calls_through {S X} (orig hook : M S X) : Prop :=
  ∀ s, match orig s with
       | (Raise e, s1) => hook s = (Raise e, s1)
       | (Ok v, s1) => ∀ v' s2, hook s = (Ok v', s2) → v' = v
       end.

Section CrossedState.
Context {handle : Type}.

(** A state with the feature dictionary replaced by [d] and [names]
    added to the crossed columns. *)
Definition crossed_state (w : World handle) (d : feature_dict handle)
    (names : gset string) : World handle :=
  mkWorld (attrs w)
    (mkHelper d (_output_tensors_dict (helper w))
       (_crossed_columns (helper w) ∪ names)
       (_actual_get_dense_tensor_list (helper w))
       (_actual_get_sparse_tensors_list (helper w))
       (_actual_create_weighted_sum (helper w))
       (_actual_export_for_mode (helper w)) (_actual_transform (helper w)))
    (setattr_log w) (next_addr w).
End CrossedState.

(** Two hashed columns, their cross, and an indicator column over the
    cross; a state in which both hashed columns have their input record. *)
Definition col_a : Column := FC HashedCategoricalColumn "a" None [].
Definition col_b : Column := FC HashedCategoricalColumn "b" None [].
Definition a_X_b : Column :=
  FC CrossedColumn "a_X_b" None [inr col_a; inr col_b].
Definition a_X_b_indicator : Column :=
  FC IndicatorColumn "a_X_b_indicator" (Some a_X_b) [].

Definition world_ab : World pyobj :=
  mkWorld ∅
    (mkHelper {["a" := [mkFeatureTensors (TensorObj 1) []];
                "b" := [mkFeatureTensors (TensorObj 2) []]]}
              ∅ ∅ None None None None None)
    [] 0.

(** ** Explanation aggregation: selecting an attribution *)

(** Modelled from the spec: the module
    [explainable_ai_sdk/model/explanation.py] (the classes [Attribution]
    and [Explanation] and the method [get_attribution], the spec's
    [select_attribution]) is not among the sources; only its test is.
    An attribution has a label index and an example score among its
    fields; an explanation holds the attributions of the response in
    their order. *)
Record Attribution := mkAttribution {
  label_index : nat;
  example_score : Q;
  baseline_score : Q;
  approx_error : Q;
  output_name : string
}.

Definition Explanation : Type := list Attribution.

(** Modelled from the spec: "the attribution with the maximum example
    score ... or if scores tie, a deterministic first-seen order": the
    best so far is replaced only by a strictly larger score. *)
Fixpoint max_example_score (best : Attribution) (rest : list Attribution)
  : Attribution :=
  match rest with
  | [] => best
  | a :: rest' =>
      if Qle_bool (example_score a) (example_score best)
      then max_example_score best rest'
      else max_example_score a rest'
  end.

(** Modelled from the spec: "returns the requested class's attribution,
    or if omitted, the attribution with the maximum example score.  Fails
    with [LookupError]-class error if [class_index] is supplied but absent
    from the response."  The spec does not say what happens on a response
    without attributions; the model raises there. *)
Definition select_attribution (e : Explanation) (class_index : option nat)
  : result Attribution :=
  match class_index with
  | Some i =>
      match List.find (λ a, label_index a =? i) e with
      | Some a => Ok a
      | None => Raise (KeyError i)
      end
  | None =>
      match e with
      | [] => Raise (ValueError "no attributions")
      | a :: rest => Ok (max_example_score a rest)
      end
  end.

(** The response of [explanation_test.py]. *)
Definition fake_attr_1 : Attribution :=
  mkAttribution 170 (4 # 10) (1 # 10000) (33 # 1000) "probability".
Definition fake_attr_2 : Attribution :=
  mkAttribution 2 (17658 # 100000) (1 # 10000) (2 # 100) "probability".
Definition fake_explanation : Explanation := [fake_attr_1; fake_attr_2].

(** ** Vocabulary for further statements about the registry and the hooks *)

(** No name of the dictionary has an empty list of records. *)
Definition nonempty_lists {handle} (ft : feature_dict handle) : Prop :=
  ∀ k l, ft !! k = Some l → l ≠ [].

(** A state with the feature dictionary replaced by [d]. *)
Definition set_feature_tensors {handle} (d : feature_dict handle)
    (w : World handle) : World handle :=
  mkWorld (attrs w)
    (mkHelper d (_output_tensors_dict (helper w)) (_crossed_columns (helper w))
       (_actual_get_dense_tensor_list (helper w))
       (_actual_get_sparse_tensors_list (helper w))
       (_actual_create_weighted_sum (helper w))
       (_actual_export_for_mode (helper w)) (_actual_transform (helper w)))
    (setattr_log w) (next_addr w).

Definition with_next_addr {handle} (a : nat) (w : World handle) : World handle :=
  mkWorld (attrs w) (helper w) (setattr_log w) a.

(** The column under whose name the sparse and the weighted-sum hooks
    record: the wrapped column of a weighted column, the column itself
    otherwise. *)
Definition base_column (column : Column) : Column :=
  if isinstance column WeightedCategoricalColumn
  then default column (categorical_column column)
  else column.

(** A numeric column, a weighted column over [col_a], an embedding over
    [col_a], a bucketized column, and originals for the hooks. *)
Definition col_age : Column := FC NumericColumn "age" None [].
Definition col_a_weighted : Column :=
  FC WeightedCategoricalColumn "a_weighted_by_w" (Some col_a) [].
Definition col_a_embedding : Column :=
  FC EmbeddingColumn "a_embedding" (Some col_a) [].
Definition col_age_bucketized : Column :=
  FC BucketizedColumn "age_bucketized" None [].

Definition sparse_original (column : Column) (args : Opaque)
  : M (World pyobj) pyobj :=
  mret (IdWeightPairObj 20 (SparseTensorObj 3) None).

Definition transform_original (features feature_columns args : Opaque)
  : M (World pyobj) (list (Column * pyobj)) :=
  mret [(col_age, TensorObj 4); (col_a, SparseTensorObj 5);
        (col_a_embedding, TensorObj 6)].

(** A cross whose second constituent has no record in [world_ab]. *)
Definition col_c : Column := FC HashedCategoricalColumn "c" None [].
Definition a_X_c : Column :=
  FC CrossedColumn "a_X_c" None [inr col_a; inr col_c].
Definition a_X_c_indicator : Column :=
  FC IndicatorColumn "a_X_c_indicator" (Some a_X_c) [].

(** A cross of [col_a] with the feature name ["raw"]. *)
Definition a_X_raw : Column :=
  FC CrossedColumn "a_X_raw" None [inr col_a; inl "raw"].
Definition a_X_raw_indicator : Column :=
  FC IndicatorColumn "a_X_raw_indicator" (Some a_X_raw) [].

(** [world0] without [_transform_features_v2] in [fc2]. *)
Definition world0_without_transform : World pyobj :=
  mkWorld (delete (fc2, "_transform_features_v2") (attrs world0))
          Helper_init [] 100.

(** ** The metadata builder for saved models

    [explainable_ai_sdk/metadata/tf/v2/saved_model_metadata_builder.py].
    The builder keeps two dictionaries, from names to input and to output
    metadata, and edits them; [get_metadata] lists their values, so the
    insertion order of the dictionaries is kept. *)

Module MetadataBuilder.

(** A Python dictionary with string keys, in insertion order. *)
Abbreviation odict V := (list (string * V)).

Section Odict.
Context {V : Type}.

(** [d.get(k)] *)
Fixpoint od_lookup (k : string) (d : odict V) : option V :=
  match d with
  | [] => None
  | (k', v) :: d' => if decide (k' = k) then Some v else od_lookup k d'
  end.

(** [del d[k]], and the dictionary left by [d.pop(k)] *)
Definition od_delete (k : string) (d : odict V) : odict V :=
  filter (λ p, p.1 ≠ k) d.

(** [d[k] = v]: an existing key keeps its place, a new key goes last. *)
Fixpoint od_set (k : string) (v : V) (d : odict V) : odict V :=
  match d with
  | [] => [(k, v)]
  | (k', v') :: d' =>
      if decide (k' = k) then (k, v) :: d' else (k', v') :: od_set k v d'
  end.

(** [list(d.values())] *)
Definition od_values (d : odict V) : list V := snd <$> d.

(** The keys of a dictionary are distinct. *)
Definition od_wf (d : odict V) : Prop := NoDup (fst <$> d).
End Odict.

(** The classes of [explain_metadata] are not among the sources.  An
    object is represented by the arguments of its constructor call, an
    argument that is not passed by [None]; its attributes
    [input_tensor_name] and [output_tensor_name] are the arguments of
    those names. *)
Inductive Encoding := BAG_OF_FEATURES | IDENTITY.
Inductive Modality := IMAGE.
Inductive Framework := TENSORFLOW2.

Record InputMetadata := mkInputMetadata {
  name : string;
  input_tensor_name : string;
  input_baselines : option Opaque;
  index_feature_mapping : option (list string);
  encoding : option Encoding;
  modality : option Modality;
  visualization : option Opaque
}.

Record OutputMetadata := mkOutputMetadata {
  output_name : string;
  output_tensor_name : string
}.

(** The arguments of the [ExplainMetadata] built by [get_metadata];
    [tags] is always [[constants.METADATA_TAG]]. *)
Record ExplainMetadata := mkExplainMetadata {
  inputs : list InputMetadata;
  outputs : list OutputMetadata;
  framework : Framework
}.

(** A loaded model: its signatures, each with the names of
    [structured_input_signature[1]] and of [structured_outputs]. *)
Record LoadedModel := mkLoadedModel {
  model_id : Opaque;
  signatures : odict (list string * list string)
}.

Record Builder := mkBuilder {
  _saved_model_args : Opaque;
  _loaded_model : LoadedModel;
  _inputs : odict InputMetadata;
  _outputs : odict OutputMetadata
}.

(** What the builder does to the outside: messages printed, the model
    saved, the metadata written. *)
Inductive Event :=
| Printed (msg : string)
| SavedModel (model : Opaque) (file_path : string) (options : Opaque)
| WroteMetadata (md : ExplainMetadata) (file_path : string).

Inductive error :=
| ValueError (msg : string)
| KeyError (key : string)
| OtherError (exception : Opaque).

Inductive outcome (A : Type) :=
| Returned (a : A)
| Raised (e : error).
Arguments Returned {A} a.
Arguments Raised {A} e.

Definition set_inputs (d : odict InputMetadata) (b : Builder) : Builder :=
  mkBuilder (_saved_model_args b) (_loaded_model b) d (_outputs b).

Definition set_outputs (d : odict OutputMetadata) (b : Builder) : Builder :=
  mkBuilder (_saved_model_args b) (_loaded_model b) (_inputs b) d.

(** Truth value of an optional string and of an optional list. *)
Definition truthy_name (s : option string) : bool :=
  match s with
  | None => false
  | Some s => negb (bool_decide (s = ""))
  end.

Definition truthy_list {A} (l : option (list A)) : bool :=
  match l with
  | None | Some [] => false
  | Some (_ :: _) => true
  end.

(** The dictionary comprehension [{name: f(name) for name in names}]. *)
Definition dict_of_names {V} (f : string → V) (names : list string) : odict V :=
  foldl (λ d n, od_set n (f n) d) [] names.

(** The double-quote character, as a string. *)
Definition dquote : string := String (Ascii.ascii_of_nat 34) EmptyString.

Definition multiple_outputs_message (signature_name : string) : string :=
  "There are multiple outputs for the signature: " +:+ signature_name +:+
  ". We support only one output. Please use " +:+ dquote +:+
  "remove_output_metadata" +:+ dquote +:+
  " function to reduce the number of outputs to 1 before saving.".

(** The state a method runs in: the builder and the events so far. *)
Record State := mkState {
  self : Builder;
  events : list Event
}.

Definition emit (e : Event) (s : State) : State :=
  mkState (self s) (events s ++ [e]).

Definition _infer_metadata_entries_from_model
    (loaded_model : LoadedModel) (signature_name : string)
    (log : list Event)
  : outcome (odict InputMetadata * odict OutputMetadata) * list Event :=
  match od_lookup signature_name (signatures loaded_model) with
  | None => (Raised (KeyError signature_name), log)
  | Some (input_sig, output_sig) =>
      let input_mds :=
        dict_of_names (λ n, mkInputMetadata n n None None None None None)
                      input_sig in
      let log :=
        if bool_decide (1 < length output_sig)
        then log ++ [Printed (multiple_outputs_message signature_name)]
        else log in
      let output_mds := dict_of_names (λ n, mkOutputMetadata n n) output_sig in
      (Returned (input_mds, output_mds), log)
  end.

(** [__init__], given the model that [tf.saved_model.load(model_path)]
    returns. *)
Definition __init__ (loaded_model : LoadedModel) (signature_name : string)
    (kwargs : Opaque) (log : list Event) : outcome unit * option State :=
  match _infer_metadata_entries_from_model loaded_model signature_name log with
  | (Raised e, log) => (Raised e, None)
  | (Returned (ins, outs), log) =>
      (Returned tt, Some (mkState (mkBuilder kwargs loaded_model ins outs) log))
  end.

(** [new_name if new_name else input_name] *)
Definition chosen_name (input_name : string) (new_name : option string) : string :=
  if truthy_name new_name then default input_name new_name else input_name.

Definition missing_input_message (n : string) : string :=
  "Input with with name '" +:+ n +:+ "' does not exist.".

Section Setters.

(** [explain_metadata.InputMetadata(...)], called by the two setters with
    what the user passed.  The class is not among the sources, so what it
    refuses is a parameter: given the arguments of the call, the exception
    the constructor raises, or [None] when it returns the object that holds
    them.  (The calls of [_infer_metadata_entries_from_model] pass a name
    twice and leave every other argument at its default; they are taken to
    return.) *)
Variable InputMetadata_raises : InputMetadata → option error.

Definition new_InputMetadata (arguments : InputMetadata)
  : outcome InputMetadata :=
  match InputMetadata_raises arguments with
  | Some e => Raised e
  | None => Returned arguments
  end.

(** The old entry is popped before the constructor is called: when the
    constructor raises, the builder is left without the input. *)
Definition set_numeric_metadata (input_name : string)
    (new_name : option string) (input_baselines : option Opaque)
    (index_feature_mapping : option (list string)) (s : State)
  : outcome unit * State :=
  match od_lookup input_name (_inputs (self s)) with
  | None => (Raised (ValueError (missing_input_message input_name)), s)
  | Some old =>
      let name := chosen_name input_name new_name in
      let tensor_name := input_tensor_name old in
      let popped := od_delete input_name (_inputs (self s)) in
      let encoding := if truthy_list index_feature_mapping
                      then BAG_OF_FEATURES else IDENTITY in
      match new_InputMetadata
              (mkInputMetadata name tensor_name input_baselines
                 index_feature_mapping (Some encoding) None None) with
      | Raised e => (Raised e, mkState (set_inputs popped (self s)) (events s))
      | Returned md =>
          (Returned tt,
           mkState (set_inputs (od_set name md popped) (self s)) (events s))
      end
  end.

Definition set_image_metadata (input_name : string)
    (new_name : option string) (input_baselines : option Opaque)
    (visualization : option Opaque) (s : State) : outcome unit * State :=
  match od_lookup input_name (_inputs (self s)) with
  | None => (Raised (ValueError (missing_input_message input_name)), s)
  | Some old =>
      let name := chosen_name input_name new_name in
      let tensor_name := input_tensor_name old in
      let popped := od_delete input_name (_inputs (self s)) in
      match new_InputMetadata
              (mkInputMetadata name tensor_name input_baselines None None
                 (Some IMAGE) visualization) with
      | Raised e => (Raised e, mkState (set_inputs popped (self s)) (events s))
      | Returned md =>
          (Returned tt,
           mkState (set_inputs (od_set name md popped) (self s)) (events s))
      end
  end.

End Setters.

Definition set_output_metadata (output_name new_name : string) (s : State)
  : outcome unit * State :=
  match od_lookup output_name (_outputs (self s)) with
  | None =>
      (Raised (ValueError ("Output with name '" +:+ output_name +:+
                           "' does not exist.")), s)
  | Some old_output =>
      if bool_decide (output_name = new_name) then (Returned tt, s)
      else
        let popped := od_delete output_name (_outputs (self s)) in
        (Returned tt,
         mkState
           (set_outputs
              (od_set new_name
                 (mkOutputMetadata new_name (output_tensor_name old_output))
                 popped)
              (self s))
           (events s))
  end.

Definition remove_input_metadata (n : string) (s : State)
  : outcome unit * State :=
  match od_lookup n (_inputs (self s)) with
  | None => (Raised (ValueError (missing_input_message n)), s)
  | Some _ =>
      (Returned tt,
       mkState (set_inputs (od_delete n (_inputs (self s))) (self s)) (events s))
  end.

Definition remove_output_metadata (n : string) (s : State)
  : outcome unit * State :=
  match od_lookup n (_outputs (self s)) with
  | None =>
      (Raised (ValueError ("Output with with name '" +:+ n +:+
                           "' does not exist.")), s)
  | Some _ =>
      (Returned tt,
       mkState (set_outputs (od_delete n (_outputs (self s))) (self s))
               (events s))
  end.

Definition get_metadata (s : State) : ExplainMetadata :=
  mkExplainMetadata (od_values (_inputs (self s)))
                    (od_values (_outputs (self s))) TENSORFLOW2.

Definition save_metadata (file_path : string) (s : State)
  : outcome unit * State :=
  if bool_decide (1 < length (_outputs (self s)))
  then (Raised (ValueError "Number of outputs is more than 1."), s)
  else (Returned tt, emit (WroteMetadata (get_metadata s) file_path) s).

Definition save_model_with_metadata (file_path : string) (s : State)
  : outcome string * State :=
  let s := emit (SavedModel (model_id (_loaded_model (self s))) file_path
                            (_saved_model_args (self s))) s in
  match save_metadata file_path s with
  | (Raised e, s) => (Raised e, s)
  | (Returned _, s) => (Returned file_path, s)
  end.

End MetadataBuilder.

(** A builder with two inputs and two outputs. *)
Definition example_builder : MetadataBuilder.State :=
  MetadataBuilder.mkState
    (MetadataBuilder.mkBuilder 0
       (MetadataBuilder.mkLoadedModel 1
          [("serving_default", (["age"; "photo"], ["probabilities"; "logits"]))])
       [("age", MetadataBuilder.mkInputMetadata "age" "age:0" None None None None None);
        ("photo", MetadataBuilder.mkInputMetadata "photo" "photo:0" None None None None None)]
       [("probabilities", MetadataBuilder.mkOutputMetadata "probabilities" "probabilities:0");
        ("logits", MetadataBuilder.mkOutputMetadata "logits" "logits:0")])
    [].

(** An [InputMetadata] constructor that refuses the visualization at
    address 0 and an index-feature mapping that names a feature twice, and
    accepts every other call. *)
Definition example_InputMetadata_raises (arguments : MetadataBuilder.InputMetadata)
  : option MetadataBuilder.error :=
  if bool_decide (MetadataBuilder.visualization arguments = Some 0)
  then Some (MetadataBuilder.ValueError "visualization")
  else
    match MetadataBuilder.index_feature_mapping arguments with
    | Some features =>
        if bool_decide (NoDup features) then None
        else Some (MetadataBuilder.ValueError "index_feature_mapping")
    | None => None
    end.

(** * Properties *)

Ltac run :=
  unfold mbind, mret, mthrow, M_bind, M_ret, M_throw, get, modify in *;
  simpl in *.

Lemma bind_ok {S A B} (m : M S A) (k : A → M S B) s a s' :
  m s = (Ok a, s') → (m ≫= k) s = k a s'.
Proof. intros Hm. unfold mbind, M_bind. by rewrite Hm. Qed.

Lemma bind_raise {S A B} (m : M S A) (k : A → M S B) s e s' :
  m s = (Raise e, s') → (m ≫= k) s = (Raise e, s').
Proof. intros Hm. unfold mbind, M_bind. by rewrite Hm. Qed.

Section HandleFacts.
Context {handle : Type} `{PyHandle handle}.

Lemma py_in_app (x : handle) l1 l2 :
  py_in x (l1 ++ l2) = py_in x l1 || py_in x l2.
Proof. apply existsb_app. Qed.

Lemma py_in_identical (x e : handle) l :
  e ∈ l → same_object x e = true → py_in x l = true.
Proof.
  intros He Hx. apply existsb_exists. exists e. split.
  - by apply list_elem_of_In.
  - by rewrite Hx.
Qed.

Lemma py_in_self (x : handle) l : x ∈ l → py_in x l = true.
Proof. intros Hx. eapply py_in_identical; [done | apply same_object_refl]. Qed.
End HandleFacts.

Section RegistryFacts.
Context {handle : Type} `{PyHandle handle}.
Implicit Types (ft : feature_dict handle) (fc : Column) (tensor : handle).

Lemma FeatureTensors_eta (r : FeatureTensors handle) :
  mkFeatureTensors (input_tensor r) (encoded_tensors r) = r.
Proof. by destruct r. Qed.

(** [l[-1]] is the last element. *)
Lemma lookup_minus_one {A} (l : list A) : l !! (length l - 1) = last l.
Proof. rewrite last_lookup. f_equal. lia. Qed.

Lemma add_input_new ft fc tensor :
  py_in tensor (input_tensor <$> default [] (ft !! name fc)) = false →
  _add_input_tensor_to_dict fc tensor ft
  = (Ok tt, <[name fc := default [] (ft !! name fc)
                           ++ [FeatureTensors_init tensor]]> ft).
Proof. intros Hin. unfold _add_input_tensor_to_dict. run. by rewrite Hin. Qed.

Lemma add_input_known ft fc tensor l :
  ft !! name fc = Some l →
  py_in tensor (input_tensor <$> l) = true →
  _add_input_tensor_to_dict fc tensor ft = (Ok tt, ft).
Proof.
  intros Hl Hin. unfold _add_input_tensor_to_dict. run.
  rewrite Hl. simpl. rewrite Hin. simpl. by rewrite insert_id.
Qed.

Lemma add_encoded_missing ft fc tensor :
  ft !! name fc = None →
  _add_encoded_tensor_to_dict fc tensor ft
  = (Raise (ValueError "Trying to add encoded tensors with no input tensor."),
     ft).
Proof. intros Hl. unfold _add_encoded_tensor_to_dict. run. by rewrite Hl. Qed.

Lemma add_encoded_last ft fc tensor l0 r :
  ft !! name fc = Some (l0 ++ [r]) →
  _add_encoded_tensor_to_dict fc tensor ft
  = (Ok tt, <[name fc := l0 ++ [with_encoded tensor r]]> ft).
Proof.
  intros Hl. unfold _add_encoded_tensor_to_dict, with_encoded. run.
  rewrite Hl, lookup_minus_one, last_snoc.
  destruct (py_in tensor (encoded_tensors r)) eqn:Hin; simpl.
  - rewrite FeatureTensors_eta. by rewrite insert_id.
  - do 3 f_equal. rewrite length_app. simpl.
    replace (length l0 + 1 - 1) with (length l0 + 0) by lia.
    by rewrite insert_app_r.
Qed.

Lemma add_encoded_empty_list ft fc tensor :
  ft !! name fc = Some [] →
  _add_encoded_tensor_to_dict fc tensor ft = (Raise IndexError, ft).
Proof. intros Hl. unfold _add_encoded_tensor_to_dict. run. by rewrite Hl. Qed.
End RegistryFacts.

Section RegistryClaims.
Context {handle : Type} `{PyHandle handle}.
Implicit Types (ft : feature_dict handle) (fc : Column) (tensor : handle).

Lemma on_feature_tensors_unchanged {A} (m : M (feature_dict handle) A)
    (w : World handle) r :
  m (_feature_tensors_dict (helper w)) = (r, _feature_tensors_dict (helper w)) →
  on_feature_tensors m w = (r, w).
Proof.
  intros Hm. unfold on_feature_tensors. rewrite Hm.
  by destruct w as [? [] ? ?].
Qed.

(** C4: for a feature-column name that is not a key of
    [feature_tensors_dict], recording an encoded observation raises
    [ValueError], and the whole state, so in particular
    [feature_tensors_dict] and [crossed_columns], is as before the call. *)
Theorem add_encoded_unknown_name_raises (w : World handle) fc tensor :
  _feature_tensors_dict (helper w) !! name fc = None →
  on_feature_tensors (_add_encoded_tensor_to_dict fc tensor) w
  = (Raise (ValueError "Trying to add encoded tensors with no input tensor."),
     w).
Proof.
  intros Hl. apply on_feature_tensors_unchanged. by apply add_encoded_missing.
Qed.

(** C10: when a feature name maps to more than one record, recording an
    encoded observation succeeds and rewrites only the last record of
    that name: the records before it are the same, the last keeps its
    input tensor and has the tensor appended to its encoded list (or
    keeps the list when the tensor is already in it), and the entries of
    every other name are the same. *)
Theorem add_encoded_changes_last_record_only ft fc tensor l :
  ft !! name fc = Some l →
  1 < length l →
  ∃ r ft',
    last l = Some r ∧
    _add_encoded_tensor_to_dict fc tensor ft = (Ok tt, ft') ∧
    ft' !! name fc
    = Some (take (length l - 1) l
            ++ [mkFeatureTensors (input_tensor r)
                  (if py_in tensor (encoded_tensors r)
                   then encoded_tensors r
                   else encoded_tensors r ++ [tensor])]) ∧
    ∀ k, k ≠ name fc → ft' !! k = ft !! k.
Proof.
  intros Hl Hlen.
  destruct (last l) as [r|] eqn:Hlast.
  2:{ apply last_None in Hlast. subst l. simpl in Hlen. lia. }
  apply last_Some in Hlast as [l0 ->].
  exists r, (<[name fc := l0 ++ [with_encoded tensor r]]> ft).
  split; [done|]. split; [by apply add_encoded_last|]. split.
  - rewrite lookup_insert_eq. do 2 f_equal.
    rewrite length_app. simpl.
    replace (length l0 + 1 - 1) with (length l0) by lia.
    by rewrite take_app_length.
  - intros k Hk. by rewrite lookup_insert_ne.
Qed.

(** C7 (amended): de-duplication is Python's [in].  On a name without
    records, observing [t1] and then [t2] as inputs leaves one record when
    [t2] is the same object as [t1] or compares equal to it, and two
    records otherwise; an input that is the same object as a recorded
    input of the name, and an encoding that is the same object as a
    member of the last record's encoded list, change nothing. *)
Theorem dedup_is_python_membership ft fc (t1 t2 : handle) :
  ft !! name fc = None →
  (∃ ft2,
     (_add_input_tensor_to_dict fc t1;; _add_input_tensor_to_dict fc t2) ft
     = (Ok tt, ft2) ∧
     ft2 !! name fc
     = Some (if same_object t2 t1 || py_eq t2 t1
             then [FeatureTensors_init t1]
             else [FeatureTensors_init t1; FeatureTensors_init t2])) ∧
  (∀ ft' l r, ft' !! name fc = Some l → r ∈ l →
              same_object t1 (input_tensor r) = true →
              _add_input_tensor_to_dict fc t1 ft' = (Ok tt, ft')) ∧
  (∀ ft' l r e, ft' !! name fc = Some l → last l = Some r →
                e ∈ encoded_tensors r → same_object t1 e = true →
                _add_encoded_tensor_to_dict fc t1 ft' = (Ok tt, ft')).
Proof.
  intros Hnone. split; [|split].
  - assert (H1 : _add_input_tensor_to_dict fc t1 ft
                 = (Ok tt, <[name fc := [FeatureTensors_init t1]]> ft)).
    { rewrite add_input_new; by rewrite Hnone. }
    destruct (same_object t2 t1 || py_eq t2 t1) eqn:Hmem.
    + exists (<[name fc := [FeatureTensors_init t1]]> ft). split.
      * rewrite (bind_ok _ _ _ _ _ H1).
        apply (add_input_known _ _ _ [FeatureTensors_init t1]).
        -- by rewrite lookup_insert_eq.
        -- simpl. by rewrite Hmem.
      * by rewrite lookup_insert_eq.
    + exists (<[name fc := [FeatureTensors_init t1; FeatureTensors_init t2]]> ft).
      split.
      * rewrite (bind_ok _ _ _ _ _ H1). rewrite add_input_new.
        -- rewrite lookup_insert_eq. simpl. by rewrite insert_insert_eq.
        -- rewrite lookup_insert_eq. simpl. by rewrite Hmem.
      * by rewrite lookup_insert_eq.
  - intros ft' l r Hl Hr Hsame. apply (add_input_known _ _ _ l); [done|].
    apply (py_in_identical _ (input_tensor r)); [|done].
    by apply list_elem_of_fmap_2.
  - intros ft' l r e Hl Hlast He Hsame.
    apply last_Some in Hlast as [l0 ->].
    rewrite (add_encoded_last _ _ _ l0 r) by done.
    unfold with_encoded.
    rewrite (py_in_identical _ e) by done.
    rewrite FeatureTensors_eta. by rewrite insert_id.
Qed.
End RegistryClaims.

(** ** The registry claims on concrete handles *)

Lemma add_encoded_unknown_name_raises_witness :
  let w : World pyobj := mkWorld ∅ Helper_init [] 0 in
  let fc := FC EmbeddingColumn "color_embedding" None [] in
  _feature_tensors_dict (helper w) !! name fc = None ∧
  on_feature_tensors (_add_encoded_tensor_to_dict fc (TensorObj 7)) w
  = (Raise (ValueError "Trying to add encoded tensors with no input tensor."), w).
Proof.
  split; [reflexivity|].
  apply add_encoded_unknown_name_raises. reflexivity.
Defined.

Lemma add_encoded_changes_last_record_only_witness :
  let l := [mkFeatureTensors (TensorObj 1) [TensorObj 3];
            mkFeatureTensors (TensorObj 2) []] in
  let ft : feature_dict pyobj := {["age" := l]} in
  let fc := FC NumericColumn "age" None [] in
  ∃ r ft',
    last l = Some r ∧
    _add_encoded_tensor_to_dict fc (TensorObj 4) ft = (Ok tt, ft') ∧
    ft' !! name fc
    = Some (take (length l - 1) l
            ++ [mkFeatureTensors (input_tensor r)
                  (if py_in (TensorObj 4) (encoded_tensors r)
                   then encoded_tensors r
                   else encoded_tensors r ++ [TensorObj 4])]) ∧
    ∀ k, k ≠ name fc → ft' !! k = ft !! k.
Proof.
  apply add_encoded_changes_last_record_only; [reflexivity | simpl; lia].
Defined.

Lemma dedup_is_python_membership_witness :
  let fc := FC NumericColumn "age" None [] in
  let ft : feature_dict pyobj := ∅ in
  ft !! name fc = None ∧
  ∃ ft2,
    (_add_input_tensor_to_dict fc (TensorObj 1);;
     _add_input_tensor_to_dict fc (TensorObj 2)) ft = (Ok tt, ft2) ∧
    ft2 !! name fc
    = Some [FeatureTensors_init (TensorObj 1); FeatureTensors_init (TensorObj 2)].
Proof.
  split; [reflexivity|].
  exact (proj1 (dedup_is_python_membership
                  (∅ : feature_dict pyobj) (FC NumericColumn "age" None [])
                  (TensorObj 1) (TensorObj 2) eq_refl)).
Defined.

(** C7 as stated fails: two [IdWeightPair] tuples built around the same
    sparse tensor are different objects and compare equal, and the second
    one is not recorded. *)
Lemma dedup_by_identity_counterexample :
  let t1 := IdWeightPairObj 10 (SparseTensorObj 1) None in
  let t2 := IdWeightPairObj 11 (SparseTensorObj 1) None in
  let fc := FC HashedCategoricalColumn "city" None [] in
  same_object t1 t2 = false ∧
  ((_add_input_tensor_to_dict fc t1;; _add_input_tensor_to_dict fc t2)
     (∅ : feature_dict pyobj)).2 !! "city"
  = Some [FeatureTensors_init t1].
Proof. split; reflexivity. Qed.

(** ** Patching and unpatching *)

Section PatchFacts.
Context {handle : Type} `{PyHandle handle}.
Implicit Types (w : World handle) (m : gmap Slot Fn).

Lemma getattr_ok o a w f :
  attrs w !! (o, a) = Some f → getattr o a w = (Ok f, w).
Proof. intros Hf. unfold getattr. run. by rewrite Hf. Qed.

Lemma getattr_missing o a w :
  attrs w !! (o, a) = None → getattr o a w = (Raise (AttributeError a), w).
Proof. intros Hf. unfold getattr. run. by rewrite Hf. Qed.

Lemma set_all_cons a o objs f fs m :
  set_all a (o :: objs) (f :: fs) m = set_all a objs fs (<[(o, a) := f]> m).
Proof. reflexivity. Qed.

Lemma set_all_other a objs fs m s :
  s ∉ (λ o, (o, a)) <$> objs → set_all a objs fs m !! s = m !! s.
Proof.
  revert fs m. induction objs as [|o objs IH]; intros [|f fs] m Hs; try done.
  rewrite set_all_cons, IH.
  - apply lookup_insert_ne. intros <-. apply Hs. rewrite fmap_cons. left.
  - intros Hin. apply Hs. rewrite fmap_cons. by right.
Qed.

Lemma set_all_other_attr a a' objs fs m o :
  a ≠ a' → set_all a objs fs m !! (o, a') = m !! (o, a').
Proof.
  intros Ha. apply set_all_other. intros Hin.
  apply list_elem_of_fmap in Hin as (o' & [= ? ?] & _). congruence.
Qed.

Lemma set_all_at a objs fs m i o f :
  NoDup objs → objs !! i = Some o → fs !! i = Some f →
  set_all a objs fs m !! (o, a) = Some f.
Proof.
  revert fs m i.
  induction objs as [|o' objs IH]; intros [|f' fs] m i Hnd Ho Hf; try done.
  apply NoDup_cons in Hnd as [Hnotin Hnd].
  rewrite set_all_cons. destruct i as [|i]; simpl in *.
  - simplify_eq.
    rewrite set_all_other; [apply lookup_insert_eq|].
    intros Hin. apply list_elem_of_fmap in Hin as (o' & ? & Hin).
    by simplify_eq.
  - by apply (IH fs _ i).
Qed.

Lemma Forall2_lookup_insert_fresh a objs fs m o v :
  o ∉ objs →
  Forall2 (λ o' f, m !! (o', a) = Some f) objs fs →
  Forall2 (λ o' f, <[(o, a) := v]> m !! (o', a) = Some f) objs fs.
Proof.
  intros Hnotin Hfs. induction Hfs as [|o' f objs fs Hf Hfs IH].
  - constructor.
  - apply not_elem_of_cons in Hnotin as [Hne Hnotin]. constructor.
    + rewrite lookup_insert_ne; [done|]. intros ?. by simplify_eq.
    + by apply IH.
Qed.

(** The originals a patching loop collects, and the state it leaves. *)
Lemma patch_entities_loop_ok objs a pf acc w fs :
  NoDup objs →
  Forall2 (λ o f, attrs w !! (o, a) = Some f) objs fs →
  _patch_entities_loop objs a pf acc w
  = (Ok (acc ++ fs),
     mkWorld (set_all a objs (pf <$> fs) (attrs w)) (helper w)
             (setattr_log w ++ ((λ o, (o, a)) <$> objs)) (next_addr w)).
Proof.
  intros Hnd Hfs. revert acc w fs Hnd Hfs.
  induction objs as [|o objs IH]; intros acc w fs Hnd Hfs.
  - apply Forall2_nil_inv_l in Hfs as ->. simpl.
    rewrite !app_nil_r. by destruct w.
  - apply Forall2_cons_inv_l in Hfs as (f & fs' & Hf & Hfs & ->).
    apply NoDup_cons in Hnd as [Hnotin Hnd]. simpl.
    rewrite (bind_ok _ _ _ _ _ (getattr_ok _ _ _ _ Hf)).
    unfold setattr at 1.
    erewrite bind_ok; [|reflexivity].
    rewrite (IH _ _ fs'); [|done|].
    + simpl. by rewrite <- !app_assoc.
    + simpl. by apply Forall2_lookup_insert_fresh.
Qed.

Lemma unpatch_entities_ok objs a fs w :
  _unpatch_entities objs a fs w
  = (Ok tt,
     mkWorld (set_all a objs fs (attrs w)) (helper w)
             (setattr_log w ++ ((λ p, (p.1, a)) <$> zip objs fs))
             (next_addr w)).
Proof.
  unfold _unpatch_entities, set_all.
  revert w. induction (zip objs fs) as [|[o f] l IH]; intros w.
  - simpl. rewrite app_nil_r. by destruct w.
  - simpl. erewrite bind_ok; [|reflexivity]. rewrite IH. simpl.
    by rewrite <- app_assoc.
Qed.

Lemma Forall2_of_present a objs m :
  (∀ o, o ∈ objs → is_Some (m !! (o, a))) →
  ∃ fs, Forall2 (λ o f, m !! (o, a) = Some f) objs fs.
Proof.
  induction objs as [|o objs IH]; intros Hall.
  - exists []. constructor.
  - destruct (Hall o) as [f Hf]; [left|].
    destruct IH as [fs Hfs]; [intros o' Ho'; apply Hall; by right|].
    exists (f :: fs). by constructor.
Qed.

Lemma Forall2_set_all_other_attr a a' objs fs objs' fs' m :
  a ≠ a' →
  Forall2 (λ o f, m !! (o, a') = Some f) objs' fs' →
  Forall2 (λ o f, set_all a objs fs m !! (o, a') = Some f) objs' fs'.
Proof.
  intros Ha Hfs. eapply Forall2_impl; [done|]. simpl.
  intros o f Hf. by rewrite set_all_other_attr.
Qed.

Lemma set_all_restores a objs fs m m0 o :
  NoDup objs →
  Forall2 (λ o f, m0 !! (o, a) = Some f) objs fs →
  o ∈ objs →
  set_all a objs fs m !! (o, a) = m0 !! (o, a).
Proof.
  intros Hnd Hfs Ho.
  apply list_elem_of_lookup in Ho as [i Hi].
  destruct (Forall2_lookup_l _ _ _ _ _ Hfs Hi) as (f & Hfi & Hf).
  rewrite Hf. by apply (set_all_at _ _ _ _ i).
Qed.

Lemma zip_slots (a : string) (objs : list Entity) (fs : list Fn) :
  length objs = length fs →
  (λ p, (p.1, a)) <$> zip objs fs = (λ o, (o, a)) <$> objs.
Proof.
  revert fs. induction objs as [|o objs IH]; intros [|f fs] Hlen; try done.
  simpl in *. f_equal. apply IH. lia.
Qed.

Lemma dense_NoDup : NoDup _FEATURE_COLUMNS_TO_PATCH_DENSE.
Proof. compute_done. Qed.

Lemma sparse_NoDup : NoDup _FEATURE_COLUMNS_TO_PATCH_SPARSE.
Proof. compute_done. Qed.

Lemma singleton_NoDup (o : Entity) : NoDup [o].
Proof. apply NoDup_singleton. Qed.

Lemma originals_of_present m :
  (∀ s, s ∈ patched_slots → is_Some (m !! s)) →
  ∃ fs1 fs2 f3 f4 f5, originals_in m fs1 fs2 f3 f4 f5.
Proof.
  intros Hall.
  destruct (Forall2_of_present "get_dense_tensor"
              _FEATURE_COLUMNS_TO_PATCH_DENSE m) as [fs1 H1].
  { intros o Ho. apply Hall. unfold patched_slots.
    apply elem_of_app. left.
    by apply (list_elem_of_fmap_2 (λ o, (o, "get_dense_tensor"))). }
  destruct (Forall2_of_present "get_sparse_tensors"
              _FEATURE_COLUMNS_TO_PATCH_SPARSE m) as [fs2 H2].
  { intros o Ho. apply Hall. unfold patched_slots.
    apply elem_of_app. right. apply elem_of_app. left.
    by apply (list_elem_of_fmap_2 (λ o, (o, "get_sparse_tensors"))). }
  destruct (Hall (fc2, "_create_weighted_sum")) as [f3 H3]; [compute_done|].
  destruct (Hall (export_lib, "export_outputs_for_mode")) as [f4 H4];
    [compute_done|].
  destruct (Hall (fc2, "_transform_features_v2")) as [f5 H5]; [compute_done|].
  by exists fs1, fs2, f3, f4, f5.
Qed.

Lemma patch_entities_ok objs a pf w fs :
  NoDup objs →
  Forall2 (λ o f, attrs w !! (o, a) = Some f) objs fs →
  _patch_entities objs a pf w
  = (Ok fs,
     mkWorld (set_all a objs (pf <$> fs) (attrs w)) (helper w)
             (setattr_log w ++ ((λ o, (o, a)) <$> objs)) (next_addr w)).
Proof. intros. unfold _patch_entities. by rewrite (patch_entities_loop_ok _ _ _ _ _ fs). Qed.

Lemma patch_group {B} objs a pf w fs (k : list Fn → M (World handle) B) :
  NoDup objs →
  Forall2 (λ o f, attrs w !! (o, a) = Some f) objs fs →
  (_patch_entities objs a pf ≫= k) w
  = k fs (mkWorld (set_all a objs (pf <$> fs) (attrs w)) (helper w)
                  (setattr_log w ++ ((λ o, (o, a)) <$> objs)) (next_addr w)).
Proof. intros Hnd Hfs. apply bind_ok. by apply patch_entities_ok. Qed.

Lemma with_helper_bind {B} f w (k : unit → M (World handle) B) :
  (with_helper f ≫= k) w
  = k tt (mkWorld (attrs w) (f (helper w)) (setattr_log w) (next_addr w)).
Proof. reflexivity. Qed.

Lemma first_bind {A B} (x : A) l w (k : A → M (World handle) B) :
  (first (x :: l) ≫= k) w = k x w.
Proof. reflexivity. Qed.

Lemma patch_estimator_ok w output_key fs1 fs2 f3 f4 f5 :
  originals_in (attrs w) fs1 fs2 f3 f4 f5 →
  _patch_estimator_to_observe output_key w
  = (Ok tt,
     mkWorld
       (set_groups (Closure_observing_get_dense_tensor <$> fs1)
                   (Closure_observing_get_sparse_tensors <$> fs2)
                   (Closure_observing_create_weighted_sum f3)
                   (Closure_observing_export_outputs_for_mode f4 output_key)
                   (Closure_observing_transform_features_v2 f5) (attrs w))
       (mkHelper (_feature_tensors_dict (helper w))
                 (_output_tensors_dict (helper w))
                 (_crossed_columns (helper w))
                 (Some fs1) (Some fs2) (Some f3) (Some f4) (Some f5))
       (setattr_log w ++ patched_slots) (next_addr w)).
Proof.
  intros (H1 & H2 & H3 & H4 & H5). unfold _patch_estimator_to_observe.
  rewrite (patch_group _ _ _ _ fs1); [|apply dense_NoDup|exact H1].
  rewrite with_helper_bind.
  rewrite (patch_group _ _ _ _ fs2);
    [|apply sparse_NoDup
     |cbn [attrs]; apply Forall2_set_all_other_attr; [discriminate|exact H2]].
  rewrite with_helper_bind. cbn [attrs helper setattr_log next_addr].
  rewrite (patch_group _ _ _ _ [f3]);
    [|apply singleton_NoDup
     |cbn [attrs]; repeat constructor;
      rewrite !set_all_other_attr by discriminate; exact H3].
  rewrite first_bind, with_helper_bind.
  cbn [attrs helper setattr_log next_addr].
  rewrite (patch_group _ _ _ _ [f4]);
    [|apply singleton_NoDup
     |cbn [attrs]; repeat constructor;
      rewrite !set_all_other_attr by discriminate; exact H4].
  rewrite first_bind, with_helper_bind.
  cbn [attrs helper setattr_log next_addr].
  rewrite (patch_group _ _ _ _ [f5]);
    [|apply singleton_NoDup
     |cbn [attrs]; repeat constructor;
      rewrite !set_all_other_attr by discriminate; exact H5].
  rewrite first_bind.
  unfold with_helper, modify. cbn [attrs helper setattr_log next_addr].
  rewrite <- !app_assoc. reflexivity.
Qed.

Lemma self_attr_ok {A} a (field : Helper handle → option A) w x :
  field (helper w) = Some x → self_attr a field w = (Ok x, w).
Proof. intros Hx. unfold self_attr. run. by rewrite Hx. Qed.

Lemma unpatch_estimator_ok w fs1 fs2 f3 f4 f5 :
  saved_originals (helper w) = (Some fs1, Some fs2, Some f3, Some f4, Some f5) →
  length fs1 = length _FEATURE_COLUMNS_TO_PATCH_DENSE →
  length fs2 = length _FEATURE_COLUMNS_TO_PATCH_SPARSE →
  _unpatch_estimator_to_observe w
  = (Ok tt,
     mkWorld (set_groups fs1 fs2 f3 f4 f5 (attrs w)) (helper w)
             (setattr_log w ++ patched_slots) (next_addr w)).
Proof.
  intros [= S1 S2 S3 S4 S5] L1 L2. unfold _unpatch_estimator_to_observe.
  erewrite bind_ok; [|by apply self_attr_ok].
  erewrite bind_ok; [|apply unpatch_entities_ok].
  erewrite bind_ok; [|by apply self_attr_ok].
  erewrite bind_ok; [|apply unpatch_entities_ok].
  erewrite bind_ok; [|by apply self_attr_ok].
  erewrite bind_ok; [|apply unpatch_entities_ok].
  erewrite bind_ok; [|by apply self_attr_ok].
  erewrite bind_ok; [|apply unpatch_entities_ok].
  erewrite bind_ok; [|by apply self_attr_ok].
  rewrite unpatch_entities_ok. cbn [attrs helper setattr_log next_addr].
  rewrite !zip_slots by done.
  unfold set_groups, patched_slots. by rewrite <- !app_assoc.
Qed.

Lemma originals_in_length m fs1 fs2 f3 f4 f5 :
  originals_in m fs1 fs2 f3 f4 f5 →
  length fs1 = length _FEATURE_COLUMNS_TO_PATCH_DENSE ∧
  length fs2 = length _FEATURE_COLUMNS_TO_PATCH_SPARSE.
Proof.
  intros (H1 & H2 & _). split; symmetry; by eapply Forall2_length.
Qed.

(** Writing back the originals read in [m0] makes every patched
    attribute what it is in [m0], whatever the store written to. *)
Lemma set_groups_restores m0 m fs1 fs2 f3 f4 f5 s :
  originals_in m0 fs1 fs2 f3 f4 f5 →
  s ∈ patched_slots →
  set_groups fs1 fs2 f3 f4 f5 m !! s = m0 !! s.
Proof.
  intros (H1 & H2 & H3 & H4 & H5) Hs. unfold set_groups.
  unfold patched_slots in Hs.
  apply elem_of_app in Hs as [Hs|Hs];
    [|apply elem_of_app in Hs as [Hs|Hs]].
  - apply list_elem_of_fmap in Hs as (o & -> & Ho).
    rewrite !set_all_other_attr by done.
    by apply (set_all_restores _ _ fs1); [apply dense_NoDup| |].
  - apply list_elem_of_fmap in Hs as (o & -> & Ho).
    rewrite !(set_all_other_attr _ "get_sparse_tensors") by done.
    by apply (set_all_restores _ _ fs2); [apply sparse_NoDup| |].
  - apply elem_of_cons in Hs as [->|Hs];
      [|apply elem_of_cons in Hs as [->|Hs]].
    + rewrite !(set_all_other_attr _ "_create_weighted_sum") by done.
      unfold set_all. simpl. by rewrite lookup_insert_eq.
    + rewrite !(set_all_other_attr _ "export_outputs_for_mode") by done.
      unfold set_all. simpl. by rewrite lookup_insert_eq.
    + apply list_elem_of_singleton in Hs as ->.
      unfold set_all at 1. simpl. by rewrite lookup_insert_eq.
Qed.

Lemma set_groups_other m l1 l2 g3 g4 g5 s :
  s ∉ patched_slots → set_groups l1 l2 g3 g4 g5 m !! s = m !! s.
Proof.
  intros Hs. unfold set_groups.
  unfold patched_slots in Hs.
  apply not_elem_of_app in Hs as [Hs1 Hs].
  apply not_elem_of_app in Hs as [Hs2 Hs].
  apply not_elem_of_cons in Hs as [Hs3 Hs].
  apply not_elem_of_cons in Hs as [Hs4 Hs].
  apply not_elem_of_cons in Hs as [Hs5 _].
  rewrite !set_all_other; try done.
  all: by apply not_elem_of_cons; split; [|apply not_elem_of_nil].
Qed.

(** After the installation the stores hold the replacements. *)
Lemma installed_lookup m m' k fs1 fs2 f3 f4 f5 s :
  originals_in m fs1 fs2 f3 f4 f5 →
  s ∈ patched_slots →
  ∃ f, m !! s = Some f ∧
       set_groups (Closure_observing_get_dense_tensor <$> fs1)
                  (Closure_observing_get_sparse_tensors <$> fs2)
                  (Closure_observing_create_weighted_sum f3)
                  (Closure_observing_export_outputs_for_mode f4 k)
                  (Closure_observing_transform_features_v2 f5) m' !! s
       = Some (replacement k s.2 f).
Proof.
  intros (H1 & H2 & H3 & H4 & H5) Hs. unfold set_groups.
  unfold patched_slots in Hs.
  apply elem_of_app in Hs as [Hs|Hs];
    [|apply elem_of_app in Hs as [Hs|Hs]].
  - apply list_elem_of_fmap in Hs as (o & -> & Ho).
    apply list_elem_of_lookup in Ho as [i Hi].
    destruct (Forall2_lookup_l _ _ _ _ _ H1 Hi) as (f & Hfi & Hf).
    exists f. split; [done|].
    rewrite !set_all_other_attr by done.
    apply (set_all_at _ _ _ _ i); [apply dense_NoDup|done|].
    by rewrite list_lookup_fmap, Hfi.
  - apply list_elem_of_fmap in Hs as (o & -> & Ho).
    apply list_elem_of_lookup in Ho as [i Hi].
    destruct (Forall2_lookup_l _ _ _ _ _ H2 Hi) as (f & Hfi & Hf).
    exists f. split; [done|].
    rewrite !(set_all_other_attr _ "get_sparse_tensors") by done.
    apply (set_all_at _ _ _ _ i); [apply sparse_NoDup|done|].
    by rewrite list_lookup_fmap, Hfi.
  - apply elem_of_cons in Hs as [->|Hs];
      [|apply elem_of_cons in Hs as [->|Hs]].
    + exists f3. split; [done|].
      rewrite !(set_all_other_attr _ "_create_weighted_sum") by done.
      unfold set_all. simpl. by rewrite lookup_insert_eq.
    + exists f4. split; [done|].
      rewrite !(set_all_other_attr _ "export_outputs_for_mode") by done.
      unfold set_all. simpl. by rewrite lookup_insert_eq.
    + apply list_elem_of_singleton in Hs as ->.
      exists f5. split; [done|].
      unfold set_all at 1. simpl. by rewrite lookup_insert_eq.
Qed.

Lemma Forall2_set_all_self a objs fs m :
  NoDup objs → length objs = length fs →
  Forall2 (λ o f, set_all a objs fs m !! (o, a) = Some f) objs fs.
Proof.
  intros Hnd Hlen. apply Forall2_same_length_lookup. split; [done|].
  intros i o f Ho Hf. by apply (set_all_at _ _ _ _ i).
Qed.

Lemma originals_in_installed m l1 l2 g3 g4 g5 :
  length l1 = length _FEATURE_COLUMNS_TO_PATCH_DENSE →
  length l2 = length _FEATURE_COLUMNS_TO_PATCH_SPARSE →
  originals_in (set_groups l1 l2 g3 g4 g5 m) l1 l2 g3 g4 g5.
Proof.
  intros L1 L2. unfold set_groups. repeat split.
  - do 4 (apply Forall2_set_all_other_attr; [done|]).
    by apply Forall2_set_all_self; [apply dense_NoDup|].
  - do 3 (apply Forall2_set_all_other_attr; [done|]).
    by apply Forall2_set_all_self; [apply sparse_NoDup|].
  - rewrite !(set_all_other_attr _ "_create_weighted_sum") by done.
    unfold set_all. simpl. by rewrite lookup_insert_eq.
  - rewrite !(set_all_other_attr _ "export_outputs_for_mode") by done.
    unfold set_all. simpl. by rewrite lookup_insert_eq.
  - unfold set_all at 1. simpl. by rewrite lookup_insert_eq.
Qed.

Lemma originals_in_list m fs1 fs2 f3 f4 f5 :
  originals_in m fs1 fs2 f3 f4 f5 →
  Forall2 (λ s f, m !! s = Some f) patched_slots (fs1 ++ fs2 ++ [f3; f4; f5]).
Proof.
  intros (H1 & H2 & H3 & H4 & H5). unfold patched_slots.
  apply Forall2_app; [by apply Forall2_fmap_l|].
  apply Forall2_app; [by apply Forall2_fmap_l|].
  by repeat constructor.
Qed.
End PatchFacts.

Section ScopeClaims.
Context {handle : Type} `{PyHandle handle}.
Implicit Types (w : World handle).

(** C1 (amended): when every patched attribute exists at scope entry and
    the body leaves the helper's saved originals alone (it does not enter
    the scope again on the same helper), [exporting_context] ends
    with the body's outcome, returned or raised, and with every patched
    attribute holding what it held at entry; when the body also leaves the
    attribute store as the patching made it, the whole store is as at
    entry. *)
Theorem exporting_context_restores_entry_points w output_key
    (body : M (World handle) unit) :
  (∀ s, s ∈ patched_slots → is_Some (attrs w !! s)) →
  (∀ w1, _patch_estimator_to_observe output_key w = (Ok tt, w1) →
         saved_originals (helper (body w1).2) = saved_originals (helper w1)) →
  ∃ w1 w3,
    _patch_estimator_to_observe output_key w = (Ok tt, w1) ∧
    exporting_context output_key body w = ((body w1).1, w3) ∧
    (∀ s, s ∈ patched_slots → attrs w3 !! s = attrs w !! s) ∧
    (attrs (body w1).2 = attrs w1 → attrs w3 = attrs w).
Proof.
  intros Hpresent Hbody.
  destruct (originals_of_present _ Hpresent) as (fs1 & fs2 & f3 & f4 & f5 & Ho).
  pose proof (patch_estimator_ok w output_key _ _ _ _ _ Ho) as Hpatch.
  destruct (originals_in_length _ _ _ _ _ _ Ho) as [L1 L2].
  set (w1 := mkWorld _ _ _ _) in Hpatch.
  specialize (Hbody _ Hpatch).
  unfold exporting_context. rewrite Hpatch.
  destruct (body w1) as [r w2] eqn:Hrun. simpl in Hbody.
  rewrite (unpatch_estimator_ok w2 fs1 fs2 f3 f4 f5); [|done..].
  eexists w1, _. split; [done|]. rewrite Hrun. split; [reflexivity|].
  simpl. split.
  - intros s Hs. by apply set_groups_restores.
  - intros Hsame. apply map_eq. intros s.
    destruct (decide (s ∈ patched_slots)) as [Hs|Hs].
    + by apply set_groups_restores.
    + rewrite set_groups_other by done. rewrite Hsame.
      by rewrite set_groups_other.
Qed.

(** C2 (amended): entering a scope while one is active on the same
    helper raises nothing.  The second patching wraps what the first one
    installed: every patched attribute becomes the replacement of the
    replacement of its original, and the helper's saved originals become
    the attributes as they were at the second entry, the replacements of
    the first. *)
Theorem second_scope_wraps_the_replacements w k1 k2 :
  (∀ s, s ∈ patched_slots → is_Some (attrs w !! s)) →
  ∃ w1 w2 saved,
    _patch_estimator_to_observe k1 w = (Ok tt, w1) ∧
    _patch_estimator_to_observe k2 w1 = (Ok tt, w2) ∧
    saved_list (helper w2) = Some saved ∧
    Forall2 (λ s f, attrs w1 !! s = Some f) patched_slots saved ∧
    ∀ s, s ∈ patched_slots →
         ∃ f, attrs w !! s = Some f ∧
              attrs w1 !! s = Some (replacement k1 s.2 f) ∧
              attrs w2 !! s
              = Some (replacement k2 s.2 (replacement k1 s.2 f)).
Proof.
  intros Hpresent.
  destruct (originals_of_present _ Hpresent) as (fs1 & fs2 & f3 & f4 & f5 & Ho).
  pose proof (patch_estimator_ok w k1 _ _ _ _ _ Ho) as Hpatch1.
  destruct (originals_in_length _ _ _ _ _ _ Ho) as [L1 L2].
  set (w1 := mkWorld _ _ _ _) in Hpatch1.
  assert (Ho1 : originals_in (attrs w1)
                  (Closure_observing_get_dense_tensor <$> fs1)
                  (Closure_observing_get_sparse_tensors <$> fs2)
                  (Closure_observing_create_weighted_sum f3)
                  (Closure_observing_export_outputs_for_mode f4 k1)
                  (Closure_observing_transform_features_v2 f5)).
  { apply originals_in_installed; by rewrite length_fmap. }
  pose proof (patch_estimator_ok w1 k2 _ _ _ _ _ Ho1) as Hpatch2.
  eexists w1, _, _. split; [exact Hpatch1|]. split; [exact Hpatch2|].
  split; [reflexivity|]. split; [by apply originals_in_list|].
  intros s Hs.
  destruct (installed_lookup _ (attrs w) k1 _ _ _ _ _ s Ho Hs) as (f & Hf & Hf1).
  destruct (installed_lookup _ (attrs w1) k2 _ _ _ _ _ s Ho1 Hs)
    as (f' & Hf' & Hf2).
  exists f. split; [done|]. split; [exact Hf1|].
  simpl in Hf'. rewrite Hf1 in Hf'. injection Hf' as <-. exact Hf2.
Qed.

(** C8 (amended): the restoration writes the patched attributes in the
    order of the installation, group by group and object by object. *)
Theorem restoration_follows_installation_order w output_key :
  (∀ s, s ∈ patched_slots → is_Some (attrs w !! s)) →
  ∃ w1,
    _patch_estimator_to_observe output_key w = (Ok tt, w1) ∧
    setattr_log w1 = setattr_log w ++ patched_slots ∧
    ∀ w2, saved_originals (helper w2) = saved_originals (helper w1) →
          ∃ w3, _unpatch_estimator_to_observe w2 = (Ok tt, w3) ∧
                setattr_log w3 = setattr_log w2 ++ patched_slots.
Proof.
  intros Hpresent.
  destruct (originals_of_present _ Hpresent) as (fs1 & fs2 & f3 & f4 & f5 & Ho).
  pose proof (patch_estimator_ok w output_key _ _ _ _ _ Ho) as Hpatch.
  destruct (originals_in_length _ _ _ _ _ _ Ho) as [L1 L2].
  eexists. split; [exact Hpatch|]. split; [done|].
  intros w2 Hsaved. simpl in Hsaved.
  eexists. split; [by apply (unpatch_estimator_ok w2 fs1 fs2 f3 f4 f5)|done].
Qed.
End ScopeClaims.

(** ** The scope claims on a concrete process *)

Lemma world0_present : ∀ s, s ∈ patched_slots → is_Some (attrs world0 !! s).
Proof. apply Forall_forall. compute_done. Qed.

Lemma exporting_context_restores_entry_points_witness :
  ∃ w1 w3,
    _patch_estimator_to_observe (Some "logits") world0 = (Ok tt, w1) ∧
    exporting_context (Some "logits") failing_export world0
    = ((failing_export w1).1, w3) ∧
    (∀ s, s ∈ patched_slots → attrs w3 !! s = attrs world0 !! s) ∧
    (attrs (failing_export w1).2 = attrs w1 → attrs w3 = attrs world0).
Proof.
  apply exporting_context_restores_entry_points.
  - exact world0_present.
  - intros w1 _. reflexivity.
Defined.

Lemma second_scope_wraps_the_replacements_witness :
  ∃ w1 w2 saved,
    _patch_estimator_to_observe None world0 = (Ok tt, w1) ∧
    _patch_estimator_to_observe (Some "probabilities") w1 = (Ok tt, w2) ∧
    saved_list (helper w2) = Some saved ∧
    Forall2 (λ s f, attrs w1 !! s = Some f) patched_slots saved ∧
    ∀ s, s ∈ patched_slots →
         ∃ f, attrs world0 !! s = Some f ∧
              attrs w1 !! s = Some (replacement None s.2 f) ∧
              attrs w2 !! s
              = Some (replacement (Some "probabilities") s.2
                        (replacement None s.2 f)).
Proof.
  apply second_scope_wraps_the_replacements. exact world0_present.
Defined.

(** C2 as stated fails: the second entry returns normally, the helper's
    saved original of [_create_weighted_sum] is then the replacement
    installed by the first entry, and once both scopes have exited the
    attribute still holds that replacement. *)
Lemma exporting_context_reentrant_counterexample :
  (∀ s, s ∈ patched_slots → is_Some (attrs world0 !! s)) ∧
  ∃ w4 : World pyobj,
    exporting_context None (exporting_context None (mret tt)) world0
    = (Ok tt, w4) ∧
    attrs world0 !! (fc2, "_create_weighted_sum") = Some (Builtin 12) ∧
    attrs w4 !! (fc2, "_create_weighted_sum")
    = Some (Closure_observing_create_weighted_sum (Builtin 12)) ∧
    Forall (λ s, attrs w4 !! s ≠ attrs world0 !! s) patched_slots.
Proof.
  split; [exact world0_present|].
  exists (exporting_context None (exporting_context None (mret tt)) world0).2.
  split; [vm_compute; reflexivity|].
  split; [vm_compute; reflexivity|].
  split; [vm_compute; reflexivity|].
  unfold patched_slots.
  repeat (apply Forall_cons; split; [vm_compute; discriminate|]).
  apply Forall_nil. exact I.
Qed.

Lemma second_scope_counterexample :
  ∃ w1 w2 : World pyobj,
    _patch_estimator_to_observe None world0 = (Ok tt, w1) ∧
    _patch_estimator_to_observe None w1 = (Ok tt, w2) ∧
    attrs world0 !! (fc2, "_create_weighted_sum") = Some (Builtin 12) ∧
    _actual_create_weighted_sum (helper w2)
    = Some (Closure_observing_create_weighted_sum (Builtin 12)) ∧
    ∃ w4, exporting_context None nested_export world0 = (Ok tt, w4) ∧
          attrs w4 !! (fc2, "_create_weighted_sum")
          = Some (Closure_observing_create_weighted_sum (Builtin 12)).
Proof.
  exists (_patch_estimator_to_observe None world0).2.
  exists ((_patch_estimator_to_observe None;;
           _patch_estimator_to_observe None) world0).2.
  split; [vm_compute; reflexivity|].
  split; [vm_compute; reflexivity|].
  split; [vm_compute; reflexivity|].
  split; [vm_compute; reflexivity|].
  exists (exporting_context None nested_export world0).2.
  split; vm_compute; reflexivity.
Qed.

Lemma restoration_follows_installation_order_witness :
  ∃ w1 : World pyobj,
    _patch_estimator_to_observe None world0 = (Ok tt, w1) ∧
    setattr_log w1 = setattr_log world0 ++ patched_slots ∧
    ∀ w2 : World pyobj, saved_originals (helper w2) = saved_originals (helper w1) →
          ∃ w3, _unpatch_estimator_to_observe w2 = (Ok tt, w3) ∧
                setattr_log w3 = setattr_log w2 ++ patched_slots.
Proof.
  apply restoration_follows_installation_order. exact world0_present.
Defined.

(** C8 as stated fails: the restoration writes the fifteen attributes in
    the order of the installation, beginning with [get_dense_tensor] of
    [DenseColumn], the first one installed; the reverse order would begin
    with [_transform_features_v2]. *)
Lemma restoration_order_counterexample :
  ∃ w1 w3 : World pyobj,
    _patch_estimator_to_observe None world0 = (Ok tt, w1) ∧
    _unpatch_estimator_to_observe w1 = (Ok tt, w3) ∧
    setattr_log w1 = patched_slots ∧
    setattr_log w3 = patched_slots ++ patched_slots ∧
    setattr_log w3 ≠ patched_slots ++ rev patched_slots ∧
    head (drop 15 (setattr_log w3)) = Some (Class DenseColumn, "get_dense_tensor").
Proof.
  exists (_patch_estimator_to_observe None world0).2.
  exists ((_patch_estimator_to_observe None;;
           _unpatch_estimator_to_observe) world0).2.
  split; [vm_compute; reflexivity|].
  split; [vm_compute; reflexivity|].
  split; [vm_compute; reflexivity|].
  split; [vm_compute; reflexivity|].
  split; [vm_compute; discriminate|].
  vm_compute; reflexivity.
Qed.

(** ** The observing wrappers *)

Lemma bind_mret_r {S A} (m : M S A) s : (a ← m; mret a) s = m s.
Proof. unfold mbind, M_bind. by destruct (m s) as [[|] ?]. Qed.

Lemma then_mret_returns {S A B} (m : M S A) (b v : B) s s' :
  (m;; mret b) s = (Ok v, s') → v = b.
Proof.
  unfold mbind, M_bind. destruct (m s) as [[|] ?]; [|done].
  by intros [= <- _].
Qed.

Section ExportHook.
Context {handle : Type} `{PyHandle handle}.
Implicit Types (w : World handle).

(** C6: with a configured output key that is missing from [predictions]
    the hook raises the [ValueError] that names the key, in the state it
    was entered in; with a configured key that is present it records the
    tensor under that key and goes on to the original.  With no key it
    records under ['logits'] when present, else under ['predictions']
    when present, and raises [ValueError] when neither is.  An empty
    string counts as no key. *)
Theorem export_output_key_selection
    old_fn mode serving_export_outputs (preds : gmap string handle)
    loss metrics w :
  let hook key :=
    _observing_export_outputs_for_mode old_fn key mode serving_export_outputs
      (Some preds) loss metrics w in
  let recorded k t :=
    old_fn mode serving_export_outputs (Some preds) loss metrics
           (observing_dict_set k t w).2 in
  (∀ k, k ≠ "" → preds !! k = None →
        hook (Some k)
        = (Raise (ValueError ("Output key " +:+ k +:+ " is not found.")), w)) ∧
  (∀ k t, k ≠ "" → preds !! k = Some t → hook (Some k) = recorded k t) ∧
  (∀ t, preds !! "logits" = Some t → hook None = recorded "logits" t) ∧
  (∀ t, preds !! "logits" = None → preds !! "predictions" = Some t →
        hook None = recorded "predictions" t) ∧
  (preds !! "logits" = None → preds !! "predictions" = None →
   hook None
   = (Raise (ValueError "Output keys are not specified and not inferred."), w)) ∧
  hook (Some "") = hook None ∧
  (∀ k t, _output_tensors_dict (helper (observing_dict_set k t w).2)
          = <[k := t]> (_output_tensors_dict (helper w))).
Proof.
  cbv zeta. unfold _observing_export_outputs_for_mode.
  repeat split.
  - intros k Hk Hnone. unfold truthy. rewrite bool_decide_eq_false_2 by done.
    simpl. by rewrite Hnone.
  - intros k t Hk Hsome. unfold truthy. rewrite bool_decide_eq_false_2 by done.
    simpl. rewrite Hsome.
    erewrite bind_ok; [|reflexivity]. apply bind_mret_r.
  - intros t Hsome. simpl. unfold LOGITS. rewrite Hsome.
    erewrite bind_ok; [|reflexivity]. apply bind_mret_r.
  - intros t Hnone Hsome. simpl. unfold LOGITS, PREDICTIONS.
    rewrite Hnone, Hsome.
    erewrite bind_ok; [|reflexivity]. apply bind_mret_r.
  - intros Hnone1 Hnone2. simpl. unfold LOGITS, PREDICTIONS.
    by rewrite Hnone1, Hnone2.
Qed.
End ExportHook.

Section TensorHooks.
Context {handle : Type} `{PyHandle handle}.
Implicit Types (w : World handle).

Lemma calls_through_bind {X} (orig : M (World handle) X)
    (k : X → M (World handle) X) :
  (∀ x w v w', k x w = (Ok v, w') → v = x) →
  calls_through orig (orig ≫= k).
Proof.
  intros Hk w. unfold mbind, M_bind.
  destruct (orig w) as [[v|e] w1]; [|done].
  intros v' w2. apply Hk.
Qed.

Lemma mret_returns {X} (x v : X) w w' :
  mret (M := M (World handle)) x w = (Ok v, w') → v = x.
Proof. by intros [= <- _]. Qed.

(** C3 (amended): each of the four tensor-observing replacements runs
    the original first, in the state the replacement was entered in: when
    the original raises, the replacement ends with that exception and
    state, and when the replacement returns, it returns the original's
    result.  (After the call the recording may still raise.)  The
    export-output replacement selects the output key from [predictions]
    before it calls the original.  When a key is selected (the configured
    key when it is in [predictions]; with no configured key ['logits'],
    else ['predictions']), the tensor [predictions] holds under it is
    recorded and the replacement then is the call of the original in the
    state with that record: same result or exception, same final state.
    When no key can be selected it raises [ValueError] in the state it was
    entered in, whatever the original is: the original is not called.  With
    [predictions] left at [None] the membership test raises [TypeError],
    again before the original. *)
Theorem hooks_call_through_first :
  (∀ old_fn instance args,
      calls_through (old_fn instance args)
                    (_observing_get_dense_tensor old_fn instance args)) ∧
  (∀ old_fn instance args,
      calls_through (old_fn instance args)
                    (_observing_get_sparse_tensors old_fn instance args)) ∧
  (∀ old_fn column args,
      calls_through (old_fn column args)
                    (_observing_create_weighted_sum old_fn column args)) ∧
  (∀ old_fn features feature_columns args,
      calls_through
        (old_fn features feature_columns args)
        (_observing_transform_features_v2 (handle := handle)
           old_fn features feature_columns args)) ∧
  (∀ old_fn output_key mode seo (preds : gmap string handle) loss metrics w,
      let hook :=
        _observing_export_outputs_for_mode old_fn output_key mode seo
          (Some preds) loss metrics w in
      let original_after k t :=
        old_fn mode seo (Some preds) loss metrics (observing_dict_set k t w).2 in
      if truthy output_key then
        match preds !! default "" output_key with
        | Some t => hook = original_after (default "" output_key) t
        | None =>
            hook
            = (Raise (ValueError ("Output key " +:+ default "" output_key
                                  +:+ " is not found.")), w)
        end
      else
        match preds !! "logits", preds !! "predictions" with
        | Some t, _ => hook = original_after "logits" t
        | None, Some t => hook = original_after "predictions" t
        | None, None =>
            hook
            = (Raise (ValueError
                        "Output keys are not specified and not inferred."), w)
        end) ∧
  (∀ k t w,
      observing_dict_set k t w
      = (Ok tt,
         mkWorld (attrs w)
           (set_output_tensors (<[k := t]> (_output_tensors_dict (helper w)))
              (helper w))
           (setattr_log w) (next_addr w))) ∧
  (∀ old_fn output_key mode seo loss metrics w,
      _observing_export_outputs_for_mode old_fn output_key mode seo
        None loss metrics w
      = (Raise TypeError, w)).
Proof.
  split; [|split; [|split; [|split; [|split; [|split]]]]].
  - intros old_fn instance args. apply calls_through_bind.
    intros x w v w'. cbv beta zeta.
    destruct (categorical_column instance) as [fc|].
    + destruct (isinstance fc BucketizedColumn); [apply mret_returns|].
      destruct (isinstance fc CrossedColumn); apply then_mret_returns.
    + destruct (negb _); [apply then_mret_returns|apply mret_returns].
  - intros old_fn instance args. apply calls_through_bind.
    intros x w v w'. cbv beta zeta.
    destruct (negb _); [|apply mret_returns].
    unfold mbind at 1, M_bind at 1.
    destruct (_ w) as [[fc|e] w1]; [apply then_mret_returns|done].
  - intros old_fn column args. apply calls_through_bind.
    intros x w v w'. cbv beta zeta.
    destruct (_ && _); [|apply mret_returns].
    destruct (isinstance column CrossedColumn); apply then_mret_returns.
  - intros old_fn features feature_columns args. apply calls_through_bind.
    intros x w v w'. apply then_mret_returns.
  - intros old_fn output_key mode seo preds loss metrics w. cbv zeta.
    unfold _observing_export_outputs_for_mode, LOGITS, PREDICTIONS.
    destruct (truthy output_key).
    + destruct (preds !! default "" output_key) as [t|]; [|reflexivity].
      erewrite bind_ok; [|reflexivity]. apply bind_mret_r.
    + destruct (preds !! "logits") as [t|].
      { erewrite bind_ok; [|reflexivity]. apply bind_mret_r. }
      destruct (preds !! "predictions") as [t|]; [|reflexivity].
      erewrite bind_ok; [|reflexivity]. apply bind_mret_r.
  - reflexivity.
  - reflexivity.
Qed.
End TensorHooks.

Section CrossedColumns.
Context {handle : Type} `{PyHandle handle}.
Implicit Types (w : World handle) (result : handle).

Lemma with_encoded_idemp result (r : FeatureTensors handle) :
  with_encoded result (with_encoded result r) = with_encoded result r.
Proof.
  unfold with_encoded. simpl.
  destruct (py_in result (encoded_tensors r)) eqn:Hin; simpl.
  - by rewrite Hin.
  - rewrite py_in_app, Hin. simpl.
    by rewrite same_object_refl.
Qed.

Lemma crossed_loop result ks w :
  (∀ k, k ∈ ks →
        ∃ l0 r, _feature_tensors_dict (helper w) !! name k = Some (l0 ++ [r])) →
  ∃ d,
    for_each ks (λ column,
      crossed_columns_add (name column);;
      on_feature_tensors (_add_encoded_tensor_to_dict column result)) w
    = (Ok tt, crossed_state w d (list_to_set (name <$> ks))) ∧
    (∀ k, k ∈ ks →
          ∃ l0 r, _feature_tensors_dict (helper w) !! name k = Some (l0 ++ [r]) ∧
                  d !! name k = Some (l0 ++ [with_encoded result r])) ∧
    (∀ n, n ∉ name <$> ks → d !! n = _feature_tensors_dict (helper w) !! n).
Proof.
  revert w. induction ks as [|k ks IH]; intros w Hrec.
  - exists (_feature_tensors_dict (helper w)). split; [|split].
    + simpl. unfold crossed_state. rewrite union_empty_r_L.
      by destruct w as [? [] ? ?].
    + intros k Hk. by apply elem_of_nil in Hk.
    + done.
  - destruct (Hrec k) as (l0 & r & Hk); [left|].
    set (d1 := <[name k := l0 ++ [with_encoded result r]]>
                 (_feature_tensors_dict (helper w))).
    set (w1 := crossed_state w d1 {[name k]}).
    assert (Hstep : (crossed_columns_add (name k);;
                     on_feature_tensors
                       (_add_encoded_tensor_to_dict k result)) w
                    = (Ok tt, w1)).
    { erewrite bind_ok; [|reflexivity].
      unfold on_feature_tensors. cbn [helper _feature_tensors_dict set_crossed_columns].
      by rewrite (add_encoded_last _ _ _ l0 r). }
    destruct (IH w1) as (d & Hrun & Hin & Hout).
    { intros k' Hk'. cbn [w1 crossed_state helper _feature_tensors_dict].
      subst d1. destruct (decide (name k' = name k)) as [->|Hne].
      - rewrite lookup_insert_eq. eauto.
      - rewrite lookup_insert_ne by done. apply Hrec. by right. }
    cbn [w1 crossed_state helper _feature_tensors_dict] in Hin, Hout.
    exists d. split; [|split].
    + cbn [for_each]. rewrite (bind_ok _ _ _ _ _ Hstep), Hrun.
      unfold crossed_state, w1. cbn. do 3 f_equal.
      by rewrite <- (assoc_L (∪)).
    + intros k' Hk'.
      assert (Hcase : ∀ k2, k2 ∈ ks → name k2 = name k →
                       d !! name k = Some (l0 ++ [with_encoded result r])).
      { intros k2 Hk2 Heq. destruct (Hin k2 Hk2) as (l2 & r2 & Hd1 & Hd).
        rewrite Heq in Hd1, Hd. subst d1. rewrite lookup_insert_eq in Hd1.
        injection Hd1 as Hd1. apply app_inj_tail in Hd1 as [-> <-].
        by rewrite with_encoded_idemp in Hd. }
      apply elem_of_cons in Hk' as [->|Hk'].
      * exists l0, r. split; [done|].
        destruct (decide (name k ∈ name <$> ks)) as [Hdup|Hfresh].
        -- apply list_elem_of_fmap in Hdup as (k2 & Heq & Hk2).
           by apply (Hcase k2).
        -- rewrite Hout by done. subst d1. by rewrite lookup_insert_eq.
      * destruct (decide (name k' = name k)) as [Heq|Hne].
        -- exists l0, r. rewrite Heq. split; [done|]. by apply (Hcase k').
        -- destruct (Hin k' Hk') as (l2 & r2 & Hd1 & Hd).
           exists l2, r2. split; [|done].
           subst d1. by rewrite lookup_insert_ne in Hd1.
    + intros n Hn. rewrite fmap_cons in Hn.
      apply not_elem_of_cons in Hn as [Hne Hn].
      rewrite Hout by done. subst d1. by rewrite lookup_insert_ne.
Qed.

Lemma isinstance_crossed (c : Column) :
  cls c = CrossedColumn →
  isinstance c CategoricalColumn = true ∧
  isinstance c BucketizedColumn = false ∧
  isinstance c CrossedColumn = true.
Proof. unfold isinstance. by intros ->. Qed.

Lemma for_each_fmap {S A B} (f : A → B) (l : list A) (body : B → M S unit) s :
  for_each (f <$> l) body s = for_each l (λ x, body (f x)) s.
Proof.
  revert s. induction l as [|x l IH]; intros s; [done|].
  rewrite fmap_cons. cbn [for_each]. unfold mbind, M_bind.
  destruct (body (f x) s) as [[[]|e] s1]; [apply IH|done].
Qed.

Lemma key_names_columns {S} (ks : list Column) (s : S) :
  key_names (inr <$> ks) s = (Ok (name <$> ks), s).
Proof.
  induction ks as [|k ks IH]; [done|].
  rewrite !fmap_cons. cbn [key_names key_name].
  erewrite bind_ok; [|reflexivity]. by rewrite (bind_ok _ _ _ _ _ IH).
Qed.

(** C5 (amended): on the dense-tensor hook, for a crossed column whose
    constituent keys are all columns and have a record, every constituent
    name is added to the crossed columns and the result tensor is recorded
    in the encoded list of the last record of every constituent (appended
    once, or kept when it is already there); other names are untouched.
    On the weighted-sum hook a crossed column whose keys are all columns
    only adds the constituent names to the crossed columns; the feature
    dictionary is not written. *)
Theorem crossed_column_observation :
  (∀ old_fn instance fc ks args w w1 result,
      categorical_column instance = Some fc →
      cls fc = CrossedColumn →
      keys fc = inr <$> ks →
      old_fn instance args w = (Ok result, w1) →
      (∀ k, k ∈ ks →
            ∃ l0 r, _feature_tensors_dict (helper w1) !! name k
                    = Some (l0 ++ [r])) →
      ∃ w2,
        _observing_get_dense_tensor old_fn instance args w = (Ok result, w2) ∧
        _crossed_columns (helper w2)
        = _crossed_columns (helper w1) ∪ list_to_set (name <$> ks) ∧
        (∀ k, k ∈ ks →
              ∃ l0 r,
                _feature_tensors_dict (helper w1) !! name k
                = Some (l0 ++ [r]) ∧
                _feature_tensors_dict (helper w2) !! name k
                = Some (l0 ++ [with_encoded result r])) ∧
        (∀ n, n ∉ name <$> ks →
              _feature_tensors_dict (helper w2) !! n
              = _feature_tensors_dict (helper w1) !! n)) ∧
  (∀ old_fn column ks args w w1 result,
      cls column = CrossedColumn →
      keys column = inr <$> ks →
      old_fn column args w = (Ok result, w1) →
      ∃ w2,
        _observing_create_weighted_sum old_fn column args w = (Ok result, w2) ∧
        _crossed_columns (helper w2)
        = _crossed_columns (helper w1) ∪ list_to_set (name <$> ks) ∧
        _feature_tensors_dict (helper w2) = _feature_tensors_dict (helper w1)).
Proof.
  split.
  - intros old_fn instance fc ks args w w1 result Hcc Hcls Hkeys Hold Hrec.
    destruct (crossed_loop result ks w1 Hrec) as (d & Hrun & Hin & Hout).
    exists (crossed_state w1 d (list_to_set (name <$> ks))).
    split; [|by repeat split].
    unfold _observing_get_dense_tensor.
    rewrite (bind_ok _ _ _ _ _ Hold). cbv zeta. rewrite Hcc.
    destruct (isinstance_crossed fc Hcls) as (_ & -> & ->).
    rewrite Hkeys. erewrite bind_ok; [reflexivity|].
    rewrite for_each_fmap. exact Hrun.
  - intros old_fn column ks args w w1 result Hcls Hkeys Hold.
    exists (crossed_state w1 (_feature_tensors_dict (helper w1))
              (list_to_set (name <$> ks))).
    split; [|by repeat split].
    unfold _observing_create_weighted_sum.
    rewrite (bind_ok _ _ _ _ _ Hold).
    destruct (isinstance_crossed column Hcls) as (-> & -> & ->).
    cbn [andb negb]. rewrite Hkeys.
    erewrite bind_ok; [reflexivity|].
    rewrite (bind_ok _ _ _ _ _ (key_names_columns ks w1)).
    unfold crossed_state. by destruct w1 as [? [] ? ?].
Qed.
End CrossedColumns.

(** ** The wrappers on a concrete process *)

Lemma world_ab_records :
  ∀ k, k ∈ [col_a; col_b] →
       ∃ l0 r, _feature_tensors_dict (helper world_ab) !! name k = Some (l0 ++ [r]).
Proof.
  intros k Hk. apply list_elem_of_In in Hk. simpl in Hk.
  destruct Hk as [<-|[<-|[]]]; eexists [], _; reflexivity.
Qed.

Lemma crossed_column_observation_witness :
  (∃ w2,
     _observing_get_dense_tensor constant_tensor a_X_b_indicator 0 world_ab
     = (Ok (TensorObj 9), w2) ∧
     _crossed_columns (helper w2)
     = _crossed_columns (helper world_ab) ∪ list_to_set (name <$> [col_a; col_b]) ∧
     (∀ k, k ∈ [col_a; col_b] →
           ∃ l0 r,
             _feature_tensors_dict (helper world_ab) !! name k = Some (l0 ++ [r]) ∧
             _feature_tensors_dict (helper w2) !! name k
             = Some (l0 ++ [with_encoded (TensorObj 9) r])) ∧
     (∀ n, n ∉ name <$> [col_a; col_b] →
           _feature_tensors_dict (helper w2) !! n
           = _feature_tensors_dict (helper world_ab) !! n)) ∧
  (∃ w2,
     _observing_create_weighted_sum constant_tensor a_X_b 0 world_ab
     = (Ok (TensorObj 9), w2) ∧
     _crossed_columns (helper w2)
     = _crossed_columns (helper world_ab) ∪ list_to_set (name <$> [col_a; col_b]) ∧
     _feature_tensors_dict (helper w2) = _feature_tensors_dict (helper world_ab)).
Proof.
  split.
  - apply (proj1 crossed_column_observation constant_tensor a_X_b_indicator
             a_X_b [col_a; col_b] 0 world_ab world_ab (TensorObj 9));
      [reflexivity | reflexivity | reflexivity | reflexivity
      | exact world_ab_records].
  - apply (proj2 crossed_column_observation constant_tensor a_X_b
             [col_a; col_b] 0 world_ab world_ab (TensorObj 9)); reflexivity.
Defined.

Lemma crossed_weighted_sum_counterexample :
  let run := _observing_create_weighted_sum constant_tensor a_X_b 0 world_ab in
  run.1 = Ok (TensorObj 9) ∧
  "a" ∈ _crossed_columns (helper run.2) ∧
  "b" ∈ _crossed_columns (helper run.2) ∧
  _feature_tensors_dict (helper run.2) !! "a"
  = Some [mkFeatureTensors (TensorObj 1) []] ∧
  _feature_tensors_dict (helper run.2) !! "b"
  = Some [mkFeatureTensors (TensorObj 2) []].
Proof.
  cbv zeta. split; [reflexivity|]. split; [compute_done|].
  split; [compute_done|]. split; reflexivity.
Qed.

Lemma dense_hook_crossed_example :
  let run := _observing_get_dense_tensor constant_tensor a_X_b_indicator 0 world_ab in
  run.1 = Ok (TensorObj 9) ∧
  _feature_tensors_dict (helper run.2) !! "a"
  = Some [mkFeatureTensors (TensorObj 1) [TensorObj 9]] ∧
  _feature_tensors_dict (helper run.2) !! "b"
  = Some [mkFeatureTensors (TensorObj 2) [TensorObj 9]].
Proof. cbv zeta. split; [reflexivity|]. split; reflexivity. Qed.

Lemma export_hook_counterexample :
  _observing_export_outputs_for_mode counting_export None 0 0 (Some ∅) 0 0 world0
  = (Raise (ValueError "Output keys are not specified and not inferred."), world0) ∧
  (counting_export 0 0 (Some ∅) 0 0 world0).1 = Ok 7 ∧
  next_addr (counting_export 0 0 (Some ∅) 0 0 world0).2 = S (next_addr world0).
Proof. split; [reflexivity|]. split; reflexivity. Qed.

Lemma hooks_call_through_first_witness :
  _observing_export_outputs_for_mode counting_export None 0 0
    (Some {["logits" := TensorObj 5]}) 0 0 world0
  = counting_export 0 0 (Some {["logits" := TensorObj 5]}) 0 0
      (observing_dict_set "logits" (TensorObj 5) world0).2 ∧
  _observing_export_outputs_for_mode counting_export (Some "scores") 0 0
    (Some {["logits" := TensorObj 5]}) 0 0 world0
  = (Raise (ValueError "Output key scores is not found."), world0) ∧
  calls_through (constant_tensor col_a 0)
    (_observing_get_dense_tensor constant_tensor col_a 0).
Proof.
  split; [|split].
  - exact (proj1 (proj2 (proj2 (proj2 (proj2 hooks_call_through_first))))
             counting_export None 0 0 {["logits" := TensorObj 5]} 0 0 world0).
  - exact (proj1 (proj2 (proj2 (proj2 (proj2 hooks_call_through_first))))
             counting_export (Some "scores") 0 0 {["logits" := TensorObj 5]}
             0 0 world0).
  - exact (proj1 hooks_call_through_first constant_tensor col_a 0).
Defined.

Lemma export_output_key_selection_witness :
  let preds : gmap string pyobj := {["predictions" := TensorObj 5]} in
  _observing_export_outputs_for_mode counting_export (Some "probabilities")
    0 0 (Some preds) 0 0 world0
  = (Raise (ValueError "Output key probabilities is not found."), world0) ∧
  _observing_export_outputs_for_mode counting_export None 0 0 (Some preds) 0 0 world0
  = counting_export 0 0 (Some preds) 0 0
      (observing_dict_set "predictions" (TensorObj 5) world0).2.
Proof.
  pose proof (export_output_key_selection counting_export 0 0
                ({["predictions" := TensorObj 5]} : gmap string pyobj) 0 0 world0)
    as (Hmissing & _ & _ & Hpred & _).
  split.
  - apply (Hmissing "probabilities"); [discriminate | reflexivity].
  - apply (Hpred (TensorObj 5)); reflexivity.
Defined.

(** ** Selecting an attribution *)

Lemma max_example_score_spec best rest :
  let a := max_example_score best rest in
  a ∈ best :: rest ∧
  ∀ b, b ∈ best :: rest → Qle (example_score b) (example_score a).
Proof.
  revert best. induction rest as [|x rest IH]; intros best; simpl.
  - split; [left|]. intros b Hb. apply list_elem_of_singleton in Hb as ->.
    apply Qle_refl.
  - destruct (Qle_bool (example_score x) (example_score best)) eqn:Hle.
    + destruct (IH best) as [Hin Hmax]. split.
      * apply elem_of_cons in Hin as [->|Hin]; [left|by do 2 right].
      * intros b Hb. apply elem_of_cons in Hb as [->|Hb]; [apply Hmax; left|].
        apply elem_of_cons in Hb as [->|Hb]; [|apply Hmax; by right].
        apply Qle_bool_iff in Hle. eapply Qle_trans; [exact Hle|].
        apply Hmax. left.
    + destruct (IH x) as [Hin Hmax]. split; [by right|].
      intros b Hb. apply elem_of_cons in Hb as [->|Hb]; [|by apply Hmax].
      eapply Qle_trans; [|apply Hmax; left].
      apply Qlt_le_weak. apply Qnot_le_lt. intros Hc.
      apply Qle_bool_iff in Hc. congruence.
Qed.

(** C9: on a response with at least one attribution, a request without
    class index returns an attribution of the response whose example score
    is maximal; a request for a class index of the response returns an
    attribution with that label index; a request for an absent class index
    raises [KeyError].  On the response of the test (scores 0.4 and
    0.17658) no index selects label 170, index 2 selects label 2 and index
    9 raises. *)
Theorem select_attribution_spec (e : Explanation) :
  (e ≠ [] →
   ∃ a, select_attribution e None = Ok a ∧ a ∈ e ∧
        ∀ b, b ∈ e → Qle (example_score b) (example_score a)) ∧
  (∀ i, (∃ b, b ∈ e ∧ label_index b = i) →
        ∃ a, select_attribution e (Some i) = Ok a ∧ a ∈ e ∧ label_index a = i) ∧
  (∀ i, (∀ b, b ∈ e → label_index b ≠ i) →
        select_attribution e (Some i) = Raise (KeyError i)) ∧
  select_attribution fake_explanation None = Ok fake_attr_1 ∧
  label_index fake_attr_1 = 170 ∧
  select_attribution fake_explanation (Some 2) = Ok fake_attr_2 ∧
  label_index fake_attr_2 = 2 ∧
  select_attribution fake_explanation (Some 9) = Raise (KeyError 9).
Proof.
  split; [|split; [|split; [|by repeat split]]].
  - intros Hne. destruct e as [|a rest]; [done|].
    exists (max_example_score a rest). split; [done|].
    apply max_example_score_spec.
  - intros i (b & Hb & Hi). simpl.
    destruct (List.find _ e) as [a|] eqn:Hfind.
    + apply find_some in Hfind as [Hin Heq].
      exists a. split; [done|]. split; [by apply list_elem_of_In|].
      by apply Nat.eqb_eq.
    + exfalso.
      assert (Hf : (label_index b =? i) = false).
      { apply (find_none _ _ Hfind b). by apply list_elem_of_In. }
      by apply Nat.eqb_neq in Hf.
  - intros i Hall. simpl.
    destruct (List.find _ e) as [a|] eqn:Hfind; [|done].
    apply find_some in Hfind as [Hin Heq]. exfalso.
    apply (Hall a); [by apply list_elem_of_In | by apply Nat.eqb_eq].
Qed.

Lemma select_attribution_spec_witness :
  ∃ a, select_attribution fake_explanation None = Ok a ∧ a ∈ fake_explanation ∧
       ∀ b, b ∈ fake_explanation → Qle (example_score b) (example_score a).
Proof.
  apply (proj1 (select_attribution_spec fake_explanation)). discriminate.
Defined.

(** * Further properties of the registry, the hooks and the scope *)

Section RegistryExtras.
Context {handle : Type} `{PyHandle handle}.
Implicit Types (ft : feature_dict handle) (fc : Column) (tensor : handle).

Lemma add_input_run ft fc tensor :
  _add_input_tensor_to_dict fc tensor ft
  = (Ok tt,
     <[name fc :=
         if py_in tensor (input_tensor <$> default [] (ft !! name fc))
         then default [] (ft !! name fc)
         else default [] (ft !! name fc) ++ [FeatureTensors_init tensor]]> ft).
Proof.
  unfold _add_input_tensor_to_dict. run.
  by destruct (py_in tensor _).
Qed.

Lemma add_input_list_nonempty ft fc tensor :
  (if py_in tensor (input_tensor <$> default [] (ft !! name fc))
   then default [] (ft !! name fc)
   else default [] (ft !! name fc) ++ [FeatureTensors_init tensor]) ≠ [].
Proof.
  destruct (py_in _ _) eqn:Hin.
  - destruct (ft !! name fc) as [l|]; simpl in *; [|done].
    by destruct l.
  - by intros [_ ?]%app_eq_nil.
Qed.

Lemma add_input_outcome ft fc tensor :
  ∃ ft' l',
    _add_input_tensor_to_dict fc tensor ft = (Ok tt, ft') ∧
    ft' !! name fc = Some l' ∧
    (l' = default [] (ft !! name fc) ∨
     l' = default [] (ft !! name fc) ++ [FeatureTensors_init tensor]) ∧
    py_in tensor (input_tensor <$> l') = true ∧
    (∀ k, k ≠ name fc → ft' !! k = ft !! k).
Proof.
  eexists _, _. split; [apply add_input_run|].
  split; [apply lookup_insert_eq|].
  destruct (py_in tensor (input_tensor <$> default [] (ft !! name fc))) eqn:Hin.
  - split; [by left|]. split; [done|].
    intros k Hk. by rewrite lookup_insert_ne.
  - split; [by right|]. split.
    + rewrite fmap_app, py_in_app. simpl.
      rewrite same_object_refl. simpl. apply orb_true_r.
    + intros k Hk. by rewrite lookup_insert_ne.
Qed.

(** X1: [_add_input_tensor_to_dict] never raises; afterwards the name is
    a key, its list is the old one or the old one with one record for the
    tensor appended, the tensor is found among the inputs by [in], and the
    other names are as before. *)
Theorem add_input_then_lookup ft fc tensor :
  ∃ ft' l',
    _add_input_tensor_to_dict fc tensor ft = (Ok tt, ft') ∧
    ft' !! name fc = Some l' ∧
    (l' = default [] (ft !! name fc) ∨
     l' = default [] (ft !! name fc) ++ [FeatureTensors_init tensor]) ∧
    py_in tensor (input_tensor <$> l') = true ∧
    (∀ k, k ≠ name fc → ft' !! k = ft !! k).
Proof. exact (add_input_outcome ft fc tensor). Qed.

Lemma add_encoded_outcomes ft fc tensor :
  match ft !! name fc with
  | None =>
      _add_encoded_tensor_to_dict fc tensor ft
      = (Raise (ValueError "Trying to add encoded tensors with no input tensor."),
         ft)
  | Some l =>
      match last l with
      | None => _add_encoded_tensor_to_dict fc tensor ft = (Raise IndexError, ft)
      | Some r =>
          _add_encoded_tensor_to_dict fc tensor ft
          = (Ok tt, <[name fc := removelast l ++ [with_encoded tensor r]]> ft)
      end
  end.
Proof.
  destruct (ft !! name fc) as [l|] eqn:Hl; [|by apply add_encoded_missing].
  destruct (last l) as [r|] eqn:Hlast.
  - apply last_Some in Hlast as [l0 ->].
    rewrite removelast_last. by apply add_encoded_last.
  - apply last_None in Hlast as ->. by apply add_encoded_empty_list.
Qed.

(** X2: on a dictionary without empty lists, both recording operations
    leave a dictionary without empty lists, and
    [_add_encoded_tensor_to_dict] does not raise [IndexError]. *)
Theorem add_operations_keep_lists_nonempty ft fc tensor :
  nonempty_lists ft →
  nonempty_lists (_add_input_tensor_to_dict fc tensor ft).2 ∧
  nonempty_lists (_add_encoded_tensor_to_dict fc tensor ft).2 ∧
  (_add_encoded_tensor_to_dict fc tensor ft).1 ≠ Raise IndexError.
Proof.
  intros Hne. split; [|split].
  - rewrite add_input_run. simpl. intros k l Hl.
    destruct (decide (k = name fc)) as [->|Hk].
    + rewrite lookup_insert_eq in Hl. injection Hl as <-.
      apply add_input_list_nonempty.
    + rewrite lookup_insert_ne in Hl by done. by apply (Hne k).
  - pose proof (add_encoded_outcomes ft fc tensor) as Hrun.
    destruct (ft !! name fc) as [l|] eqn:Hl; [|by rewrite Hrun].
    destruct (last l) as [r|]; rewrite Hrun; [|done]. simpl.
    intros k l' Hl'. destruct (decide (k = name fc)) as [->|Hk].
    + rewrite lookup_insert_eq in Hl'. injection Hl' as <-.
      by intros [_ ?]%app_eq_nil.
    + rewrite lookup_insert_ne in Hl' by done. by apply (Hne k).
  - pose proof (add_encoded_outcomes ft fc tensor) as Hrun.
    destruct (ft !! name fc) as [l|] eqn:Hl; [|by rewrite Hrun].
    destruct (last l) as [r|] eqn:Hlast; [by rewrite Hrun|].
    apply last_None in Hlast. by apply Hne in Hl.
Qed.

(** X3: an encoded observation that follows an input observation of the
    same column succeeds, whatever the dictionary was, and the encoded
    tensor is then found in the encoded list of the last record. *)
Theorem add_encoded_after_input_succeeds ft fc tensor encoded :
  ∃ ft' l r,
    (_add_input_tensor_to_dict fc tensor;;
     _add_encoded_tensor_to_dict fc encoded) ft = (Ok tt, ft') ∧
    ft' !! name fc = Some l ∧ last l = Some r ∧
    py_in encoded (encoded_tensors r) = true.
Proof.
  rewrite (bind_ok _ _ _ _ _ (add_input_run ft fc tensor)).
  set (l1 := if py_in _ _ then _ else _).
  assert (Hl1 : l1 ≠ []) by apply add_input_list_nonempty.
  destruct (last l1) as [r|] eqn:Hlast; [|by apply last_None in Hlast].
  apply last_Some in Hlast as [l0 Hl0].
  exists (<[name fc := l0 ++ [with_encoded encoded r]]> (<[name fc := l1]> ft)),
         (l0 ++ [with_encoded encoded r]), (with_encoded encoded r).
  split; [|split; [|split]].
  - apply add_encoded_last. by rewrite lookup_insert_eq, Hl0.
  - by rewrite lookup_insert_eq.
  - apply last_snoc.
  - unfold with_encoded. simpl.
    destruct (py_in encoded (encoded_tensors r)) eqn:Hin; [done|].
    rewrite py_in_app, Hin. simpl. by rewrite same_object_refl.
Qed.

(** X4: recording the same tensor for the same column twice in a row is
    the same as recording it once, for inputs and for encodings. *)
Theorem add_operations_idempotent ft fc tensor :
  (_add_input_tensor_to_dict fc tensor;; _add_input_tensor_to_dict fc tensor) ft
  = _add_input_tensor_to_dict fc tensor ft ∧
  (_add_encoded_tensor_to_dict fc tensor;; _add_encoded_tensor_to_dict fc tensor) ft
  = _add_encoded_tensor_to_dict fc tensor ft.
Proof.
  split.
  - destruct (add_input_outcome ft fc tensor) as (ft' & l' & Hrun & Hl' & _ & Hin & _).
    rewrite (bind_ok _ _ _ _ _ Hrun), Hrun.
    by apply (add_input_known _ _ _ l').
  - pose proof (add_encoded_outcomes ft fc tensor) as Hrun.
    destruct (ft !! name fc) as [l|] eqn:Hl;
      [|by rewrite (bind_raise _ _ _ _ _ Hrun)].
    destruct (last l) as [r|] eqn:Hlast;
      [|by rewrite (bind_raise _ _ _ _ _ Hrun)].
    rewrite (bind_ok _ _ _ _ _ Hrun), Hrun.
    rewrite (add_encoded_last _ _ _ (removelast l) (with_encoded tensor r))
      by apply lookup_insert_eq.
    by rewrite with_encoded_idemp, insert_insert_eq.
Qed.
End RegistryExtras.


Section BucketizedColumns.
Context {handle : Type} `{PyHandle handle}.
Implicit Types (w : World handle).

(** X5: nothing is recorded for a bucketized column: the sparse hook
    and the weighted-sum hook behave as their original, and so does the
    dense hook, both on the bucketized column itself and on a column that
    wraps it as [categorical_column]. *)
Theorem bucketized_columns_are_not_recorded
    (old_fn : Column → Opaque → M (World handle) handle) instance args w :
  cls instance = BucketizedColumn →
  (categorical_column instance = None →
   _observing_get_dense_tensor old_fn instance args w = old_fn instance args w) ∧
  (∀ wrapper, categorical_column wrapper = Some instance →
     _observing_get_dense_tensor old_fn wrapper args w = old_fn wrapper args w) ∧
  _observing_get_sparse_tensors old_fn instance args w = old_fn instance args w ∧
  _observing_create_weighted_sum old_fn instance args w = old_fn instance args w.
Proof.
  intros Hcls.
  assert (Hb : isinstance instance BucketizedColumn = true)
    by (unfold isinstance; by rewrite Hcls).
  split; [|split; [|split]].
  - intros Hcc. unfold _observing_get_dense_tensor. cbv zeta.
    rewrite Hcc, Hb. apply bind_mret_r.
  - intros wrapper Hcc. unfold _observing_get_dense_tensor. cbv zeta.
    rewrite Hcc, Hb. apply bind_mret_r.
  - unfold _observing_get_sparse_tensors. rewrite Hb, orb_true_r.
    apply bind_mret_r.
  - unfold _observing_create_weighted_sum. rewrite Hb, andb_false_r.
    apply bind_mret_r.
Qed.
End BucketizedColumns.


Section HookCompositions.
Context {handle : Type} `{PyHandle handle}.
Implicit Types (w : World handle).

Lemma on_feature_tensors_run {A} (m : M (feature_dict handle) A) w r d :
  m (_feature_tensors_dict (helper w)) = (r, d) →
  on_feature_tensors m w = (r, set_feature_tensors d w).
Proof. intros Hm. unfold on_feature_tensors. by rewrite Hm. Qed.

Lemma sparse_hook_records old_fn instance args w t w1 :
  isinstance instance CrossedColumn = false →
  isinstance instance BucketizedColumn = false →
  (isinstance instance WeightedCategoricalColumn = true →
   is_Some (categorical_column instance)) →
  old_fn instance args w = (Ok t, w1) →
  _observing_get_sparse_tensors old_fn instance args w
  = (Ok t,
     set_feature_tensors
       (_add_input_tensor_to_dict (base_column instance) t
          (_feature_tensors_dict (helper w1))).2 w1).
Proof.
  intros Hc Hb Hw Hold. unfold _observing_get_sparse_tensors, base_column.
  rewrite (bind_ok _ _ _ _ _ Hold), Hc, Hb. cbn [orb negb].
  destruct (isinstance instance WeightedCategoricalColumn).
  - destruct Hw as [c Hcc]; [done|]. rewrite Hcc. cbn [negb default].
    erewrite bind_ok; [|reflexivity].
    erewrite bind_ok; [|apply on_feature_tensors_run, add_input_run].
    by rewrite add_input_run.
  - cbn [negb]. erewrite bind_ok; [|reflexivity].
    erewrite bind_ok; [|apply on_feature_tensors_run, add_input_run].
    by rewrite add_input_run.
Qed.

Lemma add_encoded_on_nonempty (d : feature_dict handle) fc e l :
  d !! name fc = Some l → l ≠ [] →
  ∃ l0 r, l = l0 ++ [r] ∧
    _add_encoded_tensor_to_dict fc e d
    = (Ok tt, <[name fc := l0 ++ [with_encoded e r]]> d).
Proof.
  intros Hl Hne. destruct (last l) as [r|] eqn:Hlast;
    [|by apply last_None in Hlast].
  apply last_Some in Hlast as [l0 ->]. exists l0, r. split; [done|].
  by apply add_encoded_last.
Qed.

Lemma py_in_with_encoded (e : handle) r :
  py_in e (encoded_tensors (with_encoded e r)) = true.
Proof.
  unfold with_encoded. simpl.
  destruct (py_in e (encoded_tensors r)) eqn:Hin; [done|].
  rewrite py_in_app, Hin. simpl. by rewrite same_object_refl.
Qed.

(** X6: the path of a linear model.  For a categorical column that is
    neither crossed nor bucketized, the sparse hook records the input under
    the name of the base column (the wrapped column of a weighted column),
    and a following weighted-sum hook on the same column, whose original
    leaves the dictionary alone, succeeds and records its result in the
    encoded list of the last record of that same name. *)
Theorem sparse_then_weighted_sum_records
    (old_sparse old_sum : Column → Opaque → M (World handle) handle)
    column args args' w t w1 :
  isinstance column CategoricalColumn = true →
  isinstance column CrossedColumn = false →
  isinstance column BucketizedColumn = false →
  (if isinstance column WeightedCategoricalColumn
   then is_Some (categorical_column column)
   else categorical_column column = None) →
  old_sparse column args w = (Ok t, w1) →
  ∃ w2 l,
    _observing_get_sparse_tensors old_sparse column args w = (Ok t, w2) ∧
    _feature_tensors_dict (helper w2) !! name (base_column column) = Some l ∧
    py_in t (input_tensor <$> l) = true ∧
    ∀ e w3,
      old_sum column args' w2 = (Ok e, w3) →
      _feature_tensors_dict (helper w3) = _feature_tensors_dict (helper w2) →
      ∃ w4 l0 r,
        _observing_create_weighted_sum old_sum column args' w2 = (Ok e, w4) ∧
        l = l0 ++ [r] ∧
        _feature_tensors_dict (helper w4) !! name (base_column column)
        = Some (l0 ++ [with_encoded e r]).
Proof.
  intros Hcat Hc Hb Hw Hold.
  destruct (add_input_outcome (_feature_tensors_dict (helper w1))
              (base_column column) t) as (d & l & Hrun & Hl & _ & Hin & _).
  eexists _, l. split.
  { apply sparse_hook_records; try done.
    intros Hwt. by rewrite Hwt in Hw. }
  rewrite Hrun. cbn [snd set_feature_tensors helper _feature_tensors_dict].
  split; [done|]. split; [done|].
  intros e w3 Hsum Hsame.
  cbn [set_feature_tensors helper _feature_tensors_dict] in Hsame.
  assert (Hne : l ≠ []).
  { intros ->. by simpl in Hin. }
  assert (Hl3 : _feature_tensors_dict (helper w3) !! name (base_column column)
                = Some l) by by rewrite Hsame.
  destruct (add_encoded_on_nonempty _ (base_column column) e l Hl3 Hne)
    as (l0 & r & -> & Henc).
  eexists _, l0, r. split; [|split; [done|]].
  - unfold _observing_create_weighted_sum.
    rewrite (bind_ok _ _ _ _ _ Hsum), Hcat, Hb, Hc. cbn [andb negb].
    assert (Hbase : default column (categorical_column column)
                    = base_column column).
    { unfold base_column.
      destruct (isinstance column WeightedCategoricalColumn); [done|].
      by rewrite Hw. }
    rewrite Hbase.
    erewrite bind_ok; [|apply on_feature_tensors_run, Henc]. reflexivity.
  - cbn [set_feature_tensors helper _feature_tensors_dict].
    apply lookup_insert_eq.
Qed.

(** X7: the path of a DNN model.  After the sparse hook has run on a
    plain categorical column, the dense hook on a column that wraps it
    succeeds, when its original leaves the dictionary alone, and records
    its result in the encoded list of the last record of the wrapped
    column. *)
Theorem sparse_then_dense_records
    (old_sparse old_dense : Column → Opaque → M (World handle) handle)
    column wrapper args args' w t w1 :
  categorical_column wrapper = Some column →
  isinstance column CrossedColumn = false →
  isinstance column BucketizedColumn = false →
  isinstance column WeightedCategoricalColumn = false →
  old_sparse column args w = (Ok t, w1) →
  ∃ w2 l,
    _observing_get_sparse_tensors old_sparse column args w = (Ok t, w2) ∧
    _feature_tensors_dict (helper w2) !! name column = Some l ∧
    py_in t (input_tensor <$> l) = true ∧
    ∀ e w3,
      old_dense wrapper args' w2 = (Ok e, w3) →
      _feature_tensors_dict (helper w3) = _feature_tensors_dict (helper w2) →
      ∃ w4 l0 r,
        _observing_get_dense_tensor old_dense wrapper args' w2 = (Ok e, w4) ∧
        l = l0 ++ [r] ∧
        _feature_tensors_dict (helper w4) !! name column
        = Some (l0 ++ [with_encoded e r]).
Proof.
  intros Hcc Hc Hb Hw Hold.
  assert (Hbase : base_column column = column).
  { unfold base_column. by rewrite Hw. }
  destruct (add_input_outcome (_feature_tensors_dict (helper w1))
              column t) as (d & l & Hrun & Hl & _ & Hin & _).
  eexists _, l. split.
  { apply sparse_hook_records; try done. intros Hwt. congruence. }
  rewrite Hbase, Hrun.
  cbn [snd set_feature_tensors helper _feature_tensors_dict].
  split; [done|]. split; [done|].
  intros e w3 Hdense Hsame.
  cbn [set_feature_tensors helper _feature_tensors_dict] in Hsame.
  assert (Hne : l ≠ []).
  { intros ->. by simpl in Hin. }
  assert (Hl3 : _feature_tensors_dict (helper w3) !! name column = Some l)
    by by rewrite Hsame.
  destruct (add_encoded_on_nonempty _ column e l Hl3 Hne)
    as (l0 & r & -> & Henc).
  eexists _, l0, r. split; [|split; [done|]].
  - unfold _observing_get_dense_tensor.
    rewrite (bind_ok _ _ _ _ _ Hdense). cbv zeta. rewrite Hcc, Hb, Hc.
    erewrite bind_ok; [|apply on_feature_tensors_run, Henc]. reflexivity.
  - cbn [set_feature_tensors helper _feature_tensors_dict].
    apply lookup_insert_eq.
Qed.
End HookCompositions.


Section TransformHook.
Context {handle : Type} `{PyHandle handle}.
Implicit Types (w : World handle).

Lemma set_feature_tensors_id w :
  set_feature_tensors (_feature_tensors_dict (helper w)) w = w.
Proof. by destruct w as [? [] ? ?]. Qed.

Lemma transform_loop (result : list (Column * handle)) w :
  ∃ d a,
    for_each result (λ '(fc, tensor),
      w ← get;
      if negb (bool_decide (is_Some (categorical_column fc)))
         && negb (bool_decide
                    (is_Some (_feature_tensors_dict (helper w) !! name fc)))
      then
        tensor ← (if is_sparse_tensor tensor then new_IdWeightPair tensor
                  else mret tensor);
        on_feature_tensors (_add_input_tensor_to_dict fc tensor)
      else mret tt) w
    = (Ok tt, with_next_addr a (set_feature_tensors d w)) ∧
    (∀ n l, _feature_tensors_dict (helper w) !! n = Some l → d !! n = Some l) ∧
    (∀ n, _feature_tensors_dict (helper w) !! n = None →
          d !! n = None ∨ ∃ t, d !! n = Some [FeatureTensors_init t]) ∧
    (∀ fc t, (fc, t) ∈ result → categorical_column fc = None →
             is_Some (d !! name fc)).
Proof.
  revert w. induction result as [|[fc t] result IH]; intros w.
  - exists (_feature_tensors_dict (helper w)), (next_addr w).
    split; [|split; [|split]].
    + simpl. rewrite set_feature_tensors_id. by destruct w.
    + done.
    + by left.
    + intros fc t Hin. by apply elem_of_nil in Hin.
  - cbn [for_each].
    set (body := λ '(fc, tensor), _).
    destruct (negb (bool_decide (is_Some (categorical_column fc)))
              && negb (bool_decide
                   (is_Some (_feature_tensors_dict (helper w) !! name fc))))
      eqn:Hcond.
    + (* the column is recorded *)
      apply andb_true_iff in Hcond as [Hcc Hfresh].
      apply negb_true_iff, bool_decide_eq_false in Hcc.
      apply negb_true_iff, bool_decide_eq_false in Hfresh.
      rewrite <- eq_None_not_Some in Hfresh.
      set (t' := if is_sparse_tensor t then IdWeightPair (next_addr w) t else t).
      set (a1 := if is_sparse_tensor t then S (next_addr w) else next_addr w).
      set (d1 := <[name fc := [FeatureTensors_init t']]>
                   (_feature_tensors_dict (helper w))).
      set (w1 := with_next_addr a1 (set_feature_tensors d1 w)).
      assert (Hstep : body (fc, t) w = (Ok tt, w1)).
      { subst body. cbv beta iota. unfold get at 1.
        erewrite bind_ok; [|reflexivity].
        rewrite (bool_decide_eq_false_2 _ Hcc).
        rewrite bool_decide_eq_false_2 by by rewrite Hfresh; intros [? ?].
        cbn [negb andb]. subst w1 a1 t' d1.
        destruct (is_sparse_tensor t).
        - erewrite bind_ok; [|reflexivity].
          erewrite on_feature_tensors_run; [reflexivity|].
          cbn [helper _feature_tensors_dict].
          rewrite add_input_run, Hfresh. reflexivity.
        - erewrite bind_ok; [|reflexivity].
          erewrite on_feature_tensors_run; [|rewrite add_input_run, Hfresh;
                                              reflexivity].
          by destruct w. }
      destruct (IH w1) as (d & a & Hrun & Hkeep & Hnew & Hall).
      cbn [w1 with_next_addr set_feature_tensors helper _feature_tensors_dict]
        in Hkeep, Hnew, Hall.
      exists d, a. split; [|split; [|split]].
      * rewrite (bind_ok _ _ _ _ _ Hstep). subst body. rewrite Hrun. reflexivity.
      * intros n l Hl. apply Hkeep. subst d1.
        rewrite lookup_insert_ne; [done|]. intros <-. congruence.
      * intros n Hn. destruct (decide (n = name fc)) as [->|Hne].
        -- right. exists t'. apply Hkeep. subst d1. apply lookup_insert_eq.
        -- apply Hnew. subst d1. by rewrite lookup_insert_ne.
      * intros fc' t0 Hin Hcc'. apply elem_of_cons in Hin as [[= -> ->]|Hin].
        -- exists [FeatureTensors_init t']. apply Hkeep. subst d1.
           apply lookup_insert_eq.
        -- by apply (Hall fc' t0).
    + (* the column is skipped *)
      assert (Hstep : body (fc, t) w = (Ok tt, w)).
      { subst body. cbv beta iota. unfold get at 1.
        erewrite bind_ok; [|reflexivity]. by rewrite Hcond. }
      destruct (IH w) as (d & a & Hrun & Hkeep & Hnew & Hall).
      exists d, a. split; [|split; [|split]]; try done.
      * rewrite (bind_ok _ _ _ _ _ Hstep). by subst body.
      * intros fc' t0 Hin Hcc'. apply elem_of_cons in Hin as [[= -> ->]|Hin].
        -- rewrite Hcc' in Hcond.
           rewrite (bool_decide_eq_false_2 (is_Some None)) in Hcond
             by (by intros [? ?]).
           cbn [negb andb] in Hcond.
           apply negb_false_iff, bool_decide_eq_true in Hcond.
           destruct Hcond as [l Hl]. exists l. by apply Hkeep.
        -- by apply (Hall fc' t0).
Qed.

(** X8: when its original returns, the transform hook returns the same
    result and never raises; the entries the dictionary had are unchanged,
    a name it adds gets exactly one record, every column of the result
    without [categorical_column] is a key afterwards, and the outputs, the
    crossed columns and the attributes are untouched. *)
Theorem transform_hook_only_adds_missing_names
    (old_fn : Opaque → Opaque → Opaque → M (World handle) (list (Column * handle)))
    features feature_columns args w result w1 :
  old_fn features feature_columns args w = (Ok result, w1) →
  ∃ w2,
    _observing_transform_features_v2 old_fn features feature_columns args w
    = (Ok result, w2) ∧
    (∀ n l, _feature_tensors_dict (helper w1) !! n = Some l →
            _feature_tensors_dict (helper w2) !! n = Some l) ∧
    (∀ n, _feature_tensors_dict (helper w1) !! n = None →
          _feature_tensors_dict (helper w2) !! n = None ∨
          ∃ t, _feature_tensors_dict (helper w2) !! n
               = Some [FeatureTensors_init t]) ∧
    (∀ fc t, (fc, t) ∈ result → categorical_column fc = None →
             is_Some (_feature_tensors_dict (helper w2) !! name fc)) ∧
    _output_tensors_dict (helper w2) = _output_tensors_dict (helper w1) ∧
    _crossed_columns (helper w2) = _crossed_columns (helper w1) ∧
    attrs w2 = attrs w1.
Proof.
  intros Hold. destruct (transform_loop result w1) as (d & a & Hrun & Hk & Hn & Ha).
  exists (with_next_addr a (set_feature_tensors d w1)).
  split; [|by repeat split].
  unfold _observing_transform_features_v2.
  rewrite (bind_ok _ _ _ _ _ Hold).
  by rewrite (bind_ok _ _ _ _ _ Hrun).
Qed.
End TransformHook.


Lemma for_each_app {S A} (l1 l2 : list A) (body : A → M S unit) s :
  for_each (l1 ++ l2) body s = (for_each l1 body;; for_each l2 body) s.
Proof.
  revert s. induction l1 as [|x l1 IH]; intros s; simpl.
  - reflexivity.
  - unfold mbind, M_bind. destruct (body x s) as [[[]|e] s1]; [|done].
    apply IH.
Qed.

Section CrossedFailure.
Context {handle : Type} `{PyHandle handle}.
Implicit Types (w : World handle).

(** X9: a crossed column whose constituents cannot all be recorded makes
    the hooks raise after the original has run.  On the dense hook, when a
    constituent column has no record while the constituents before it are
    columns with a record, the hook raises [ValueError] half way: the names
    of the earlier constituents and of the failing one are in the crossed
    columns, and the earlier constituents have the result among their
    encodings.  When the constituent is a feature name, a string, the dense
    hook raises [AttributeError] there, with the earlier constituents
    recorded and only their names added; the weighted-sum hook raises
    [AttributeError] and adds no name at all. *)
Theorem crossed_constituent_without_record_raises :
  (∀ (old_fn : Column → Opaque → M (World handle) handle)
     instance fc args w w1 result pre k post,
      categorical_column instance = Some fc →
      cls fc = CrossedColumn →
      keys fc = (inr <$> pre) ++ inr k :: post →
      old_fn instance args w = (Ok result, w1) →
      (∀ k', k' ∈ pre →
             ∃ l0 r, _feature_tensors_dict (helper w1) !! name k'
                     = Some (l0 ++ [r])) →
      _feature_tensors_dict (helper w1) !! name k = None →
      ∃ w2,
        _observing_get_dense_tensor old_fn instance args w
        = (Raise (ValueError
                    "Trying to add encoded tensors with no input tensor."),
           w2) ∧
        _crossed_columns (helper w2)
        = _crossed_columns (helper w1) ∪ list_to_set (name <$> pre)
          ∪ {[name k]} ∧
        (∀ k', k' ∈ pre →
               ∃ l0 r,
                 _feature_tensors_dict (helper w1) !! name k'
                 = Some (l0 ++ [r]) ∧
                 _feature_tensors_dict (helper w2) !! name k'
                 = Some (l0 ++ [with_encoded result r])) ∧
        (∀ n, n ∉ name <$> pre →
              _feature_tensors_dict (helper w2) !! n
              = _feature_tensors_dict (helper w1) !! n)) ∧
  (∀ (old_fn : Column → Opaque → M (World handle) handle)
     instance fc args w w1 result pre (feature : string) post,
      categorical_column instance = Some fc →
      cls fc = CrossedColumn →
      keys fc = (inr <$> pre) ++ inl feature :: post →
      old_fn instance args w = (Ok result, w1) →
      (∀ k', k' ∈ pre →
             ∃ l0 r, _feature_tensors_dict (helper w1) !! name k'
                     = Some (l0 ++ [r])) →
      ∃ w2,
        _observing_get_dense_tensor old_fn instance args w
        = (Raise (AttributeError "name"), w2) ∧
        _crossed_columns (helper w2)
        = _crossed_columns (helper w1) ∪ list_to_set (name <$> pre) ∧
        (∀ k', k' ∈ pre →
               ∃ l0 r,
                 _feature_tensors_dict (helper w1) !! name k'
                 = Some (l0 ++ [r]) ∧
                 _feature_tensors_dict (helper w2) !! name k'
                 = Some (l0 ++ [with_encoded result r])) ∧
        (∀ n, n ∉ name <$> pre →
              _feature_tensors_dict (helper w2) !! n
              = _feature_tensors_dict (helper w1) !! n)) ∧
  (∀ (old_fn : Column → Opaque → M (World handle) handle)
     column args w w1 result pre (feature : string) post,
      cls column = CrossedColumn →
      keys column = (inr <$> pre) ++ inl feature :: post →
      old_fn column args w = (Ok result, w1) →
      _observing_create_weighted_sum old_fn column args w
      = (Raise (AttributeError "name"), w1)).
Proof.
  split; [|split].
  - intros old_fn instance fc args w w1 result pre k post
           Hcc Hcls Hkeys Hold Hpre Hk.
    destruct (crossed_loop result pre w1 Hpre) as (d & Hrun & Hin & Hout).
    set (w' := crossed_state w1 d (list_to_set (name <$> pre))) in Hrun.
    assert (Hfresh : name k ∉ name <$> pre).
    { intros Hdup. apply list_elem_of_fmap in Hdup as (k' & Heq & Hk').
      destruct (Hpre k' Hk') as (l0 & r & Hl). rewrite <- Heq in Hl.
      congruence. }
    exists (crossed_state w' d {[name k]}).
    split; [|split; [done|split; [done|done]]].
    unfold _observing_get_dense_tensor.
    rewrite (bind_ok _ _ _ _ _ Hold). cbv zeta. rewrite Hcc.
    destruct (isinstance_crossed fc Hcls) as (_ & -> & ->).
    rewrite Hkeys. apply bind_raise. rewrite for_each_app.
    erewrite bind_ok; [|rewrite for_each_fmap; exact Hrun]. cbn [for_each].
    apply bind_raise. erewrite bind_ok; [|reflexivity].
    erewrite on_feature_tensors_unchanged; [reflexivity|].
    cbn [helper _feature_tensors_dict set_crossed_columns].
    apply add_encoded_missing. by rewrite Hout.
  - intros old_fn instance fc args w w1 result pre feature post
           Hcc Hcls Hkeys Hold Hpre.
    destruct (crossed_loop result pre w1 Hpre) as (d & Hrun & Hin & Hout).
    exists (crossed_state w1 d (list_to_set (name <$> pre))).
    split; [|split; [done|split; [done|done]]].
    unfold _observing_get_dense_tensor.
    rewrite (bind_ok _ _ _ _ _ Hold). cbv zeta. rewrite Hcc.
    destruct (isinstance_crossed fc Hcls) as (_ & -> & ->).
    rewrite Hkeys. apply bind_raise. rewrite for_each_app.
    erewrite bind_ok; [|rewrite for_each_fmap; exact Hrun]. cbn [for_each].
    by apply bind_raise.
  - intros old_fn column args w w1 result pre feature post Hcls Hkeys Hold.
    unfold _observing_create_weighted_sum.
    rewrite (bind_ok _ _ _ _ _ Hold).
    destruct (isinstance_crossed column Hcls) as (-> & -> & ->).
    cbn [andb negb]. rewrite Hkeys. do 2 apply bind_raise.
    clear. induction pre as [|k pre IH].
    + reflexivity.
    + rewrite fmap_cons. cbn [app key_names key_name].
      erewrite bind_ok; [|reflexivity]. by apply bind_raise.
Qed.

(** X10: on a column without [categorical_column] that is not
    bucketized, the dense hook returns the original's result and records
    it as an input under the column's own name; other names and the crossed
    columns are untouched. *)
Theorem dense_hook_records_plain_column_input
    (old_fn : Column → Opaque → M (World handle) handle) instance args w t w1 :
  categorical_column instance = None →
  isinstance instance BucketizedColumn = false →
  old_fn instance args w = (Ok t, w1) →
  ∃ w2 l,
    _observing_get_dense_tensor old_fn instance args w = (Ok t, w2) ∧
    _feature_tensors_dict (helper w2) !! name instance = Some l ∧
    py_in t (input_tensor <$> l) = true ∧
    (∀ n, n ≠ name instance →
          _feature_tensors_dict (helper w2) !! n
          = _feature_tensors_dict (helper w1) !! n) ∧
    _crossed_columns (helper w2) = _crossed_columns (helper w1).
Proof.
  intros Hcc Hb Hold.
  destruct (add_input_outcome (_feature_tensors_dict (helper w1))
              instance t) as (d & l & Hrun & Hl & _ & Hin & Hframe).
  exists (set_feature_tensors d w1), l. split; [|by repeat split].
  unfold _observing_get_dense_tensor.
  rewrite (bind_ok _ _ _ _ _ Hold). cbv zeta. rewrite Hcc, Hb. cbn [negb].
  by erewrite bind_ok; [|apply on_feature_tensors_run, Hrun].
Qed.
End CrossedFailure.


Section PatchExtras.
Context {handle : Type} `{PyHandle handle}.
Implicit Types (w : World handle).


(** X12: a scope entered inside a scope of the same helper leaves every
    patched attribute replaced: after both scopes have exited normally,
    each patched attribute holds the replacement the outer entry installed
    and not its original. *)
Theorem nested_scope_leaves_replacements w k1 k2 :
  (∀ s, s ∈ patched_slots → is_Some (attrs w !! s)) →
  ∃ w4,
    exporting_context k1 (exporting_context k2 (mret tt)) w = (Ok tt, w4) ∧
    ∀ s, s ∈ patched_slots →
         ∃ f, attrs w !! s = Some f ∧
              attrs w4 !! s = Some (replacement k1 s.2 f).
Proof.
  intros Hpresent.
  destruct (originals_of_present _ Hpresent) as (fs1 & fs2 & f3 & f4 & f5 & Ho).
  pose proof (patch_estimator_ok w k1 _ _ _ _ _ Ho) as Hpatch1.
  destruct (originals_in_length _ _ _ _ _ _ Ho) as [L1 L2].
  set (w1 := mkWorld _ _ _ _) in Hpatch1.
  assert (Ho1 : originals_in (attrs w1)
                  (Closure_observing_get_dense_tensor <$> fs1)
                  (Closure_observing_get_sparse_tensors <$> fs2)
                  (Closure_observing_create_weighted_sum f3)
                  (Closure_observing_export_outputs_for_mode f4 k1)
                  (Closure_observing_transform_features_v2 f5)).
  { apply originals_in_installed; by rewrite length_fmap. }
  pose proof (patch_estimator_ok w1 k2 _ _ _ _ _ Ho1) as Hpatch2.
  set (w2 := mkWorld _ _ _ _) in Hpatch2.
  assert (Hinner : exporting_context k2 (mret tt) w1
                   = (Ok tt,
                      mkWorld (set_groups
                                 (Closure_observing_get_dense_tensor <$> fs1)
                                 (Closure_observing_get_sparse_tensors <$> fs2)
                                 (Closure_observing_create_weighted_sum f3)
                                 (Closure_observing_export_outputs_for_mode f4 k1)
                                 (Closure_observing_transform_features_v2 f5)
                                 (attrs w2))
                              (helper w2) (setattr_log w2 ++ patched_slots)
                              (next_addr w2))).
  { unfold exporting_context. rewrite Hpatch2. cbn [mret M_ret].
    by rewrite (unpatch_estimator_ok w2
                  (Closure_observing_get_dense_tensor <$> fs1)
                  (Closure_observing_get_sparse_tensors <$> fs2)
                  (Closure_observing_create_weighted_sum f3)
                  (Closure_observing_export_outputs_for_mode f4 k1)
                  (Closure_observing_transform_features_v2 f5));
      [|done|by rewrite length_fmap..]. }
  eexists. split.
  - unfold exporting_context at 1. rewrite Hpatch1, Hinner.
    by rewrite (unpatch_estimator_ok _
                  (Closure_observing_get_dense_tensor <$> fs1)
                  (Closure_observing_get_sparse_tensors <$> fs2)
                  (Closure_observing_create_weighted_sum f3)
                  (Closure_observing_export_outputs_for_mode f4 k1)
                  (Closure_observing_transform_features_v2 f5));
      [|done|by rewrite length_fmap..].
  - intros s Hs. cbn [attrs].
    destruct (installed_lookup _ (attrs w) k1 _ _ _ _ _ s Ho Hs) as (f & Hf & Hf1).
    exists f. split; [done|].
    rewrite (set_groups_restores (attrs w1)); [exact Hf1|exact Ho1|done].
Qed.
End PatchExtras.


Section FailedEntry.
Context {handle : Type} `{PyHandle handle}.
Implicit Types (w : World handle).

Lemma patch_entities_missing_head o objs a pf w :
  attrs w !! (o, a) = None →
  _patch_entities (o :: objs) a pf w = (Raise (AttributeError a), w).
Proof.
  intros Hmiss. unfold _patch_entities. cbn [_patch_entities_loop].
  apply bind_raise. by apply getattr_missing.
Qed.

(** X13: when [_transform_features_v2] is missing, the entry raises
    [AttributeError] after the other fourteen attributes were replaced;
    [exporting_context] then neither runs the body nor restores, so these
    attributes keep their replacements. *)
Theorem failed_entry_leaves_replacements w output_key
    (body : M (World handle) unit) fs1 fs2 f3 f4 :
  Forall2 (λ o f, attrs w !! (o, "get_dense_tensor") = Some f)
          _FEATURE_COLUMNS_TO_PATCH_DENSE fs1 →
  Forall2 (λ o f, attrs w !! (o, "get_sparse_tensors") = Some f)
          _FEATURE_COLUMNS_TO_PATCH_SPARSE fs2 →
  attrs w !! (fc2, "_create_weighted_sum") = Some f3 →
  attrs w !! (export_lib, "export_outputs_for_mode") = Some f4 →
  attrs w !! (fc2, "_transform_features_v2") = None →
  ∃ w',
    exporting_context output_key body w
    = (Raise (AttributeError "_transform_features_v2"), w') ∧
    (∀ s, s ∈ patched_slots → s ≠ (fc2, "_transform_features_v2") →
          ∃ f, attrs w !! s = Some f ∧
               attrs w' !! s = Some (replacement output_key s.2 f)) ∧
    attrs w' !! (fc2, "_transform_features_v2") = None ∧
    _actual_get_dense_tensor_list (helper w') = Some fs1 ∧
    _actual_get_sparse_tensors_list (helper w') = Some fs2 ∧
    _actual_create_weighted_sum (helper w') = Some f3 ∧
    _actual_export_for_mode (helper w') = Some f4 ∧
    _actual_transform (helper w') = _actual_transform (helper w).
Proof.
  intros H1 H2 H3 H4 H5.
  set (A4 := set_all "export_outputs_for_mode" [export_lib]
               [Closure_observing_export_outputs_for_mode f4 output_key]
               (set_all "_create_weighted_sum" [fc2]
                  [Closure_observing_create_weighted_sum f3]
                  (set_all "get_sparse_tensors" _FEATURE_COLUMNS_TO_PATCH_SPARSE
                     (Closure_observing_get_sparse_tensors <$> fs2)
                     (set_all "get_dense_tensor" _FEATURE_COLUMNS_TO_PATCH_DENSE
                        (Closure_observing_get_dense_tensor <$> fs1)
                        (attrs w))))).
  assert (Hpatch : ∃ w',
             _patch_estimator_to_observe output_key w
             = (Raise (AttributeError "_transform_features_v2"), w') ∧
             attrs w' = A4 ∧
             saved_originals (helper w')
             = (Some fs1, Some fs2, Some f3, Some f4,
                _actual_transform (helper w))).
  { eexists. split; [|split].
    - unfold _patch_estimator_to_observe.
      rewrite (patch_group _ _ _ _ fs1); [|apply dense_NoDup|exact H1].
      rewrite with_helper_bind.
      rewrite (patch_group _ _ _ _ fs2);
        [|apply sparse_NoDup
         |cbn [attrs]; apply Forall2_set_all_other_attr; [discriminate|exact H2]].
      rewrite with_helper_bind. cbn [attrs helper setattr_log next_addr].
      rewrite (patch_group _ _ _ _ [f3]);
        [|apply singleton_NoDup
         |cbn [attrs]; repeat constructor;
          rewrite !set_all_other_attr by discriminate; exact H3].
      rewrite first_bind, with_helper_bind.
      cbn [attrs helper setattr_log next_addr].
      rewrite (patch_group _ _ _ _ [f4]);
        [|apply singleton_NoDup
         |cbn [attrs]; repeat constructor;
          rewrite !set_all_other_attr by discriminate; exact H4].
      rewrite first_bind, with_helper_bind.
      cbn [attrs helper setattr_log next_addr].
      apply bind_raise. apply patch_entities_missing_head.
      cbn [attrs]. rewrite !set_all_other_attr by discriminate. exact H5.
    - reflexivity.
    - reflexivity. }
  destruct Hpatch as (w' & Hpatch & Hattrs & Hsaved).
  exists w'. split.
  { unfold exporting_context. by rewrite Hpatch. }
  injection Hsaved as S1 S2 S3 S4 S5.
  split; [|split; [|by repeat split]].
  - intros s Hs Hne.
    assert (Ho : originals_in (<[(fc2, "_transform_features_v2") := Builtin 0]>
                                 (attrs w)) fs1 fs2 f3 f4 (Builtin 0)).
    { repeat split.
      - eapply Forall2_impl; [exact H1|]. simpl. intros o f Hf.
        by rewrite lookup_insert_ne.
      - eapply Forall2_impl; [exact H2|]. simpl. intros o f Hf.
        by rewrite lookup_insert_ne.
      - by rewrite lookup_insert_ne.
      - by rewrite lookup_insert_ne.
      - apply lookup_insert_eq. }
    destruct (installed_lookup _ (attrs w) output_key _ _ _ _ _ s Ho Hs)
      as (f & Hf & Hf1).
    rewrite lookup_insert_ne in Hf by done.
    exists f. split; [done|]. rewrite Hattrs. rewrite <- Hf1.
    unfold set_groups. fold A4.
    rewrite (set_all_other "_transform_features_v2" [fc2]); [done|].
    rewrite fmap_cons, fmap_nil. apply not_elem_of_cons.
    split; [done|apply not_elem_of_nil].
  - rewrite Hattrs. unfold A4.
    rewrite !(set_all_other_attr _ "_transform_features_v2") by discriminate.
    exact H5.
Qed.
End FailedEntry.


(** * Properties of the metadata builder *)

Module MetadataBuilderFacts.
Import MetadataBuilder.

Section OdictFacts.
Context {V : Type}.
Implicit Types (d : odict V) (k : string) (v : V).

Lemma od_lookup_set_eq k v d : od_lookup k (od_set k v d) = Some v.
Proof.
  induction d as [|[k' v'] d IH]; simpl.
  - by rewrite decide_True.
  - destruct (decide (k' = k)) as [->|Hne]; simpl.
    + by rewrite decide_True.
    + by rewrite decide_False.
Qed.

Lemma od_lookup_set_ne k k' v d :
  k ≠ k' → od_lookup k' (od_set k v d) = od_lookup k' d.
Proof.
  intros Hne. induction d as [|[k0 v0] d IH]; simpl.
  - by rewrite decide_False.
  - destruct (decide (k0 = k)) as [->|Hne0]; simpl.
    + by rewrite !decide_False.
    + by rewrite IH.
Qed.

Lemma od_lookup_delete_eq k d : od_lookup k (od_delete k d) = None.
Proof.
  unfold od_delete. induction d as [|[k' v'] d IH]; [done|].
  rewrite filter_cons. simpl. destruct (decide (k' ≠ k)) as [Hne|Heq]; simpl.
  - by rewrite decide_False.
  - done.
Qed.

Lemma od_lookup_delete_ne k k' d :
  k ≠ k' → od_lookup k' (od_delete k d) = od_lookup k' d.
Proof.
  intros Hne. unfold od_delete. induction d as [|[k0 v0] d IH]; [done|].
  rewrite filter_cons. simpl. destruct (decide (k0 ≠ k)) as [Hne0|Heq]; simpl.
  - by rewrite IH.
  - apply dec_stable in Heq as ->. by rewrite decide_False.
Qed.

Lemma od_lookup_None k d : od_lookup k d = None ↔ k ∉ d.*1.
Proof.
  induction d as [|[k' v'] d IH]; simpl.
  - split; [intros _; apply not_elem_of_nil|done].
  - destruct (decide (k' = k)) as [->|Hne].
    + split; [done|]. intros Hn. exfalso. apply Hn. left.
    + rewrite IH, not_elem_of_cons. split; [by intros ?; split|by intros [_ ?]].
Qed.

Lemma od_delete_absent k d : od_lookup k d = None → od_delete k d = d.
Proof.
  unfold od_delete. induction d as [|[k' v'] d IH]; [done|]. simpl.
  rewrite filter_cons. simpl.
  destruct (decide (k' = k)) as [->|Hne]; [done|].
  intros Hk. rewrite decide_True by done. by rewrite IH.
Qed.

Lemma length_od_delete k d :
  od_wf d → is_Some (od_lookup k d) → S (length (od_delete k d)) = length d.
Proof.
  unfold od_wf. induction d as [|[k' v'] d IH]; simpl.
  - by intros _ [? ?].
  - intros [Hnotin Hwf]%NoDup_cons Hk. unfold od_delete.
    rewrite filter_cons. simpl.
    destruct (decide (k' = k)) as [->|Hne].
    + rewrite decide_False by (intros ?; done).
      apply od_lookup_None in Hnotin.
      pose proof (od_delete_absent k d Hnotin) as Hsame.
      unfold od_delete in Hsame. by rewrite Hsame.
    + rewrite decide_True by done. simpl. f_equal. by apply IH.
Qed.

Lemma length_od_set_new k v d :
  od_lookup k d = None → length (od_set k v d) = S (length d).
Proof.
  induction d as [|[k' v'] d IH]; simpl; [done|].
  destruct (decide (k' = k)); [done|]. intros Hk. simpl. by rewrite IH.
Qed.

Lemma length_od_set_old k v d :
  is_Some (od_lookup k d) → length (od_set k v d) = length d.
Proof.
  induction d as [|[k' v'] d IH]; simpl; [by intros [? ?]|].
  destruct (decide (k' = k)); [done|]. intros Hk. simpl. by rewrite IH.
Qed.

Lemma od_set_new k v d : od_lookup k d = None → od_set k v d = d ++ [(k, v)].
Proof.
  induction d as [|[k' v'] d IH]; simpl; [done|].
  destruct (decide (k' = k)); [done|]. intros Hk. by rewrite IH.
Qed.
End OdictFacts.

Lemma dict_of_names_lookup {V} (f : string → V) names n :
  od_lookup n (dict_of_names f names) = if decide (n ∈ names) then Some (f n) else None.
Proof.
  unfold dict_of_names.
  assert (Hgen : ∀ acc,
    od_lookup n (foldl (λ d m, od_set m (f m) d) acc names)
    = if decide (n ∈ names) then Some (f n) else od_lookup n acc).
  { induction names as [|m names IH]; intros acc.
    - destruct (decide (n ∈ [])) as [Hin|_]; [|done].
      by apply elem_of_nil in Hin.
    - cbn [foldl]. rewrite IH.
      destruct (decide (n ∈ names)) as [Hin|Hnin];
        destruct (decide (n ∈ m :: names)) as [Hin'|Hnin']; try done.
      + exfalso. apply Hnin'. by right.
      + apply elem_of_cons in Hin' as [->|?]; [|done].
        apply od_lookup_set_eq.
      + apply od_lookup_set_ne. intros ->. apply Hnin'. left. }
  rewrite Hgen. by destruct (decide _).

Qed.

(** X14: every editing method raises [ValueError] for a name that is not
    in the dictionary it edits, and leaves the builder and the events as
    they were. *)
Theorem unknown_name_raises_and_changes_nothing (s : State) (n : string) :
  (od_lookup n (_inputs (self s)) = None →
   (∀ InputMetadata_raises new_name baselines mapping,
       set_numeric_metadata InputMetadata_raises n new_name baselines mapping s
       = (Raised (ValueError (missing_input_message n)), s)) ∧
   (∀ InputMetadata_raises new_name baselines visualization,
       set_image_metadata InputMetadata_raises n new_name baselines
         visualization s
       = (Raised (ValueError (missing_input_message n)), s)) ∧
   remove_input_metadata n s
   = (Raised (ValueError (missing_input_message n)), s)) ∧
  (od_lookup n (_outputs (self s)) = None →
   (∀ new_name,
       set_output_metadata n new_name s
       = (Raised (ValueError ("Output with name '" +:+ n +:+
                              "' does not exist.")), s)) ∧
   remove_output_metadata n s
   = (Raised (ValueError ("Output with with name '" +:+ n +:+
                          "' does not exist.")), s)).
Proof.
  split; intros Hn.
  - unfold set_numeric_metadata, set_image_metadata, remove_input_metadata.
    by rewrite Hn.
  - unfold set_output_metadata, remove_output_metadata. by rewrite Hn.
Qed.

(** What the two setters do on an existing input, by what the
    constructor does with the arguments it is given. *)
Lemma set_numeric_metadata_run InputMetadata_raises
    (s : State) input_name new_name baselines mapping old :
  od_lookup input_name (_inputs (self s)) = Some old →
  let n := chosen_name input_name new_name in
  let md :=
    mkInputMetadata n (input_tensor_name old) baselines mapping
      (Some (if truthy_list mapping then BAG_OF_FEATURES else IDENTITY))
      None None in
  let popped := od_delete input_name (_inputs (self s)) in
  set_numeric_metadata InputMetadata_raises input_name new_name baselines
    mapping s
  = match InputMetadata_raises md with
    | Some e => (Raised e, mkState (set_inputs popped (self s)) (events s))
    | None =>
        (Returned tt,
         mkState (set_inputs (od_set n md popped) (self s)) (events s))
    end.
Proof.
  intros Hold. cbv zeta. unfold set_numeric_metadata, new_InputMetadata.
  rewrite Hold. by destruct (InputMetadata_raises _).
Qed.

Lemma set_image_metadata_run InputMetadata_raises
    (s : State) input_name new_name baselines visualization old :
  od_lookup input_name (_inputs (self s)) = Some old →
  let n := chosen_name input_name new_name in
  let md :=
    mkInputMetadata n (input_tensor_name old) baselines None None
      (Some IMAGE) visualization in
  let popped := od_delete input_name (_inputs (self s)) in
  set_image_metadata InputMetadata_raises input_name new_name baselines
    visualization s
  = match InputMetadata_raises md with
    | Some e => (Raised e, mkState (set_inputs popped (self s)) (events s))
    | None =>
        (Returned tt,
         mkState (set_inputs (od_set n md popped) (self s)) (events s))
    end.
Proof.
  intros Hold. cbv zeta. unfold set_image_metadata, new_InputMetadata.
  rewrite Hold. by destruct (InputMetadata_raises _).
Qed.

(** X15: [set_numeric_metadata] on an existing input calls the
    [InputMetadata] constructor with the new name if one is given and the
    old name otherwise, the tensor name of the old entry, the baselines and
    the mapping, and encoding [BAG_OF_FEATURES] exactly when an
    index-feature mapping with elements is given.  When the constructor
    returns, the object is stored under that name; the old name is gone
    when the name changed.  When the constructor raises, the method raises
    the same exception and the input is lost: the old name is gone and
    nothing is stored.  Either way the other inputs, the outputs and the
    events are untouched. *)
Theorem set_numeric_metadata_keeps_tensor_name
    (InputMetadata_raises : InputMetadata → option error)
    (s : State) input_name new_name baselines mapping old :
  od_lookup input_name (_inputs (self s)) = Some old →
  let n := chosen_name input_name new_name in
  let md :=
    mkInputMetadata n (input_tensor_name old) baselines mapping
      (Some (if truthy_list mapping then BAG_OF_FEATURES else IDENTITY))
      None None in
  let run :=
    set_numeric_metadata InputMetadata_raises input_name new_name baselines
      mapping s in
  (InputMetadata_raises md = None →
   ∃ s',
     run = (Returned tt, s') ∧
     od_lookup n (_inputs (self s')) = Some md ∧
     (n ≠ input_name → od_lookup input_name (_inputs (self s')) = None) ∧
     (∀ k, k ≠ input_name → k ≠ n →
           od_lookup k (_inputs (self s')) = od_lookup k (_inputs (self s))) ∧
     _outputs (self s') = _outputs (self s) ∧
     events s' = events s) ∧
  (∀ e, InputMetadata_raises md = Some e →
        ∃ s',
          run = (Raised e, s') ∧
          od_lookup input_name (_inputs (self s')) = None ∧
          (∀ k, k ≠ input_name →
                od_lookup k (_inputs (self s'))
                = od_lookup k (_inputs (self s))) ∧
          _outputs (self s') = _outputs (self s) ∧
          events s' = events s).
Proof.
  intros Hold n md run. subst run.
  rewrite (set_numeric_metadata_run _ _ _ _ _ _ _ Hold). fold n md.
  split.
  - intros ->. eexists. split; [reflexivity|]. cbn.
    split; [apply od_lookup_set_eq|]. split; [|split; [|done]].
    + intros Hne. rewrite od_lookup_set_ne by done. apply od_lookup_delete_eq.
    + intros k Hk1 Hk2. rewrite od_lookup_set_ne by done.
      by apply od_lookup_delete_ne.
  - intros e ->. eexists. split; [reflexivity|]. cbn.
    split; [apply od_lookup_delete_eq|]. split; [|done].
    intros k Hk. by apply od_lookup_delete_ne.
Qed.

(** X16: [set_image_metadata] on an existing input calls the
    [InputMetadata] constructor with the chosen name, the tensor name of
    the old entry, the baselines, modality [IMAGE] and the visualization.
    When the constructor returns, the object is stored under that name; the
    old name is gone when the name changed.  When the constructor raises,
    the method raises the same exception and the input is lost.  Either way
    the other inputs, the outputs and the events are untouched. *)
Theorem set_image_metadata_keeps_tensor_name
    (InputMetadata_raises : InputMetadata → option error)
    (s : State) input_name new_name baselines visualization old :
  od_lookup input_name (_inputs (self s)) = Some old →
  let n := chosen_name input_name new_name in
  let md :=
    mkInputMetadata n (input_tensor_name old) baselines None None
      (Some IMAGE) visualization in
  let run :=
    set_image_metadata InputMetadata_raises input_name new_name baselines
      visualization s in
  (InputMetadata_raises md = None →
   ∃ s',
     run = (Returned tt, s') ∧
     od_lookup n (_inputs (self s')) = Some md ∧
     (n ≠ input_name → od_lookup input_name (_inputs (self s')) = None) ∧
     (∀ k, k ≠ input_name → k ≠ n →
           od_lookup k (_inputs (self s')) = od_lookup k (_inputs (self s))) ∧
     _outputs (self s') = _outputs (self s) ∧
     events s' = events s) ∧
  (∀ e, InputMetadata_raises md = Some e →
        ∃ s',
          run = (Raised e, s') ∧
          od_lookup input_name (_inputs (self s')) = None ∧
          (∀ k, k ≠ input_name →
                od_lookup k (_inputs (self s'))
                = od_lookup k (_inputs (self s))) ∧
          _outputs (self s') = _outputs (self s) ∧
          events s' = events s).
Proof.
  intros Hold n md run. subst run.
  rewrite (set_image_metadata_run _ _ _ _ _ _ _ Hold). fold n md.
  split.
  - intros ->. eexists. split; [reflexivity|]. cbn.
    split; [apply od_lookup_set_eq|]. split; [|split; [|done]].
    + intros Hne. rewrite od_lookup_set_ne by done. apply od_lookup_delete_eq.
    + intros k Hk1 Hk2. rewrite od_lookup_set_ne by done.
      by apply od_lookup_delete_ne.
  - intros e ->. eexists. split; [reflexivity|]. cbn.
    split; [apply od_lookup_delete_eq|]. split; [|done].
    intros k Hk. by apply od_lookup_delete_ne.
Qed.

(** X17: renaming an input to the name of another existing input is not
    refused by the builder.  When the [InputMetadata] constructor returns,
    the other input is replaced: the builder has one input less, and the
    entry under that name carries the tensor name of the renamed input.
    When the constructor raises, the renamed input is lost and the other
    input is as it was. *)
Theorem renaming_onto_an_existing_input_replaces_it
    (InputMetadata_raises : InputMetadata → option error)
    (s : State) a b baselines mapping old other :
  od_wf (_inputs (self s)) →
  a ≠ b → b ≠ "" →
  od_lookup a (_inputs (self s)) = Some old →
  od_lookup b (_inputs (self s)) = Some other →
  let md :=
    mkInputMetadata b (input_tensor_name old) baselines mapping
      (Some (if truthy_list mapping then BAG_OF_FEATURES else IDENTITY))
      None None in
  let run :=
    set_numeric_metadata InputMetadata_raises a (Some b) baselines mapping s in
  (InputMetadata_raises md = None →
   ∃ s',
     run = (Returned tt, s') ∧
     S (length (_inputs (self s'))) = length (_inputs (self s)) ∧
     od_lookup a (_inputs (self s')) = None ∧
     od_lookup b (_inputs (self s')) = Some md ∧
     input_tensor_name <$> od_lookup b (_inputs (self s'))
     = Some (input_tensor_name old)) ∧
  (∀ e, InputMetadata_raises md = Some e →
        ∃ s',
          run = (Raised e, s') ∧
          S (length (_inputs (self s'))) = length (_inputs (self s)) ∧
          od_lookup a (_inputs (self s')) = None ∧
          od_lookup b (_inputs (self s')) = Some other).
Proof.
  intros Hwf Hab Hb Ha Hother md run. subst run.
  assert (Hname : chosen_name a (Some b) = b).
  { unfold chosen_name, truthy_name. by rewrite bool_decide_eq_false_2. }
  rewrite (set_numeric_metadata_run _ _ _ _ _ _ _ Ha). rewrite Hname. fold md.
  split.
  - intros ->. eexists. split; [reflexivity|]. cbn.
    split; [|split; [|split]].
    + rewrite length_od_set_old.
      * by apply length_od_delete.
      * rewrite od_lookup_delete_ne by done. by rewrite Hother.
    + rewrite od_lookup_set_ne by done. apply od_lookup_delete_eq.
    + apply od_lookup_set_eq.
    + by rewrite od_lookup_set_eq.
  - intros e ->. eexists. split; [reflexivity|]. cbn.
    split; [|split].
    + by apply length_od_delete.
    + apply od_lookup_delete_eq.
    + by rewrite od_lookup_delete_ne.
Qed.

(** X18: [set_output_metadata] with the new name equal to the old one
    changes nothing; with a different name the output is stored under the
    new name with the old output tensor name, the old name is gone, and
    the other outputs, the inputs and the events are untouched. *)
Theorem set_output_metadata_renames (s : State) output_name new_name old :
  od_lookup output_name (_outputs (self s)) = Some old →
  set_output_metadata output_name output_name s = (Returned tt, s) ∧
  (output_name ≠ new_name →
   ∃ s',
     set_output_metadata output_name new_name s = (Returned tt, s') ∧
     od_lookup new_name (_outputs (self s'))
     = Some (mkOutputMetadata new_name (output_tensor_name old)) ∧
     od_lookup output_name (_outputs (self s')) = None ∧
     (∀ k, k ≠ output_name → k ≠ new_name →
           od_lookup k (_outputs (self s')) = od_lookup k (_outputs (self s))) ∧
     _inputs (self s') = _inputs (self s) ∧
     events s' = events s).
Proof.
  intros Hold. unfold set_output_metadata. rewrite Hold. split.
  - by rewrite bool_decide_eq_true_2.
  - intros Hne. rewrite bool_decide_eq_false_2 by done.
    eexists. split; [reflexivity|]. cbn.
    split; [apply od_lookup_set_eq|]. split; [|split; [|done]].
    + rewrite od_lookup_set_ne by done. apply od_lookup_delete_eq.
    + intros k Hk1 Hk2. rewrite od_lookup_set_ne by done.
      by apply od_lookup_delete_ne.
Qed.

Lemma remove_output_metadata_run (s : State) (n : string) :
  od_wf (_outputs (self s)) → is_Some (od_lookup n (_outputs (self s))) →
  ∃ s',
    remove_output_metadata n s = (Returned tt, s') ∧
    od_lookup n (_outputs (self s')) = None ∧
    (∀ k, k ≠ n →
          od_lookup k (_outputs (self s')) = od_lookup k (_outputs (self s))) ∧
    S (length (_outputs (self s'))) = length (_outputs (self s)) ∧
    _inputs (self s') = _inputs (self s) ∧
    remove_output_metadata n s'
    = (Raised (ValueError ("Output with with name '" +:+ n +:+
                           "' does not exist.")), s').
Proof.
  intros Hwf [old Hold].
  unfold remove_output_metadata at 1. rewrite Hold.
  eexists. split; [reflexivity|]. cbn.
  split; [apply od_lookup_delete_eq|].
  split; [intros k Hk; by apply od_lookup_delete_ne|].
  split; [by apply length_od_delete|]. split; [done|].
  unfold remove_output_metadata. cbn. by rewrite od_lookup_delete_eq.
Qed.

(** X19: removing an existing input (output) metadata leaves the name
    absent, the other entries and the outputs (inputs) as they were and one
    entry less; removing it a second time raises [ValueError]. *)
Theorem remove_metadata_removes_one_entry (s : State) (n : string) :
  (od_wf (_inputs (self s)) → is_Some (od_lookup n (_inputs (self s))) →
   ∃ s',
     remove_input_metadata n s = (Returned tt, s') ∧
     od_lookup n (_inputs (self s')) = None ∧
     (∀ k, k ≠ n →
           od_lookup k (_inputs (self s')) = od_lookup k (_inputs (self s))) ∧
     S (length (_inputs (self s'))) = length (_inputs (self s)) ∧
     _outputs (self s') = _outputs (self s) ∧
     remove_input_metadata n s'
     = (Raised (ValueError (missing_input_message n)), s')) ∧
  (od_wf (_outputs (self s)) → is_Some (od_lookup n (_outputs (self s))) →
   ∃ s',
     remove_output_metadata n s = (Returned tt, s') ∧
     od_lookup n (_outputs (self s')) = None ∧
     (∀ k, k ≠ n →
           od_lookup k (_outputs (self s')) = od_lookup k (_outputs (self s))) ∧
     S (length (_outputs (self s'))) = length (_outputs (self s)) ∧
     _inputs (self s') = _inputs (self s) ∧
     remove_output_metadata n s'
     = (Raised (ValueError ("Output with with name '" +:+ n +:+
                            "' does not exist.")), s')).
Proof.
  split; intros Hwf [old Hold].
  - unfold remove_input_metadata at 1. rewrite Hold.
    eexists. split; [reflexivity|]. cbn.
    split; [apply od_lookup_delete_eq|].
    split; [intros k Hk; by apply od_lookup_delete_ne|].
    split; [by apply length_od_delete|]. split; [done|].
    unfold remove_input_metadata. cbn. by rewrite od_lookup_delete_eq.
  - unfold remove_output_metadata at 1. rewrite Hold.
    eexists. split; [reflexivity|]. cbn.
    split; [apply od_lookup_delete_eq|].
    split; [intros k Hk; by apply od_lookup_delete_ne|].
    split; [by apply length_od_delete|]. split; [done|].
    unfold remove_output_metadata. cbn. by rewrite od_lookup_delete_eq.
Qed.

(** X20: [save_metadata] raises [ValueError] and writes nothing when
    there is more than one output, and writes the metadata otherwise, also
    when there is no output.  [save_model_with_metadata] saves the model
    before that check: with more than one output the model is saved and
    the call then raises without writing metadata. *)
Theorem save_model_with_metadata_saves_the_model_first (s : State) file_path :
  let saved := SavedModel (model_id (_loaded_model (self s))) file_path
                          (_saved_model_args (self s)) in
  (1 < length (_outputs (self s)) →
   save_metadata file_path s
   = (Raised (ValueError "Number of outputs is more than 1."), s) ∧
   save_model_with_metadata file_path s
   = (Raised (ValueError "Number of outputs is more than 1."),
      mkState (self s) (events s ++ [saved]))) ∧
  (length (_outputs (self s)) ≤ 1 →
   save_metadata file_path s
   = (Returned tt,
      mkState (self s) (events s ++ [WroteMetadata (get_metadata s) file_path])) ∧
   save_model_with_metadata file_path s
   = (Returned file_path,
      mkState (self s)
        (events s ++ [saved; WroteMetadata (get_metadata s) file_path]))).
Proof.
  cbv zeta. unfold save_model_with_metadata, save_metadata, emit. cbn.
  split; intros Hlen.
  - by rewrite !bool_decide_eq_true_2.
  - rewrite !bool_decide_eq_false_2 by lia. split; [done|].
    by rewrite <- app_assoc.
Qed.

(** X21: with two outputs [save_metadata] raises; after one of them is
    removed with [remove_output_metadata] it succeeds and writes metadata
    with all inputs and the one remaining output. *)
Theorem remove_output_then_save (s : State) (n : string) file_path :
  od_wf (_outputs (self s)) →
  length (_outputs (self s)) = 2 →
  is_Some (od_lookup n (_outputs (self s))) →
  save_metadata file_path s
  = (Raised (ValueError "Number of outputs is more than 1."), s) ∧
  ∃ s1 s2 md,
    remove_output_metadata n s = (Returned tt, s1) ∧
    save_metadata file_path s1 = (Returned tt, s2) ∧
    events s2 = events s ++ [WroteMetadata md file_path] ∧
    length (outputs md) = 1 ∧
    inputs md = od_values (_inputs (self s)) ∧
    (∀ o, o ∈ outputs md → o ∈ od_values (_outputs (self s))).
Proof.
  intros Hwf Hlen Hn. split.
  - unfold save_metadata. rewrite bool_decide_eq_true_2; [done|lia].
  - destruct (remove_output_metadata_run s n Hwf Hn)
      as (s1 & Hrun & _ & _ & Hlen1 & Hin & _).
    assert (Hone : length (_outputs (self s1)) = 1) by lia.
    eexists s1, _, _. split; [done|]. split.
    { unfold save_metadata. rewrite bool_decide_eq_false_2 by lia. reflexivity. }
    unfold remove_output_metadata in Hrun. destruct Hn as [old Hold].
    rewrite Hold in Hrun. injection Hrun as <-.
    unfold get_metadata, emit, set_outputs.
    cbn [self _outputs _inputs events outputs inputs] in *.
    split; [done|]. split.
    + cbn [outputs]. unfold od_values. by rewrite length_fmap.
    + split; [done|]. cbn [outputs]. intros o Ho. unfold od_values in *.
      apply list_elem_of_fmap in Ho as (p & -> & Hp).
      apply list_elem_of_fmap. exists p. split; [done|].
      unfold od_delete in Hp. by apply list_elem_of_filter in Hp as [_ ?].
Qed.

Lemma od_set_keys {V} (k : string) (v : V) (d : odict V) x :
  x ∈ (od_set k v d).*1 ↔ x = k ∨ x ∈ d.*1.
Proof.
  induction d as [|[k' v'] d IH]; simpl.
  - rewrite list_elem_of_singleton, elem_of_nil. tauto.
  - destruct (decide (k' = k)) as [->|Hne]; simpl.
    + rewrite !elem_of_cons. tauto.
    + rewrite !elem_of_cons, IH. tauto.
Qed.

Lemma od_wf_set {V} (k : string) (v : V) (d : odict V) :
  od_wf d → od_wf (od_set k v d).
Proof.
  unfold od_wf. induction d as [|[k' v'] d IH]; simpl.
  - intros _. apply NoDup_singleton.
  - intros [Hnotin Hwf]%NoDup_cons.
    destruct (decide (k' = k)) as [->|Hne]; simpl.
    + by apply NoDup_cons.
    + apply NoDup_cons. split; [|by apply IH].
      rewrite od_set_keys. intros [?|?]; [by apply Hne|by apply Hnotin].
Qed.

Lemma od_wf_dict_of_names {V} (f : string → V) names :
  od_wf (dict_of_names f names).
Proof.
  unfold dict_of_names.
  assert (Hgen : ∀ acc : odict V, od_wf acc →
                   od_wf (foldl (λ d n, od_set n (f n) d) acc names)).
  { induction names as [|n names IH]; intros acc Hacc; [done|].
    cbn [foldl]. apply IH. by apply od_wf_set. }
  apply Hgen. apply NoDup_nil_2.
Qed.

(** X22: for a signature the loaded model does not have,
    [_infer_metadata_entries_from_model] and the constructor raise
    [KeyError] and print nothing.  For a signature of the model they return
    one input metadata per input name and one output metadata per output
    name, each with the name as its tensor name and under distinct keys,
    and print the advisory message exactly when the signature has more than
    one output. *)
Theorem infer_metadata_entries_from_signature
    (loaded_model : LoadedModel) signature_name kwargs log :
  (od_lookup signature_name (signatures loaded_model) = None →
   _infer_metadata_entries_from_model loaded_model signature_name log
   = (Raised (KeyError signature_name), log) ∧
   __init__ loaded_model signature_name kwargs log
   = (Raised (KeyError signature_name), None)) ∧
  (∀ input_sig output_sig,
     od_lookup signature_name (signatures loaded_model)
     = Some (input_sig, output_sig) →
     ∃ ins outs log',
       _infer_metadata_entries_from_model loaded_model signature_name log
       = (Returned (ins, outs), log') ∧
       __init__ loaded_model signature_name kwargs log
       = (Returned tt,
          Some (mkState (mkBuilder kwargs loaded_model ins outs) log')) ∧
       (∀ n, od_lookup n ins
             = if decide (n ∈ input_sig)
               then Some (mkInputMetadata n n None None None None None)
               else None) ∧
       (∀ n, od_lookup n outs
             = if decide (n ∈ output_sig) then Some (mkOutputMetadata n n)
               else None) ∧
       od_wf ins ∧ od_wf outs ∧
       log' = (if bool_decide (1 < length output_sig)
               then log ++ [Printed (multiple_outputs_message signature_name)]
               else log)).
Proof.
  split.
  - intros Hsig. unfold __init__, _infer_metadata_entries_from_model.
    by rewrite Hsig.
  - intros input_sig output_sig Hsig.
    unfold __init__, _infer_metadata_entries_from_model. rewrite Hsig.
    eexists _, _, _. split; [reflexivity|]. split; [reflexivity|].
    split.
    { intros n.
      apply (dict_of_names_lookup
               (λ n, mkInputMetadata n n None None None None None)). }
    split.
    { intros n. apply (dict_of_names_lookup (λ n, mkOutputMetadata n n)). }
    split; [apply od_wf_dict_of_names|].
    split; [apply od_wf_dict_of_names|done].
Qed.
End MetadataBuilderFacts.

(** ** The further properties on concrete inputs *)

Lemma singleton_dict_nonempty :
  nonempty_lists ({["age" := [FeatureTensors_init (TensorObj 1)]]}
                    : feature_dict pyobj).
Proof.
  intros k l Hl. apply lookup_singleton_Some in Hl as [_ <-]. discriminate.
Qed.

Lemma add_operations_keep_lists_nonempty_witness :
  let ft : feature_dict pyobj := {["age" := [FeatureTensors_init (TensorObj 1)]]} in
  nonempty_lists (_add_input_tensor_to_dict col_a (TensorObj 2) ft).2 ∧
  nonempty_lists (_add_encoded_tensor_to_dict col_a (TensorObj 2) ft).2 ∧
  (_add_encoded_tensor_to_dict col_a (TensorObj 2) ft).1 ≠ Raise IndexError.
Proof.
  apply add_operations_keep_lists_nonempty. exact singleton_dict_nonempty.
Defined.

Lemma bucketized_columns_are_not_recorded_witness :
  (categorical_column col_age_bucketized = None →
   _observing_get_dense_tensor constant_tensor col_age_bucketized 0 world_ab
   = constant_tensor col_age_bucketized 0 world_ab) ∧
  (∀ wrapper, categorical_column wrapper = Some col_age_bucketized →
     _observing_get_dense_tensor constant_tensor wrapper 0 world_ab
     = constant_tensor wrapper 0 world_ab) ∧
  _observing_get_sparse_tensors constant_tensor col_age_bucketized 0 world_ab
  = constant_tensor col_age_bucketized 0 world_ab ∧
  _observing_create_weighted_sum constant_tensor col_age_bucketized 0 world_ab
  = constant_tensor col_age_bucketized 0 world_ab.
Proof.
  apply bucketized_columns_are_not_recorded. reflexivity.
Defined.

Lemma sparse_then_weighted_sum_records_witness :
  ∃ w2 l,
    _observing_get_sparse_tensors sparse_original col_a_weighted 0 world_ab
    = (Ok (IdWeightPairObj 20 (SparseTensorObj 3) None), w2) ∧
    _feature_tensors_dict (helper w2) !! name (base_column col_a_weighted)
    = Some l ∧
    py_in (IdWeightPairObj 20 (SparseTensorObj 3) None) (input_tensor <$> l)
    = true ∧
    ∀ e w3,
      constant_tensor col_a_weighted 1 w2 = (Ok e, w3) →
      _feature_tensors_dict (helper w3) = _feature_tensors_dict (helper w2) →
      ∃ w4 l0 r,
        _observing_create_weighted_sum constant_tensor col_a_weighted 1 w2
        = (Ok e, w4) ∧
        l = l0 ++ [r] ∧
        _feature_tensors_dict (helper w4) !! name (base_column col_a_weighted)
        = Some (l0 ++ [with_encoded e r]).
Proof.
  apply (sparse_then_weighted_sum_records sparse_original constant_tensor
           col_a_weighted 0 1 world_ab _ world_ab); try reflexivity.
  by eexists.
Defined.

Lemma sparse_then_dense_records_witness :
  ∃ w2 l,
    _observing_get_sparse_tensors sparse_original col_a 0 world_ab
    = (Ok (IdWeightPairObj 20 (SparseTensorObj 3) None), w2) ∧
    _feature_tensors_dict (helper w2) !! name col_a = Some l ∧
    py_in (IdWeightPairObj 20 (SparseTensorObj 3) None) (input_tensor <$> l)
    = true ∧
    ∀ e w3,
      constant_tensor col_a_embedding 1 w2 = (Ok e, w3) →
      _feature_tensors_dict (helper w3) = _feature_tensors_dict (helper w2) →
      ∃ w4 l0 r,
        _observing_get_dense_tensor constant_tensor col_a_embedding 1 w2
        = (Ok e, w4) ∧
        l = l0 ++ [r] ∧
        _feature_tensors_dict (helper w4) !! name col_a
        = Some (l0 ++ [with_encoded e r]).
Proof.
  apply (sparse_then_dense_records sparse_original constant_tensor
           col_a col_a_embedding 0 1 world_ab _ world_ab); reflexivity.
Defined.

Lemma transform_hook_only_adds_missing_names_witness :
  ∃ w2,
    _observing_transform_features_v2 transform_original 0 0 0 world_ab
    = (Ok [(col_age, TensorObj 4); (col_a, SparseTensorObj 5);
           (col_a_embedding, TensorObj 6)], w2) ∧
    (∀ n l, _feature_tensors_dict (helper world_ab) !! n = Some l →
            _feature_tensors_dict (helper w2) !! n = Some l) ∧
    (∀ n, _feature_tensors_dict (helper world_ab) !! n = None →
          _feature_tensors_dict (helper w2) !! n = None ∨
          ∃ t, _feature_tensors_dict (helper w2) !! n
               = Some [FeatureTensors_init t]) ∧
    (∀ fc t, (fc, t) ∈ [(col_age, TensorObj 4); (col_a, SparseTensorObj 5);
                        (col_a_embedding, TensorObj 6)] →
             categorical_column fc = None →
             is_Some (_feature_tensors_dict (helper w2) !! name fc)) ∧
    _output_tensors_dict (helper w2) = _output_tensors_dict (helper world_ab) ∧
    _crossed_columns (helper w2) = _crossed_columns (helper world_ab) ∧
    attrs w2 = attrs world_ab.
Proof.
  apply (transform_hook_only_adds_missing_names transform_original 0 0 0
           world_ab _ world_ab). reflexivity.
Defined.

Lemma crossed_constituent_without_record_raises_witness :
  (∃ w2,
     _observing_get_dense_tensor constant_tensor a_X_c_indicator 0 world_ab
     = (Raise (ValueError "Trying to add encoded tensors with no input tensor."),
        w2) ∧
     _crossed_columns (helper w2)
     = _crossed_columns (helper world_ab) ∪ list_to_set (name <$> [col_a])
       ∪ {[name col_c]} ∧
     (∀ k', k' ∈ [col_a] →
            ∃ l0 r,
              _feature_tensors_dict (helper world_ab) !! name k' = Some (l0 ++ [r]) ∧
              _feature_tensors_dict (helper w2) !! name k'
              = Some (l0 ++ [with_encoded (TensorObj 9) r])) ∧
     (∀ n, n ∉ name <$> [col_a] →
           _feature_tensors_dict (helper w2) !! n
           = _feature_tensors_dict (helper world_ab) !! n)) ∧
  (∃ w2,
     _observing_get_dense_tensor constant_tensor a_X_raw_indicator 0 world_ab
     = (Raise (AttributeError "name"), w2) ∧
     _crossed_columns (helper w2)
     = _crossed_columns (helper world_ab) ∪ list_to_set (name <$> [col_a]) ∧
     (∀ k', k' ∈ [col_a] →
            ∃ l0 r,
              _feature_tensors_dict (helper world_ab) !! name k' = Some (l0 ++ [r]) ∧
              _feature_tensors_dict (helper w2) !! name k'
              = Some (l0 ++ [with_encoded (TensorObj 9) r])) ∧
     (∀ n, n ∉ name <$> [col_a] →
           _feature_tensors_dict (helper w2) !! n
           = _feature_tensors_dict (helper world_ab) !! n)) ∧
  _observing_create_weighted_sum constant_tensor a_X_raw 0 world_ab
  = (Raise (AttributeError "name"), world_ab).
Proof.
  assert (Hrec : ∀ k', k' ∈ [col_a] →
            ∃ l0 r, _feature_tensors_dict (helper world_ab) !! name k'
                    = Some (l0 ++ [r])).
  { intros k' Hk'. apply list_elem_of_singleton in Hk' as ->.
    eexists [], _. reflexivity. }
  split; [|split].
  - apply (proj1 crossed_constituent_without_record_raises constant_tensor
             a_X_c_indicator a_X_c 0 world_ab world_ab (TensorObj 9)
             [col_a] col_c []); try reflexivity. exact Hrec.
  - apply (proj1 (proj2 crossed_constituent_without_record_raises)
             constant_tensor a_X_raw_indicator a_X_raw 0 world_ab world_ab
             (TensorObj 9) [col_a] "raw" []); try reflexivity. exact Hrec.
  - apply (proj2 (proj2 crossed_constituent_without_record_raises)
             constant_tensor a_X_raw 0 world_ab world_ab (TensorObj 9)
             [col_a] "raw" []); reflexivity.
Defined.

Lemma dense_hook_records_plain_column_input_witness :
  ∃ w2 l,
    _observing_get_dense_tensor constant_tensor col_age 0 world_ab
    = (Ok (TensorObj 9), w2) ∧
    _feature_tensors_dict (helper w2) !! name col_age = Some l ∧
    py_in (TensorObj 9) (input_tensor <$> l) = true ∧
    (∀ n, n ≠ name col_age →
          _feature_tensors_dict (helper w2) !! n
          = _feature_tensors_dict (helper world_ab) !! n) ∧
    _crossed_columns (helper w2) = _crossed_columns (helper world_ab).
Proof.
  apply (dense_hook_records_plain_column_input constant_tensor col_age 0
           world_ab (TensorObj 9) world_ab); reflexivity.
Defined.


Lemma nested_scope_leaves_replacements_witness :
  ∃ w4 : World pyobj,
    exporting_context None (exporting_context (Some "logits") (mret tt)) world0
    = (Ok tt, w4) ∧
    ∀ s, s ∈ patched_slots →
         ∃ f, attrs world0 !! s = Some f ∧
              attrs w4 !! s = Some (replacement None s.2 f).
Proof.
  apply nested_scope_leaves_replacements. exact world0_present.
Defined.

Lemma world0_dense_originals :
  Forall2 (λ o f, attrs world0_without_transform !! (o, "get_dense_tensor") = Some f)
          _FEATURE_COLUMNS_TO_PATCH_DENSE (Builtin <$> seq 0 5).
Proof. repeat constructor. Qed.

Lemma world0_sparse_originals :
  Forall2 (λ o f, attrs world0_without_transform !! (o, "get_sparse_tensors") = Some f)
          _FEATURE_COLUMNS_TO_PATCH_SPARSE (Builtin <$> seq 5 7).
Proof. repeat constructor. Qed.

Lemma failed_entry_leaves_replacements_witness :
  ∃ w',
    exporting_context None failing_export world0_without_transform
    = (Raise (AttributeError "_transform_features_v2"), w') ∧
    (∀ s, s ∈ patched_slots → s ≠ (fc2, "_transform_features_v2") →
          ∃ f, attrs world0_without_transform !! s = Some f ∧
               attrs w' !! s = Some (replacement None s.2 f)) ∧
    attrs w' !! (fc2, "_transform_features_v2") = None ∧
    _actual_get_dense_tensor_list (helper w') = Some (Builtin <$> seq 0 5) ∧
    _actual_get_sparse_tensors_list (helper w') = Some (Builtin <$> seq 5 7) ∧
    _actual_create_weighted_sum (helper w') = Some (Builtin 12) ∧
    _actual_export_for_mode (helper w') = Some (Builtin 13) ∧
    _actual_transform (helper w') = _actual_transform (helper world0_without_transform).
Proof.
  apply failed_entry_leaves_replacements.
  - exact world0_dense_originals.
  - exact world0_sparse_originals.
  - reflexivity.
  - reflexivity.
  - reflexivity.
Defined.

Module MetadataBuilderExamples.
Import MetadataBuilder.

Lemma example_inputs_wf : od_wf (_inputs (self example_builder)).
Proof. unfold od_wf. compute_done. Qed.

Lemma example_outputs_wf : od_wf (_outputs (self example_builder)).
Proof. unfold od_wf. compute_done. Qed.

Lemma unknown_name_raises_and_changes_nothing_witness :
  set_numeric_metadata example_InputMetadata_raises "height" (Some "h") None
    None example_builder
  = (Raised (ValueError (missing_input_message "height")), example_builder) ∧
  remove_output_metadata "height" example_builder
  = (Raised (ValueError ("Output with with name '" +:+ "height" +:+
                         "' does not exist.")), example_builder).
Proof.
  pose proof (MetadataBuilderFacts.unknown_name_raises_and_changes_nothing
                example_builder "height") as [Hin Hout].
  split.
  - apply (proj1 (Hin eq_refl)).
  - apply (proj2 (Hout eq_refl)).
Defined.

Lemma set_numeric_metadata_keeps_tensor_name_witness :
  (∃ s',
     set_numeric_metadata example_InputMetadata_raises "age"
       (Some "age_years") (Some 3) (Some ["years"]) example_builder
     = (Returned tt, s') ∧
     od_lookup "age_years" (_inputs (self s'))
     = Some (mkInputMetadata "age_years" "age:0" (Some 3) (Some ["years"])
               (Some BAG_OF_FEATURES) None None) ∧
     ("age_years" ≠ "age" → od_lookup "age" (_inputs (self s')) = None) ∧
     (∀ k, k ≠ "age" → k ≠ "age_years" →
           od_lookup k (_inputs (self s'))
           = od_lookup k (_inputs (self example_builder))) ∧
     _outputs (self s') = _outputs (self example_builder) ∧
     events s' = events example_builder) ∧
  (∃ s',
     set_numeric_metadata example_InputMetadata_raises "age"
       (Some "age_years") (Some 3) (Some ["years"; "years"]) example_builder
     = (Raised (ValueError "index_feature_mapping"), s') ∧
     od_lookup "age" (_inputs (self s')) = None ∧
     (∀ k, k ≠ "age" →
           od_lookup k (_inputs (self s'))
           = od_lookup k (_inputs (self example_builder))) ∧
     _outputs (self s') = _outputs (self example_builder) ∧
     events s' = events example_builder).
Proof.
  split.
  - apply (proj1 (MetadataBuilderFacts.set_numeric_metadata_keeps_tensor_name
                    example_InputMetadata_raises example_builder "age"
                    (Some "age_years") (Some 3) (Some ["years"])
                    (mkInputMetadata "age" "age:0" None None None None None)
                    eq_refl)).
    vm_compute. reflexivity.
  - apply (proj2 (MetadataBuilderFacts.set_numeric_metadata_keeps_tensor_name
                    example_InputMetadata_raises example_builder "age"
                    (Some "age_years") (Some 3) (Some ["years"; "years"])
                    (mkInputMetadata "age" "age:0" None None None None None)
                    eq_refl)).
    vm_compute. reflexivity.
Defined.

Lemma set_image_metadata_keeps_tensor_name_witness :
  (∃ s',
     set_image_metadata example_InputMetadata_raises "photo" None None
       (Some 8) example_builder
     = (Returned tt, s') ∧
     od_lookup "photo" (_inputs (self s'))
     = Some (mkInputMetadata "photo" "photo:0" None None None (Some IMAGE)
               (Some 8)) ∧
     ("photo" ≠ "photo" → od_lookup "photo" (_inputs (self s')) = None) ∧
     (∀ k, k ≠ "photo" → k ≠ "photo" →
           od_lookup k (_inputs (self s'))
           = od_lookup k (_inputs (self example_builder))) ∧
     _outputs (self s') = _outputs (self example_builder) ∧
     events s' = events example_builder) ∧
  (∃ s',
     set_image_metadata example_InputMetadata_raises "photo" None None
       (Some 0) example_builder
     = (Raised (ValueError "visualization"), s') ∧
     od_lookup "photo" (_inputs (self s')) = None ∧
     (∀ k, k ≠ "photo" →
           od_lookup k (_inputs (self s'))
           = od_lookup k (_inputs (self example_builder))) ∧
     _outputs (self s') = _outputs (self example_builder) ∧
     events s' = events example_builder).
Proof.
  split.
  - apply (proj1 (MetadataBuilderFacts.set_image_metadata_keeps_tensor_name
                    example_InputMetadata_raises example_builder "photo" None
                    None (Some 8)
                    (mkInputMetadata "photo" "photo:0" None None None None None)
                    eq_refl)).
    vm_compute. reflexivity.
  - apply (proj2 (MetadataBuilderFacts.set_image_metadata_keeps_tensor_name
                    example_InputMetadata_raises example_builder "photo" None
                    None (Some 0)
                    (mkInputMetadata "photo" "photo:0" None None None None None)
                    eq_refl)).
    vm_compute. reflexivity.
Defined.

Lemma renaming_onto_an_existing_input_replaces_it_witness :
  (∃ s',
     set_numeric_metadata example_InputMetadata_raises "age" (Some "photo")
       None None example_builder
     = (Returned tt, s') ∧
     S (length (_inputs (self s'))) = length (_inputs (self example_builder)) ∧
     od_lookup "age" (_inputs (self s')) = None ∧
     od_lookup "photo" (_inputs (self s'))
     = Some (mkInputMetadata "photo" "age:0" None None (Some IDENTITY)
               None None) ∧
     input_tensor_name <$> od_lookup "photo" (_inputs (self s'))
     = Some "age:0") ∧
  (∃ s',
     set_numeric_metadata example_InputMetadata_raises "age" (Some "photo")
       None (Some ["years"; "years"]) example_builder
     = (Raised (ValueError "index_feature_mapping"), s') ∧
     S (length (_inputs (self s'))) = length (_inputs (self example_builder)) ∧
     od_lookup "age" (_inputs (self s')) = None ∧
     od_lookup "photo" (_inputs (self s'))
     = Some (mkInputMetadata "photo" "photo:0" None None None None None)).
Proof.
  split.
  - apply (proj1 (MetadataBuilderFacts.renaming_onto_an_existing_input_replaces_it
                    example_InputMetadata_raises example_builder "age" "photo"
                    None None
                    (mkInputMetadata "age" "age:0" None None None None None)
                    (mkInputMetadata "photo" "photo:0" None None None None None)
                    example_inputs_wf ltac:(discriminate) ltac:(discriminate)
                    eq_refl eq_refl)).
    vm_compute. reflexivity.
  - apply (proj2 (MetadataBuilderFacts.renaming_onto_an_existing_input_replaces_it
                    example_InputMetadata_raises example_builder "age" "photo"
                    None (Some ["years"; "years"])
                    (mkInputMetadata "age" "age:0" None None None None None)
                    (mkInputMetadata "photo" "photo:0" None None None None None)
                    example_inputs_wf ltac:(discriminate) ltac:(discriminate)
                    eq_refl eq_refl)).
    vm_compute. reflexivity.
Defined.

Lemma set_output_metadata_renames_witness :
  set_output_metadata "logits" "logits" example_builder
  = (Returned tt, example_builder) ∧
  ∃ s',
    set_output_metadata "logits" "scores" example_builder = (Returned tt, s') ∧
    od_lookup "scores" (_outputs (self s'))
    = Some (mkOutputMetadata "scores" "logits:0") ∧
    od_lookup "logits" (_outputs (self s')) = None ∧
    (∀ k, k ≠ "logits" → k ≠ "scores" →
          od_lookup k (_outputs (self s'))
          = od_lookup k (_outputs (self example_builder))) ∧
    _inputs (self s') = _inputs (self example_builder) ∧
    events s' = events example_builder.
Proof.
  pose proof (MetadataBuilderFacts.set_output_metadata_renames
                example_builder "logits" "scores"
                (mkOutputMetadata "logits" "logits:0") eq_refl) as [Hsame Hren].
  split; [exact Hsame|]. apply Hren. discriminate.
Defined.

Lemma remove_metadata_removes_one_entry_witness :
  ∃ s',
    remove_input_metadata "age" example_builder = (Returned tt, s') ∧
    od_lookup "age" (_inputs (self s')) = None ∧
    (∀ k, k ≠ "age" →
          od_lookup k (_inputs (self s'))
          = od_lookup k (_inputs (self example_builder))) ∧
    S (length (_inputs (self s'))) = length (_inputs (self example_builder)) ∧
    _outputs (self s') = _outputs (self example_builder) ∧
    remove_input_metadata "age" s'
    = (Raised (ValueError (missing_input_message "age")), s').
Proof.
  apply (proj1 (MetadataBuilderFacts.remove_metadata_removes_one_entry
                  example_builder "age")).
  - exact example_inputs_wf.
  - by eexists.
Defined.

Lemma save_model_with_metadata_saves_the_model_first_witness :
  save_metadata "gs://bucket/model" example_builder
  = (Raised (ValueError "Number of outputs is more than 1."), example_builder) ∧
  save_model_with_metadata "gs://bucket/model" example_builder
  = (Raised (ValueError "Number of outputs is more than 1."),
     mkState (self example_builder)
       (events example_builder ++ [SavedModel 1 "gs://bucket/model" 0])).
Proof.
  apply (proj1 (MetadataBuilderFacts.save_model_with_metadata_saves_the_model_first
                  example_builder "gs://bucket/model")).
  simpl. lia.
Defined.

Lemma remove_output_then_save_witness :
  save_metadata "gs://bucket/model" example_builder
  = (Raised (ValueError "Number of outputs is more than 1."), example_builder) ∧
  ∃ s1 s2 md,
    remove_output_metadata "logits" example_builder = (Returned tt, s1) ∧
    save_metadata "gs://bucket/model" s1 = (Returned tt, s2) ∧
    events s2 = events example_builder ++ [WroteMetadata md "gs://bucket/model"] ∧
    length (outputs md) = 1 ∧
    inputs md = od_values (_inputs (self example_builder)) ∧
    (∀ o, o ∈ outputs md → o ∈ od_values (_outputs (self example_builder))).
Proof.
  apply MetadataBuilderFacts.remove_output_then_save.
  - exact example_outputs_wf.
  - reflexivity.
  - by eexists.
Defined.

Lemma infer_metadata_entries_from_signature_witness :
  ∃ ins outs log',
    _infer_metadata_entries_from_model (_loaded_model (self example_builder))
      "serving_default" [] = (Returned (ins, outs), log') ∧
    __init__ (_loaded_model (self example_builder)) "serving_default" 0 []
    = (Returned tt,
       Some (mkState (mkBuilder 0 (_loaded_model (self example_builder))
                        ins outs) log')) ∧
    (∀ n, od_lookup n ins
          = if decide (n ∈ ["age"; "photo"])
            then Some (mkInputMetadata n n None None None None None)
            else None) ∧
    (∀ n, od_lookup n outs
          = if decide (n ∈ ["probabilities"; "logits"])
            then Some (mkOutputMetadata n n) else None) ∧
    od_wf ins ∧ od_wf outs ∧
    log' = (if bool_decide (1 < length ["probabilities"; "logits"])
            then [] ++ [Printed (multiple_outputs_message "serving_default")]
            else []).
Proof.
  apply (proj2 (MetadataBuilderFacts.infer_metadata_entries_from_signature
                  (_loaded_model (self example_builder)) "serving_default" 0 [])).
  reflexivity.
Defined.
End MetadataBuilderExamples.
